(** * Checkout, stock and payment core of kk-server

    A shallow embedding of the order, cart, product and payment services
    (src/services/order.service.ts, cart.service.ts, product.service.ts,
    giftcard.service.ts, voucher.service.ts and the payment service) together
    with the repositories they call.  Collections of the document store are
    finite maps keyed by document id (or by code for vouchers and gift cards);
    arrays inside a document are lists.  JavaScript numbers are modelled by
    integers with exact arithmetic (section Numbers).  An [async] method is a
    computation in the monad [M]: it threads the whole database and either
    returns a value or throws; what a method wrote before it threw stays
    written, as there is no transaction around a request. *)

From Stdlib Require Import ZArith String List Lia Bool.
From stdpp Require Import base option numbers list strings pretty gmap.

Local Open Scope Z_scope.
Local Open Scope string_scope.

(** ** Errors and results *)

(** What a method throws: the error classes of src/errors carry a message and
    an HTTP status code that goes with their name; a plain [Error] has a
    message and no status code. *)
Inductive Exception : Type :=
  | BadRequestError (msg : string)
  | NotFoundError (msg : string)
  | InternalServerError (msg : string)
  | Error (msg : string).

Definition statusCode (e : Exception) : option Z :=
  match e with
  | BadRequestError _ => Some 400
  | NotFoundError _ => Some 404
  | InternalServerError _ => Some 500
  | Error _ => None
  end.

Definition message (e : Exception) : string :=
  match e with
  | BadRequestError m | NotFoundError m | InternalServerError m | Error m => m
  end.

Inductive Result (A : Type) : Type :=
  | Ok (a : A)
  | Throw (e : Exception).
Arguments Ok {A} a.
Arguments Throw {A} e.

Definition isOk {A} (r : Result A) : bool :=
  match r with Ok _ => true | Throw _ => false end.

(** [String.prototype.includes]. *)
Fixpoint isPrefix (p s : string) : bool :=
  match p, s with
  | EmptyString, _ => true
  | String a p', String b s' => if Ascii.eqb a b then isPrefix p' s' else false
  | String _ _, EmptyString => false
  end.

Fixpoint includes (s needle : string) : bool :=
  isPrefix needle s ||
  match s with
  | EmptyString => false
  | String _ s' => includes s' needle
  end.

(** [Array.prototype.join]. *)
Fixpoint join (sep : string) (l : list string) : string :=
  match l with
  | [] => ""
  | [x] => x
  | x :: rest => x ++ sep ++ join sep rest
  end.

(** ** Numbers *)

(** A count (a quantity, a stock level, a karat) is the integer itself.  An
    amount of money is counted in fifths of a paisa: the integer [n] stands
    for the amount [n / 500], so that [cent] of these units make one
    hundredth of the currency unit and [100 * cent] the unit itself; the
    amounts of the examples are numbers of these units.  Prices reach the
    cart from the client unchecked, so an amount need not be a whole number
    of hundredths; on this grid none lies halfway between two hundredths,
    where the outcome of the code's rounding would hang on the binary
    representation of the number, and rounding to two decimals is rounding to
    the nearest hundredth. *)
Definition cent : Z := 5.

(** The multiple of a hundredth nearest to an amount. *)
Definition nearestHundredth (x : Z) : Z := (2 * x + cent) / (2 * cent) * cent.

(** [parseFloat (x.toFixed 2)]. *)
Definition toFixed2 (x : Z) : Z := nearestHundredth x.

(** [Math.round (x * 100) / 100]. *)
Definition roundToHundredths (x : Z) : Z := nearestHundredth x.

(** An amount inside a template literal: the whole part, then the decimals
    it has, without trailing zeros. *)
Definition showAmount (x : Z) : string :=
  let magnitude := Z.abs x in
  let thousandths := (magnitude `mod` (100 * cent)) * 1000 / (100 * cent) in
  (if decide (x < 0) then "-" else "")
  ++ pretty (magnitude / (100 * cent))
  ++ (if decide (thousandths = 0) then ""
      else "." ++ pretty (thousandths / 100)
           ++ (if decide (thousandths `mod` 100 = 0) then ""
               else pretty ((thousandths / 10) `mod` 10)
                    ++ (if decide (thousandths `mod` 10 = 0) then ""
                        else pretty (thousandths `mod` 10)))).

(** ** Data model *)

(** models/product.model.ts, [IVariant] and [IProduct]. *)
Record Variant : Type := mkVariant {
  v_karat : Z;
  v_stoneType : string;
  v_sku : string;
  v_price : Z;
  v_stock : Z;
  v_grossWeight : Z;
  v_isAvailable : bool
}.

Record Product : Type := mkProduct {
  p_productId : string;
  p_name : string;
  p_isActive : bool;
  p_variants : list Variant
}.

(** models/cart.model.ts. *)
Record CartItem : Type := mkCartItem {
  ci_id : string;
  ci_product : string;
  ci_quantity : Z;
  ci_karat : Z;
  ci_sku : string;
  ci_price : Z;
  ci_selectedImage : string
}.

Record AppliedCoupon : Type := mkAppliedCoupon {
  ac_code : string;
  ac_discountId : string;
  ac_discountAmount : Z
}.

Record AppliedVoucher : Type := mkAppliedVoucher {
  av_code : string;
  av_voucherId : string;
  av_name : string;
  av_amount : Z;
  av_discountAmount : Z
}.

Record AppliedGiftCard : Type := mkAppliedGiftCard {
  ag_code : string;
  ag_giftCardId : string;
  ag_redeemedAmount : Z
}.

Record Cart : Type := mkCart {
  c_items : list CartItem;
  c_appliedCoupon : option AppliedCoupon;
  c_appliedVoucher : option AppliedVoucher;
  c_appliedGiftCard : option AppliedGiftCard
}.

(** models/order.model.ts. *)
Inductive IOrderStatus : Type :=
  | PENDING | PROCESSING | SHIPPED | DELIVERED | CANCELLED | FAILED | RETURNED.

#[global] Instance IOrderStatus_eq_dec : EqDecision IOrderStatus.
Proof. solve_decision. Defined.

Record OrderItem : Type := mkOrderItem {
  oi_product : string;
  oi_productName : string;
  oi_productId : string;
  oi_quantity : Z;
  oi_karat : Z;
  oi_stoneType : string;
  oi_sku : string;
  oi_priceAtPurchase : Z;
  oi_grossWeight : Z;
  oi_itemTotal : Z
}.

Record Order : Type := mkOrder {
  o_orderNumber : string;
  o_user : string;
  o_items : list OrderItem;
  o_subtotal : Z;
  o_appliedCoupon : option AppliedCoupon;
  o_appliedVoucher : option AppliedCoupon;
  o_appliedGiftCard : option AppliedGiftCard;
  o_totalDiscountAmount : Z;
  o_shippingCharge : Z;
  o_taxAmount : Z;
  o_total : Z;
  o_status : IOrderStatus;
  o_trackingNumber : option string;
  o_estimatedDeliveryDate : option Z;
  o_actualDeliveryDate : option Z;
  o_cancelReason : option string;
  o_returnReason : option string
}.

(** models/voucher.model.ts and models/giftcard.model.ts. *)
Record Voucher : Type := mkVoucher {
  vo_id : string;
  vo_name : string;
  vo_amount : Z;
  vo_minimumValue : Z;
  vo_used : bool;
  vo_startFrom : Z;
  vo_validUpto : Z;
  vo_usedBy : option string
}.

Inductive IGiftCardStatus : Type :=
  | GC_PENDING | GC_ACTIVE | GC_REDEEMED | GC_EXPIRED | GC_CANCELLED.

#[global] Instance IGiftCardStatus_eq_dec : EqDecision IGiftCardStatus.
Proof. solve_decision. Defined.

Record GiftCardUsage : Type := mkGiftCardUsage {
  gu_userId : string;
  gu_usedAmount : Z;
  gu_orderId : string
}.

Record GiftCard : Type := mkGiftCard {
  gc_id : string;
  gc_remainingAmount : Z;
  gc_status : IGiftCardStatus;
  gc_isActive : bool;
  gc_validUpto : Z;
  gc_usedBy : list GiftCardUsage
}.

(** Modelled from the spec: services/discount.service.ts is not among the
    sources.  A coupon is consumed per user: [markConsumed (code, userId)]
    answers ok, AlreadyUsed or NotFound. *)
Record Coupon : Type := mkCoupon {
  cp_id : string;
  cp_usedBy : list string
}.

(** Modelled from the spec: models/payment.model.ts is not among the sources.
    A payment has status created, captured or failed and method gateway or
    cash on delivery. *)
Inductive IPaymentStatus : Type := CREATED | CAPTURED | PAYMENT_FAILED.
Inductive IPaymentMethod : Type := RAZORPAY | COD.

#[global] Instance IPaymentStatus_eq_dec : EqDecision IPaymentStatus.
Proof. solve_decision. Defined.
#[global] Instance IPaymentMethod_eq_dec : EqDecision IPaymentMethod.
Proof. solve_decision. Defined.

Record Payment : Type := mkPayment {
  pay_id : string;
  pay_orderId : string;
  pay_user : string;
  pay_amount : Z;
  pay_method : IPaymentMethod;
  pay_status : IPaymentStatus;
  pay_razorpayOrderId : option string;
  pay_razorpayPaymentId : option string
}.

(** The whole database, one finite map per collection (payments, which are
    looked up by gateway order id as well as by id, are a list in insertion
    order), and what a request
    reads from the runtime: [now] is the clock ([Date.now ()]) and [random]
    the value of [Math.floor (Math.random () * 1000)]. *)
Record World : Type := mkWorld {
  products : gmap string Product;
  carts : gmap string Cart;
  orders : gmap string Order;
  payments : list Payment;
  vouchers : gmap string Voucher;
  giftCards : gmap string GiftCard;
  coupons : gmap string Coupon;
  users : gmap string string;
  now : Z;
  random : Z
}.

Definition setProducts (x : gmap string Product) (w : World) : World :=
  mkWorld x (carts w) (orders w) (payments w) (vouchers w) (giftCards w)
          (coupons w) (users w) (now w) (random w).
Definition setCarts (x : gmap string Cart) (w : World) : World :=
  mkWorld (products w) x (orders w) (payments w) (vouchers w) (giftCards w)
          (coupons w) (users w) (now w) (random w).
Definition setOrders (x : gmap string Order) (w : World) : World :=
  mkWorld (products w) (carts w) x (payments w) (vouchers w) (giftCards w)
          (coupons w) (users w) (now w) (random w).
Definition setPayments (x : list Payment) (w : World) : World :=
  mkWorld (products w) (carts w) (orders w) x (vouchers w) (giftCards w)
          (coupons w) (users w) (now w) (random w).
Definition setVouchers (x : gmap string Voucher) (w : World) : World :=
  mkWorld (products w) (carts w) (orders w) (payments w) x (giftCards w)
          (coupons w) (users w) (now w) (random w).
Definition setGiftCards (x : gmap string GiftCard) (w : World) : World :=
  mkWorld (products w) (carts w) (orders w) (payments w) (vouchers w) x
          (coupons w) (users w) (now w) (random w).
Definition setCoupons (x : gmap string Coupon) (w : World) : World :=
  mkWorld (products w) (carts w) (orders w) (payments w) (vouchers w)
          (giftCards w) x (users w) (now w) (random w).

(** ** The request monad *)

(** An [async] method: from the database before to what it returns or throws
    and the database after. *)
Definition M (A : Type) : Type := World -> Result A * World.

Definition ret {A} (a : A) : M A := fun w => (Ok a, w).
Definition throw {A} (e : Exception) : M A := fun w => (Throw e, w).
Definition bind {A B} (m : M A) (k : A -> M B) : M B :=
  fun w => match m w with
           | (Ok a, w') => k a w'
           | (Throw e, w') => (Throw e, w')
           end.
(** [try { m } catch (error) { h error }]. *)
Definition tryCatch {A} (m : M A) (h : Exception -> M A) : M A :=
  fun w => match m w with
           | (Ok a, w') => (Ok a, w')
           | (Throw e, w') => h e w'
           end.
Definition gets {A} (f : World -> A) : M A := fun w => (Ok (f w), w).
Definition modify (f : World -> World) : M unit := fun w => (Ok tt, f w).

#[global] Instance M_ret : MRet M := @ret.
#[global] Instance M_bind : MBind M := fun A B k m => bind m k.

(** [for (const x of xs) { await f x }]. *)
Fixpoint forEach {A} (f : A -> M unit) (xs : list A) : M unit :=
  match xs with
  | [] => ret tt
  | x :: rest => f x ;; forEach f rest
  end.

(** [await Promise.all (xs.map (async x => f x))], the callbacks run in order. *)
Fixpoint mapM {A B} (f : A -> M B) (xs : list A) : M (list B) :=
  match xs with
  | [] => ret []
  | x :: rest => y ← f x; ys ← mapM f rest; ret (y :: ys)
  end.

(** ** ProductRepository and ProductService *)

(** A variant with another stock, a product with other variants. *)
Definition withStock (v : Variant) (n : Z) : Variant :=
  mkVariant (v_karat v) (v_stoneType v) (v_sku v) (v_price v) n
            (v_grossWeight v) (v_isAvailable v).

Definition withVariants (p : Product) (vs : list Variant) : Product :=
  mkProduct (p_productId p) (p_name p) (p_isActive p) vs.

(** [findOneAndUpdate ({_id, 'variants.sku': sku}, {$set: {'variants.$.stock':
    newStock}}, {new: true})]: the positional operator addresses the first
    variant with that SKU; without a match nothing is written and the result
    is [null]. *)
Definition updateVariantStock (productId sku : string) (newStock : Z)
  : M (option Product) := fun w =>
  match products w !! productId with
  | Some p =>
      match list_find (fun v => v_sku v = sku) (p_variants p) with
      | Some (i, v) =>
          let p' := withVariants p (<[i := withStock v newStock]> (p_variants p)) in
          (Ok (Some p'), setProducts (<[productId := p']> (products w)) w)
      | None => (Ok None, w)
      end
  | None => (Ok None, w)
  end.

(** product.service.ts, [getProductById].  The ids of a request are taken to
    be ObjectIds: for a string that is none the query rejects with a
    [CastError] where this method reports that no product is found. *)
Definition getProductById (id : string) : M Product :=
  if decide (id = "") then throw (BadRequestError "Product ID is required")
  else
    p ← gets (fun w => products w !! id);
    match p with
    | None => throw (NotFoundError ("Product with id '" ++ id ++ "' not found"))
    | Some p => ret p
    end.

(** The items handed to [reduceStockForOrder]. *)
Record StockItem : Type := mkStockItem {
  si_productId : string;
  si_sku : string;
  si_karat : Z;
  si_quantity : Z
}.

(** One iteration of the loop of [reduceStockForOrder]: the value is the
    message pushed on [errors], if any.  [getProductById] throws where it
    finds no product, so the branch [!product] of the source is never taken
    and the [catch] reports the missing product. *)
Definition reduceStockStep (item : StockItem) : M (option string) :=
  tryCatch
    (product ← getProductById (si_productId item);
     match list_find (fun v => v_sku v = si_sku item /\ v_karat v = si_karat item)
                     (p_variants product) with
     | None =>
         ret (Some ("Variant not found for SKU: " ++ si_sku item ++ ", Karat: "
                    ++ pretty (si_karat item)))
     | Some (_, variant) =>
         if decide (v_stock variant < si_quantity item) then
           ret (Some ("Insufficient stock for SKU: " ++ si_sku item
                      ++ ". Available: " ++ pretty (v_stock variant)
                      ++ ", Required: " ++ pretty (si_quantity item)))
         else
           updateVariantStock (si_productId item) (si_sku item)
             (v_stock variant - si_quantity item) ;;
           ret None
     end)
    (fun error =>
       ret (Some ("Failed to reduce stock for SKU " ++ si_sku item ++ ": "
                  ++ message error))).

Fixpoint reduceStockLoop (orderItems : list StockItem) : M (list string) :=
  match orderItems with
  | [] => ret []
  | item :: rest =>
      e ← reduceStockStep item;
      errors ← reduceStockLoop rest;
      ret (match e with Some m => m :: errors | None => errors end)
  end.

(** product.service.ts, [reduceStockForOrder]. *)
Definition reduceStockForOrder (orderItems : list StockItem) : M unit :=
  errors ← reduceStockLoop orderItems;
  if decide (0 < length errors)%nat then
    throw (BadRequestError ("Stock reduction failed: " ++ join "; " errors))
  else ret tt.

(** product.service.ts, [updateProductStockByVariant]: [quantity] is positive
    to add and negative to reduce. *)
Definition updateProductStockByVariant (productId sku : string) (quantity : Z)
  : M Product :=
  product ← getProductById productId;
  match list_find (fun v => v_sku v = sku) (p_variants product) with
  | None => throw (NotFoundError ("Variant not found for SKU: " ++ sku))
  | Some (_, variant) =>
      let newStock := v_stock variant + quantity in
      if decide (newStock < 0) then
        throw (BadRequestError ("Cannot set negative stock. Current: "
                                ++ pretty (v_stock variant) ++ ", Change: "
                                ++ pretty quantity))
      else
        updatedProduct ← updateVariantStock productId sku newStock;
        match updatedProduct with
        | None => throw (InternalServerError "Failed to update variant stock")
        | Some p => ret p
        end
  end.

(** product.service.ts, [getVariantStock]. *)
Definition getVariantStock (productId sku : string) : M Z :=
  product ← getProductById productId;
  match list_find (fun v => v_sku v = sku) (p_variants product) with
  | None => throw (NotFoundError ("Variant not found for SKU: " ++ sku))
  | Some (_, variant) => ret (v_stock variant)
  end.

(** An entry of [bulkUpdateVariantStock] and the report it returns. *)
Record StockUpdate : Type := mkStockUpdate {
  su_productId : string;
  su_sku : string;
  su_stock : Z
}.

Record BulkReport : Type := mkBulkReport {
  br_success : list string;
  br_failed : list (string * string)
}.

(** What the object mapper does with the [_id] of a filter before the query
    runs: a string that no ObjectId can be made of is refused and the query
    rejects with its [CastError], an [Error] whose message names the value.
    A cast gives that error for the strings it refuses.  The service methods
    above read the product by [getProductById] before they write; the bulk
    update hands the id of the request to the repository as it comes. *)
Definition Cast : Type := string -> option Exception.

(** product.repository.ts, [updateVariantStock], called with an id nobody has
    looked at. *)
Definition updateVariantStockOf (cast : Cast) (productId sku : string) (newStock : Z)
  : M (option Product) :=
  match cast productId with
  | Some error => throw error
  | None => updateVariantStock productId sku newStock
  end.

(** The loop of [bulkUpdateVariantStock]: what the repository answers is not
    looked at. *)
Fixpoint bulkUpdateLoop (cast : Cast) (updates : list StockUpdate)
    (results : BulkReport) : M BulkReport :=
  match updates with
  | [] => ret results
  | update :: rest =>
      results' ←
        tryCatch
          (updateVariantStockOf cast (su_productId update) (su_sku update)
                                (su_stock update);;
           ret (mkBulkReport (br_success results ++ [su_sku update])
                             (br_failed results)))
          (fun error =>
             ret (mkBulkReport (br_success results)
                               (br_failed results ++ [(su_sku update, message error)])));
      bulkUpdateLoop cast rest results'
  end.

(** product.service.ts, [bulkUpdateVariantStock]. *)
Definition bulkUpdateVariantStock (cast : Cast) (updates : list StockUpdate)
  : M BulkReport :=
  bulkUpdateLoop cast updates (mkBulkReport [] []).

(** ** VoucherRepository and VoucherService *)

(** [{$set: {used: true, usedBy: userId}}]. *)
Definition withUsed (v : Voucher) (userId : string) : Voucher :=
  mkVoucher (vo_id v) (vo_name v) (vo_amount v) (vo_minimumValue v) true
            (vo_startFrom v) (vo_validUpto v) (Some userId).

(** voucher.repository.ts, [hasUserUsedVoucher]. *)
Definition hasUserUsedVoucher (code userId : string) : M bool :=
  gets (fun w => match vouchers w !! code with
                 | Some v => bool_decide (vo_usedBy v = Some userId)
                 | None => false
                 end).

(** voucher.repository.ts, [markAsUsed]: the filter is [{code, used: false}]. *)
Definition markAsUsed (code userId : string) : M (option Voucher) := fun w =>
  match vouchers w !! code with
  | Some v =>
      if vo_used v then (Ok None, w)
      else (Ok (Some (withUsed v userId)),
            setVouchers (<[code := withUsed v userId]> (vouchers w)) w)
  | None => (Ok None, w)
  end.

(** voucher.service.ts, [getVoucherByCode]. *)
Definition getVoucherByCode (code : string) : M Voucher :=
  v ← gets (fun w => vouchers w !! code);
  match v with
  | None => throw (NotFoundError "Voucher code not found")
  | Some v => ret v
  end.

(** voucher.service.ts, [validateVoucher]. *)
Definition validateVoucher (voucher : Voucher) (subtotal : Z) : M unit :=
  t ← gets now;
  if vo_used voucher then throw (BadRequestError "Voucher has already been used")
  else if decide (t < vo_startFrom voucher) then
    throw (BadRequestError "Voucher is not yet valid")
  else if decide (t > vo_validUpto voucher) then
    throw (BadRequestError "Voucher has expired")
  else if decide (subtotal < vo_minimumValue voucher) then
    throw (BadRequestError ("Minimum purchase of " ++ showAmount (vo_minimumValue voucher)
                            ++ " required"))
  else if decide (vo_amount voucher > subtotal) then
    throw (BadRequestError "Voucher amount exceeds cart total")
  else ret tt.

(** voucher.service.ts, [applyVoucher]: the stored slot, whose [amount] is
    the voucher's amount and whose [discountAmount] is that amount rounded to
    hundredths. *)
Definition voucherService_applyVoucher (code : string) (subtotal : Z)
  : M AppliedVoucher :=
  voucher ← getVoucherByCode code;
  validateVoucher voucher subtotal;;
  let discountAmount := vo_amount voucher in
  ret (mkAppliedVoucher code (vo_id voucher) (vo_name voucher)
                        (vo_amount voucher) (roundToHundredths discountAmount)).

(** voucher.service.ts, [markVoucherAsUsed]. *)
Definition markVoucherAsUsed (code userId : string) : M Voucher :=
  hasUsed ← hasUserUsedVoucher code userId;
  if (hasUsed : bool) then
    throw (BadRequestError "You have already used this voucher")
  else
    voucher ← getVoucherByCode code;
    t ← gets now;
    if vo_used voucher then throw (BadRequestError "Voucher has already been used")
    else if decide (t < vo_startFrom voucher) then
      throw (BadRequestError "Voucher is not yet valid")
    else if decide (t > vo_validUpto voucher) then
      throw (BadRequestError "Voucher has expired")
    else
      updatedVoucher ← markAsUsed code userId;
      match updatedVoucher with
      | None => throw (InternalServerError "Failed to mark voucher as used")
      | Some v => ret v
      end.

(** ** GiftCardRepository and GiftCardService *)

(** A gift card with another status. *)
Definition withGiftStatus (g : GiftCard) (s : IGiftCardStatus) : GiftCard :=
  mkGiftCard (gc_id g) (gc_remainingAmount g) s (gc_isActive g)
             (gc_validUpto g) (gc_usedBy g).

(** giftcard.repository.ts, [updateGiftCardStatus]. *)
Definition updateGiftCardStatus (code : string) (s : IGiftCardStatus) : M unit :=
  modify (fun w =>
    match giftCards w !! code with
    | Some g => setGiftCards (<[code := withGiftStatus g s]> (giftCards w)) w
    | None => w
    end).

(** giftcard.repository.ts, [redeemGiftCard]:
    [$inc: {remainingAmount: -amount}] and a push on [usedBy]. *)
Definition repo_redeemGiftCard (code userId : string) (amount : Z) (orderId : string)
  : M (option GiftCard) := fun w =>
  match giftCards w !! code with
  | Some g =>
      let g' := mkGiftCard (gc_id g) (gc_remainingAmount g - amount) (gc_status g)
                  (gc_isActive g) (gc_validUpto g)
                  (gc_usedBy g ++ [mkGiftCardUsage userId amount orderId]) in
      (Ok (Some g'), setGiftCards (<[code := g']> (giftCards w)) w)
  | None => (Ok None, w)
  end.

(** giftcard.service.ts, [getGiftCardByCode]. *)
Definition getGiftCardByCode (code : string) : M GiftCard :=
  g ← gets (fun w => giftCards w !! code);
  match g with
  | None => throw (NotFoundError "Gift card not found")
  | Some g => ret g
  end.

(** giftcard.service.ts, [validateGiftCardForRedemption]. *)
Definition validateGiftCardForRedemption (code : string) (amount : Z) : M GiftCard :=
  g ← gets (fun w => giftCards w !! code);
  match g with
  | None => throw (NotFoundError "Gift card not found")
  | Some giftCard =>
      if negb (gc_isActive giftCard) then
        throw (BadRequestError "Gift card is not active")
      else if decide (gc_status giftCard = GC_PENDING) then
        throw (BadRequestError "Gift card has not been activated yet")
      else if decide (gc_status giftCard = GC_EXPIRED) then
        throw (BadRequestError "Gift card has expired")
      else if decide (gc_status giftCard = GC_CANCELLED) then
        throw (BadRequestError "Gift card has been cancelled")
      else if decide (gc_status giftCard = GC_REDEEMED
                      /\ gc_remainingAmount giftCard = 0) then
        throw (BadRequestError "Gift card has been fully redeemed")
      else
        t ← gets now;
        if decide (t > gc_validUpto giftCard) then
          updateGiftCardStatus code GC_EXPIRED;;
          throw (BadRequestError "Gift card has expired")
        else if decide (amount > gc_remainingAmount giftCard) then
          throw (BadRequestError
                   ("Insufficient gift card balance. Available: "
                    ++ showAmount (gc_remainingAmount giftCard) ++ ", Requested: "
                    ++ showAmount amount))
        else ret giftCard
  end.

(** giftcard.service.ts, [redeemGiftCard]: the value is the remaining
    amount. *)
Definition redeemGiftCard (code userId : string) (amount : Z) (orderId : string)
  : M Z :=
  validateGiftCardForRedemption code amount;;
  updatedGiftCard ← repo_redeemGiftCard code userId amount orderId;
  match updatedGiftCard with
  | None => throw (InternalServerError "Failed to redeem gift card")
  | Some g =>
      (if decide (gc_remainingAmount g = 0)
       then updateGiftCardStatus code GC_REDEEMED else ret tt);;
      ret (gc_remainingAmount g)
  end.

(** ** DiscountService *)

(** Modelled from the spec: discount.service.ts is not among the sources;
    the lookup answers the coupon or NotFound. *)
Definition getDiscountByCode (code : string) : M Coupon :=
  c ← gets (fun w => coupons w !! code);
  match c with
  | None => throw (NotFoundError "Discount code not found")
  | Some c => ret c
  end.

(** Modelled from the spec: discount.service.ts is not among the sources;
    [markConsumed (code, userId)] answers ok, AlreadyUsed or NotFound. *)
Definition markDiscountAsUsed (code userId : string) : M unit :=
  c ← getDiscountByCode code;
  if bool_decide (userId ∈ cp_usedBy c) then
    throw (BadRequestError "Discount code already used")
  else
    modify (fun w =>
      setCoupons (<[code := mkCoupon (cp_id c) (cp_usedBy c ++ [userId])]> (coupons w)) w).

(** ** CartRepository and CartService *)

Record Totals : Type := mkTotals {
  t_subtotal : Z;
  t_discountAmount : Z;
  t_voucherAmount : Z;
  t_giftCardAmount : Z;
  t_total : Z;
  t_items : nat
}.

(** A line of [getCartWithDetails]: the cart item with the product it
    resolves to. *)
Record CartLine : Type := mkCartLine {
  cl_productId : string;
  cl_productName : string;
  cl_quantity : Z;
  cl_karat : Z;
  cl_sku : string;
  cl_price : Z;
  cl_selectedImage : string
}.

Record CartDetails : Type := mkCartDetails {
  cd_cart : Cart;
  cd_items : list CartLine;
  cd_totals : Totals
}.

Definition emptyCart : Cart := mkCart [] None None None.

(** cart.service.ts, [getCart]: the cart is created on first access. *)
Definition getCart (userId : string) : M Cart := fun w =>
  match carts w !! userId with
  | Some cart => (Ok cart, w)
  | None => (Ok emptyCart, setCarts (<[userId := emptyCart]> (carts w)) w)
  end.

(** [cart.items.reduce ((sum, item) => sum + item.price * item.quantity, 0)]. *)
Definition cartSubtotal (items : list CartItem) : Z :=
  fold_left (fun sum item => sum + ci_price item * ci_quantity item) items 0.

(** cart.service.ts, [calculateCartTotal]; [x || 0] is [default 0 x]. *)
Definition calculateCartTotal (cart : Cart) : Totals :=
  match c_items cart with
  | [] => mkTotals 0 0 0 0 0 0
  | _ :: _ =>
      let subtotal := cartSubtotal (c_items cart) in
      let discountAmount := default 0 (ac_discountAmount <$> c_appliedCoupon cart) in
      let voucherAmount := default 0 (av_discountAmount <$> c_appliedVoucher cart) in
      let giftCardAmount := default 0 (ag_redeemedAmount <$> c_appliedGiftCard cart) in
      let afterDiscounts := subtotal - discountAmount - voucherAmount in
      let total := Z.max 0 (afterDiscounts - giftCardAmount) in
      mkTotals subtotal discountAmount voucherAmount giftCardAmount total
               (length (c_items cart))
  end.

(** cart.service.ts, [getCartWithDetails]. *)
Definition getCartWithDetails (userId : string) : M CartDetails :=
  cart ← getCart userId;
  match c_items cart with
  | [] => ret (mkCartDetails cart [] (mkTotals 0 0 0 0 0 0))
  | _ :: _ =>
      ps ← mapM (fun item => getProductById (ci_product item)) (c_items cart);
      itemsWithDetails ←
        mapM (fun '(item, product) =>
                match list_find (fun v => v_sku v = ci_sku item) (p_variants product) with
                | None => throw (NotFoundError ("Variant not found for SKU: " ++ ci_sku item))
                | Some _ =>
                    ret (mkCartLine (ci_product item) (p_name product)
                           (ci_quantity item) (ci_karat item) (ci_sku item)
                           (ci_price item) (ci_selectedImage item))
                end)
             (zip (c_items cart) ps);
      ret (mkCartDetails cart itemsWithDetails (calculateCartTotal cart))
  end.

(** cart.repository.ts, [applyVoucher], [applyGiftCard] and [clearCartItems]:
    [findOneAndUpdate ({user: userId}, {$set: ...}, {new: true})]. *)
Definition updateCart (userId : string) (f : Cart -> Cart) : M (option Cart) := fun w =>
  match carts w !! userId with
  | Some cart => (Ok (Some (f cart)), setCarts (<[userId := f cart]> (carts w)) w)
  | None => (Ok None, w)
  end.

Definition cartRepo_applyVoucher (userId : string) (v : AppliedVoucher) : M (option Cart) :=
  updateCart userId
    (fun c => mkCart (c_items c) (c_appliedCoupon c) (Some v) (c_appliedGiftCard c)).

Definition cartRepo_applyGiftCard (userId : string) (g : AppliedGiftCard) : M (option Cart) :=
  updateCart userId
    (fun c => mkCart (c_items c) (c_appliedCoupon c) (c_appliedVoucher c) (Some g)).

Definition cartRepo_clearCartItems (userId : string) : M (option Cart) :=
  updateCart userId
    (fun c => mkCart [] (c_appliedCoupon c) (c_appliedVoucher c) (c_appliedGiftCard c)).

(** cart.service.ts, [applyVoucher]. *)
Definition applyVoucher (userId code : string) : M (option Cart) :=
  cart ← getCart userId;
  match c_items cart with
  | [] => throw (BadRequestError "Cart is empty")
  | _ :: _ =>
      result ← voucherService_applyVoucher code (cartSubtotal (c_items cart));
      cartRepo_applyVoucher userId result
  end.

(** cart.service.ts, [applyGiftCard]. *)
Definition applyGiftCard (userId code : string) (amount : Z) : M Cart :=
  cart ← getCart userId;
  match c_items cart with
  | [] => throw (BadRequestError "Cart is empty")
  | _ :: _ =>
      let currentTotal := t_total (calculateCartTotal cart) in
      if decide (amount > currentTotal) then
        throw (BadRequestError ("Gift card amount (" ++ showAmount amount
                                ++ ") cannot exceed cart total ("
                                ++ showAmount currentTotal ++ ")"))
      else
        giftCard ← validateGiftCardForRedemption code amount;
        updatedCart ← cartRepo_applyGiftCard userId
                        (mkAppliedGiftCard code (gc_id giftCard) amount);
        match updatedCart with
        | None => throw (InternalServerError "Failed to apply gift card to cart")
        | Some c => ret c
        end
  end.

(** cart.service.ts, [clearCartItems]. *)
Definition clearCartItems (userId : string) : M (option Cart) :=
  cart ← getCart userId;
  match c_items cart with
  | [] => ret (Some cart)
  | _ :: _ => cartRepo_clearCartItems userId
  end.

(** cart.repository.ts, [clearGiftCard], [clearVoucher] and [removeDiscount]:
    [findOneAndUpdate ({user: userId}, {$unset: ...}, {new: true})]. *)
Definition cartRepo_clearGiftCard (userId : string) : M (option Cart) :=
  updateCart userId
    (fun c => mkCart (c_items c) (c_appliedCoupon c) (c_appliedVoucher c) None).

Definition cartRepo_clearVoucher (userId : string) : M (option Cart) :=
  updateCart userId
    (fun c => mkCart (c_items c) (c_appliedCoupon c) None (c_appliedGiftCard c)).

(** ['coupon' | 'voucher' | 'all']. *)
Inductive DiscountType : Type := coupon | voucher | all.

#[global] Instance DiscountType_eq_dec : EqDecision DiscountType.
Proof. solve_decision. Defined.

Definition cartRepo_removeDiscount (userId : string) (type : DiscountType)
  : M (option Cart) :=
  updateCart userId
    (fun c => mkCart (c_items c)
                (match type with coupon | all => None | voucher => c_appliedCoupon c end)
                (match type with voucher | all => None | coupon => c_appliedVoucher c end)
                (c_appliedGiftCard c)).

(** [!cart.appliedCoupon] and its like, on the cart [getCart] hands out.
    The three slots are nested paths of the cart schema
    (models/cart.model.ts), and a document read from the store holds an
    object under a nested path whether or not anything is stored there: the
    negation is false of every cart. *)
Definition slotMissing {A : Type} (slot : option A) : bool := false.

(** cart.service.ts, [removeDiscount]. *)
Definition removeDiscount (userId : string) (type : DiscountType) : M (option Cart) :=
  cart ← getCart userId;
  match c_items cart with
  | [] => throw (BadRequestError "Cart is empty")
  | _ :: _ =>
      if bool_decide (type = coupon) && slotMissing (c_appliedCoupon cart) then
        throw (NotFoundError "No coupon discount applied to cart")
      else if bool_decide (type = voucher) && slotMissing (c_appliedVoucher cart) then
        throw (NotFoundError "No voucher discount applied to cart")
      else if bool_decide (type = all) && slotMissing (c_appliedCoupon cart)
              && slotMissing (c_appliedVoucher cart) then
        throw (NotFoundError "No discounts applied to cart")
      else cartRepo_removeDiscount userId type
  end.

(** cart.service.ts, [removeVoucher]. *)
Definition removeVoucher (userId : string) : M Cart :=
  cart ← getCart userId;
  if slotMissing (c_appliedVoucher cart) then
    throw (NotFoundError "No voucher applied to cart")
  else
    updatedCart ← cartRepo_clearVoucher userId;
    match updatedCart with
    | None => throw (InternalServerError "Failed to remove voucher from cart")
    | Some c => ret c
    end.

(** cart.service.ts, [removeGiftCard]. *)
Definition removeGiftCard (userId : string) : M Cart :=
  cart ← getCart userId;
  if slotMissing (c_appliedGiftCard cart) then
    throw (NotFoundError "No gift card applied to cart")
  else
    updatedCart ← cartRepo_clearGiftCard userId;
    match updatedCart with
    | None => throw (InternalServerError "Failed to remove gift card from cart")
    | Some c => ret c
    end.

(** What [validateCartItems] reports: [validItems] and [needsUpdate] are
    missing from the answer for an empty cart. *)
Record CartIssue : Type := mkCartIssue {
  iss_itemId : string;
  iss_productId : string;
  iss_issue : string
}.

(** An entry of [validItems]: an item of the cart as it is stored, or the
    copy [{...item, quantity}] made of an item whose quantity is lowered.
    The items of the cart [getCart] hands out are subdocuments of a document
    read from the store, and the spread of one copies the properties of the
    wrapper, not the fields of the schema: the copy has the new [quantity]
    and, inside the wrapper's own properties, the item as stored; it has no
    [_id], [product], [sku] or [price] of its own. *)
Inductive ValidItem : Type :=
| asStored (item : CartItem)
| spreadWith (item : CartItem) (quantity : Z).

Record CartValidation : Type := mkCartValidation {
  cv_valid : bool;
  cv_issues : list CartIssue;
  cv_validItems : option (list ValidItem);
  cv_needsUpdate : option bool
}.

(** One turn of the loop of [validateCartItems]: the issue it pushes, if any,
    and the entry it pushes on [validItems], if any. *)
Definition validateCartItem (item : CartItem) : M (option CartIssue * option ValidItem) :=
  let issue text := Some (mkCartIssue (ci_id item) (ci_product item) text) in
  tryCatch
    (product ← getProductById (ci_product item);
     if negb (p_isActive product) then ret (issue "Product no longer available", None)
     else
       match list_find (fun v => v_sku v = ci_sku item) (p_variants product) with
       | None => ret (issue "Variant no longer available", None)
       | Some (_, variant) =>
           if negb (v_isAvailable variant) then
             ret (issue "Variant is no longer available", None)
           else if decide (v_stock variant < ci_quantity item) then
             ret (issue ("Only " ++ pretty (v_stock variant)
                         ++ " items available, but " ++ pretty (ci_quantity item)
                         ++ " requested"),
                  if decide (v_stock variant > 0) then
                    Some (spreadWith item (Z.min (ci_quantity item) (v_stock variant)))
                  else None)
           else ret (None, Some (asStored item))
       end)
    (fun _ => ret (issue "Error validating product", None)).

Fixpoint validateCartLoop (items : list CartItem)
  : M (list CartIssue * list ValidItem) :=
  match items with
  | [] => ret ([], [])
  | item :: rest =>
      r ← validateCartItem item;
      rs ← validateCartLoop rest;
      ret ((option_list r.1 ++ rs.1)%list, (option_list r.2 ++ rs.2)%list)
  end.

(** cart.service.ts, [validateCartItems], for a user. *)
Definition validateCartItems (userId : string) : M CartValidation :=
  cart ← getCart userId;
  match c_items cart with
  | [] => ret (mkCartValidation true [] None None)
  | _ :: _ =>
      r ← validateCartLoop (c_items cart);
      ret (mkCartValidation (bool_decide (length r.1 = 0%nat)) r.1 (Some r.2)
                            (Some (bool_decide (0 < length r.1)%nat)))
  end.

(** ** OrderRepository *)

(** The fields a status update can write; the rest of an order is frozen at
    creation. *)
Definition withLifecycle (o : Order) (status : IOrderStatus)
    (tracking : option string) (eta actual : option Z)
    (cancelReason returnReason : option string) : Order :=
  mkOrder (o_orderNumber o) (o_user o) (o_items o) (o_subtotal o)
          (o_appliedCoupon o) (o_appliedVoucher o) (o_appliedGiftCard o)
          (o_totalDiscountAmount o) (o_shippingCharge o) (o_taxAmount o)
          (o_total o) status tracking eta actual cancelReason returnReason.

(** [findByIdAndUpdate (orderId, update, {new: true})]. *)
Definition updateOrderDoc (orderId : string) (f : Order -> Order) : M (option Order) :=
  fun w =>
  match orders w !! orderId with
  | Some o => (Ok (Some (f o)), setOrders (<[orderId := f o]> (orders w)) w)
  | None => (Ok None, w)
  end.

(** order.repository.ts, [updateOrderStatus]. *)
Definition orderRepo_updateOrderStatus (orderId : string) (status : IOrderStatus)
  : M (option Order) :=
  t ← gets now;
  updateOrderDoc orderId (fun o =>
    withLifecycle o status (o_trackingNumber o) (o_estimatedDeliveryDate o)
      (if decide (status = DELIVERED) then Some t else o_actualDeliveryDate o)
      (o_cancelReason o) (o_returnReason o)).

(** order.repository.ts, [cancelOrder] and [returnOrder]. *)
Definition orderRepo_cancelOrder (orderId reason : string) : M (option Order) :=
  updateOrderDoc orderId (fun o =>
    withLifecycle o CANCELLED (o_trackingNumber o) (o_estimatedDeliveryDate o)
      (o_actualDeliveryDate o) (Some reason) (o_returnReason o)).

Definition orderRepo_returnOrder (orderId reason : string) : M (option Order) :=
  updateOrderDoc orderId (fun o =>
    withLifecycle o RETURNED (o_trackingNumber o) (o_estimatedDeliveryDate o)
      (o_actualDeliveryDate o) (o_cancelReason o) (Some reason)).

(** order.repository.ts, [UpdateOrderParams]: the fields of an order a
    general update can set; a field that is not given is left as it is. *)
Record UpdateOrderParams : Type := mkUpdateOrderParams {
  up_status : option IOrderStatus;
  up_trackingNumber : option string;
  up_estimatedDeliveryDate : option Z;
  up_actualDeliveryDate : option Z;
  up_cancelReason : option string;
  up_returnReason : option string
}.

(** order.repository.ts, [updateOrder]: the given fields are set; a status
    of delivered sets the delivery date to now. *)
Definition orderRepo_updateOrder (orderId : string) (updateData : UpdateOrderParams)
  : M (option Order) :=
  t ← gets now;
  updateOrderDoc orderId (fun o =>
    withLifecycle o
      (default (o_status o) (up_status updateData))
      (from_option Some (o_trackingNumber o) (up_trackingNumber updateData))
      (from_option Some (o_estimatedDeliveryDate o)
                   (up_estimatedDeliveryDate updateData))
      (if decide (up_status updateData = Some DELIVERED) then Some t
       else from_option Some (o_actualDeliveryDate o)
                        (up_actualDeliveryDate updateData))
      (from_option Some (o_cancelReason o) (up_cancelReason updateData))
      (from_option Some (o_returnReason o) (up_returnReason updateData))).

(** order.repository.ts, [createOrder]: [newId] is the id the store gives the
    new document; the order number is unique.  The validation of the new
    document against its schema, which can make the call throw as well, is
    left out. *)
Definition orderRepo_createOrder (newId : string) (params : Order) : M Order := fun w =>
  if bool_decide (map_Exists (fun _ o => o_orderNumber o = o_orderNumber params)
                             (orders w))
  then (Throw (Error ("Order number " ++ o_orderNumber params ++ " already exists")), w)
  else (Ok params, setOrders (<[newId := params]> (orders w)) w).

(** ** OrderService *)

(** The string value of a member of the enum [IOrderStatus]. *)
Definition statusName (s : IOrderStatus) : string :=
  match s with
  | PENDING => "pending" | PROCESSING => "processing" | SHIPPED => "shipped"
  | DELIVERED => "delivered" | CANCELLED => "cancelled" | FAILED => "failed"
  | RETURNED => "returned"
  end.

(** order.service.ts, the table [validTransitions] of
    [validateStatusTransition]. *)
Definition validTransitions (currentStatus : IOrderStatus) : list IOrderStatus :=
  match currentStatus with
  | PENDING => [PROCESSING; CANCELLED; FAILED]
  | PROCESSING => [SHIPPED; CANCELLED]
  | SHIPPED => [DELIVERED; CANCELLED]
  | DELIVERED => [RETURNED]
  | CANCELLED => []
  | FAILED => [PENDING]
  | RETURNED => []
  end.

Definition validateStatusTransition (currentStatus newStatus : IOrderStatus) : M unit :=
  if bool_decide (newStatus ∈ validTransitions currentStatus) then ret tt
  else throw (BadRequestError ("Invalid status transition from "
                               ++ statusName currentStatus ++ " to "
                               ++ statusName newStatus)).

(** order.service.ts, [canCancelOrder]. *)
Definition canCancelOrder (status : IOrderStatus) : bool :=
  bool_decide (status ∈ [PENDING; PROCESSING]).

(** order.service.ts, [getOrderById]. *)
Definition getOrderById (orderId : string) : M Order :=
  o ← gets (fun w => orders w !! orderId);
  match o with
  | None => throw (NotFoundError "Order not found")
  | Some o => ret o
  end.

(** order.service.ts, [handleStatusUpdate]: seven days are 604800000 ms;
    [!order.trackingNumber] holds of a missing and of an empty tracking
    number. *)
Definition handleStatusUpdate (orderId : string) (order : Order)
    (newStatus : IOrderStatus) : M unit :=
  match newStatus with
  | PROCESSING =>
      t ← gets now;
      updateOrderDoc orderId (fun o =>
        withLifecycle o (o_status o) (o_trackingNumber o) (Some (t + 604800000))
          (o_actualDeliveryDate o) (o_cancelReason o) (o_returnReason o));;
      ret tt
  | SHIPPED =>
      if bool_decide (o_trackingNumber order = None \/ o_trackingNumber order = Some "")
      then
        t ← gets now;
        r ← gets random;
        updateOrderDoc orderId (fun o =>
          withLifecycle o (o_status o) (Some ("TRK" ++ pretty t ++ pretty r))
            (o_estimatedDeliveryDate o) (o_actualDeliveryDate o)
            (o_cancelReason o) (o_returnReason o));;
        ret tt
      else ret tt
  | _ => ret tt
  end.

(** order.service.ts, [updateOrderStatus]. *)
Definition updateOrderStatus (orderId : string) (status : IOrderStatus) : M Order :=
  order ← getOrderById orderId;
  validateStatusTransition (o_status order) status;;
  updatedOrder ← orderRepo_updateOrderStatus orderId status;
  match updatedOrder with
  | None => throw (InternalServerError "Failed to update order status")
  | Some updatedOrder =>
      handleStatusUpdate orderId updatedOrder status;;
      ret updatedOrder
  end.

(** order.service.ts, [updateOrder]. *)
Definition updateOrder (orderId : string) (updateData : UpdateOrderParams) : M Order :=
  getOrderById orderId;;
  updatedOrder ← orderRepo_updateOrder orderId updateData;
  match updatedOrder with
  | None => throw (InternalServerError "Failed to update order")
  | Some updatedOrder => ret updatedOrder
  end.

(** order.service.ts, [restoreStock]: the loop sits inside the [try]; the
    first failure ends it and is only logged. *)
Definition restoreStock (orderItems : list OrderItem) : M unit :=
  tryCatch
    (forEach (fun item =>
                updateProductStockByVariant (oi_product item) (oi_sku item)
                                            (oi_quantity item);;
                ret tt)
             orderItems)
    (fun _ => ret tt).

(** [userId && order.user.toString () !== userId]; [userId] is optional. *)
Definition notOwner (userId : option string) (owner : string) : bool :=
  match userId with
  | Some u => bool_decide (u <> "") && bool_decide (owner <> u)
  | None => false
  end.

(** order.service.ts, [cancelOrder] and [returnOrder]. *)
Definition cancelOrder (orderId reason : string) (userId : option string) : M Order :=
  order ← getOrderById orderId;
  if notOwner userId (o_user order) then
    throw (BadRequestError "Order does not belong to user")
  else if negb (canCancelOrder (o_status order)) then
    throw (BadRequestError ("Cannot cancel order with status: "
                            ++ statusName (o_status order)))
  else
    cancelledOrder ← orderRepo_cancelOrder orderId reason;
    match cancelledOrder with
    | None => throw (InternalServerError "Failed to cancel order")
    | Some cancelledOrder =>
        restoreStock (o_items order);;
        ret cancelledOrder
    end.

Definition returnOrder (orderId reason : string) (userId : option string) : M Order :=
  order ← getOrderById orderId;
  if notOwner userId (o_user order) then
    throw (BadRequestError "Order does not belong to user")
  else if negb (bool_decide (o_status order = DELIVERED)) then
    throw (BadRequestError "Only delivered orders can be returned")
  else
    returnedOrder ← orderRepo_returnOrder orderId reason;
    match returnedOrder with
    | None => throw (InternalServerError "Failed to return order")
    | Some returnedOrder =>
        restoreStock (o_items order);;
        ret returnedOrder
    end.

(** order.service.ts, [generateOrderNumber]. *)
Definition padStart3 (s : string) : string :=
  match String.length s with
  | 0%nat => "000" | 1%nat => "00" ++ s | 2%nat => "0" ++ s | _ => s
  end.

Definition generateOrderNumber : M string :=
  t ← gets now;
  r ← gets random;
  ret ("ORD" ++ pretty t ++ padStart3 (pretty r)).

(** order.service.ts, [calculateShippingCharge] and [calculateTax]. *)
Definition calculateShippingCharge (subtotal : Z) : Z := 0.
Definition calculateTax (taxableAmount : Z) : Z := 0.

(** order.service.ts, [validateStockAvailability]. *)
Definition validateStockAvailability (cartItems : list CartLine) : M unit :=
  forEach (fun item =>
    product ← getProductById (cl_productId item);
    match list_find (fun v => v_karat v = cl_karat item /\ v_sku v = cl_sku item)
                    (p_variants product) with
    | None => throw (NotFoundError ("Variant not found for SKU: " ++ cl_sku item))
    | Some (_, variant) =>
        if negb (v_isAvailable variant) then
          throw (BadRequestError ("Variant " ++ cl_sku item ++ " is not available for "
                                  ++ p_name product))
        else if decide (v_stock variant < cl_quantity item) then
          throw (BadRequestError
                   ("Insufficient stock for " ++ p_name product ++ " (SKU: "
                    ++ cl_sku item ++ "). Available: " ++ pretty (v_stock variant)
                    ++ ", Required: " ++ pretty (cl_quantity item)))
        else ret tt
    end) cartItems.

(** order.service.ts, [reserveStock]. *)
Definition reserveStock (cartItems : list CartLine) : M unit :=
  let orderItems :=
    map (fun item => mkStockItem (cl_productId item) (cl_sku item)
                                 (cl_karat item) (cl_quantity item)) cartItems in
  tryCatch (reduceStockForOrder orderItems)
    (fun error => throw (BadRequestError ("Failed to reserve stock: " ++ message error))).

(** The [catch] of the three [safelyMark...] methods:
    [error.statusCode === 404 || error.message?.includes ('not found')]
    returns, anything else is thrown again. *)
Definition isNotFound (error : Exception) : bool :=
  bool_decide (statusCode error = Some 404) || includes (message error) "not found".

Definition skipNotFound (error : Exception) : M unit :=
  if isNotFound error then ret tt else throw error.

(** order.service.ts, [safelyMarkDiscountAsUsed]. *)
Definition safelyMarkDiscountAsUsed (code userId : string) : M unit :=
  tryCatch (getDiscountByCode code;; markDiscountAsUsed code userId) skipNotFound.

(** order.service.ts, [safelyMarkVoucherAsUsed]. *)
Definition safelyMarkVoucherAsUsed (code userId : string) : M unit :=
  tryCatch (getVoucherByCode code;; markVoucherAsUsed code userId;; ret tt) skipNotFound.

(** order.service.ts, [safelyMarkGiftCardAsUsed]: the [try] block holds the
    lookup and nothing else. *)
Definition safelyMarkGiftCardAsUsed (code userId : string) (amount : Z) : M unit :=
  tryCatch (getGiftCardByCode code;; ret tt) skipNotFound.

Record OrderSummary : Type := mkOrderSummary {
  os_orderId : string;
  os_orderNumber : string;
  os_total : Z;
  os_itemCount : nat;
  os_status : IOrderStatus
}.

(** The callback of [cartDetails.items.map] in [createOrder]. *)
Definition buildOrderItem (item : CartLine) : M OrderItem :=
  product ← getProductById (cl_productId item);
  match list_find (fun v => v_karat v = cl_karat item /\ v_sku v = cl_sku item)
                  (p_variants product) with
  | None => throw (NotFoundError ("Variant not found for SKU: " ++ cl_sku item))
  | Some (_, variant) =>
      ret (mkOrderItem (cl_productId item) (p_name product) (p_productId product)
             (cl_quantity item) (cl_karat item) (v_stoneType variant) (cl_sku item)
             (cl_price item) (v_grossWeight variant)
             (cl_price item * cl_quantity item))
  end.

(** The total of [createOrder], lines 79 to 83. *)
Definition orderTotal (totals : Totals) : Z :=
  let subtotal := t_subtotal totals in
  let totalDiscountAmount := t_discountAmount totals in
  let shippingCharge := calculateShippingCharge subtotal in
  let taxAmount := calculateTax (subtotal - totalDiscountAmount + shippingCharge) in
  toFixed2 (subtotal - totalDiscountAmount + shippingCharge + taxAmount).

(** The marking block of [createOrder], lines 132 to 156; [x?.code] is
    truthy for a non-empty code. *)
Definition markAppliedDiscounts (cart : Cart) (userId : string) : M unit :=
  match c_appliedCoupon cart with
  | Some c => if decide (ac_code c = "") then ret tt
              else safelyMarkDiscountAsUsed (ac_code c) userId
  | None => ret tt
  end;;
  match c_appliedVoucher cart with
  | Some v => if decide (av_code v = "") then ret tt
              else safelyMarkVoucherAsUsed (av_code v) userId
  | None => ret tt
  end;;
  match c_appliedGiftCard cart with
  | Some g => if decide (ag_code g = "") then ret tt
              else safelyMarkGiftCardAsUsed (ag_code g) userId (ag_redeemedAmount g)
  | None => ret tt
  end.

(** order.service.ts, [createOrder]; [newId] is the id the store gives the
    order. *)
Definition createOrder (newId userId : string) : M OrderSummary :=
  cartDetails ← getCartWithDetails userId;
  match cd_items cartDetails with
  | [] => throw (BadRequestError "Cart is empty")
  | _ :: _ =>
      validateStockAvailability (cd_items cartDetails);;
      orderNumber ← generateOrderNumber;
      let subtotal := t_subtotal (cd_totals cartDetails) in
      let totalDiscountAmount := t_discountAmount (cd_totals cartDetails) in
      let shippingCharge := calculateShippingCharge subtotal in
      let taxAmount := calculateTax (subtotal - totalDiscountAmount + shippingCharge) in
      let total := orderTotal (cd_totals cartDetails) in
      orderItems ← mapM buildOrderItem (cd_items cartDetails);
      let cart := cd_cart cartDetails in
      markAppliedDiscounts cart userId;;
      let orderParams :=
        mkOrder orderNumber userId orderItems subtotal
          (c ← c_appliedCoupon cart;
           if decide (ac_discountId c = "") then None else Some c)
          (v ← c_appliedVoucher cart;
           if decide (av_voucherId v = "") then None
           else Some (mkAppliedCoupon (av_code v) (av_voucherId v) (av_discountAmount v)))
          (g ← c_appliedGiftCard cart;
           if decide (ag_giftCardId g = "") then None else Some g)
          totalDiscountAmount shippingCharge taxAmount total
          PENDING None None None None None in
      order ← orderRepo_createOrder newId orderParams;
      reserveStock (cd_items cartDetails);;
      clearCartItems userId;;
      ret (mkOrderSummary newId (o_orderNumber order) (o_total order)
             (length (o_items order)) (o_status order))
  end.

(** ** PaymentService *)

(** The gateway (services/razorpay.service.ts) and the mailer are not among
    the sources and talk to the outside: a request sees them as functions of
    what it sends.  The user repository is not among the sources either; a
    user is looked up by id and has an e-mail address. *)
Record RazorpayPayment : Type := mkRazorpayPayment {
  rp_status : string;
  rp_amount : Z;
  rp_method : string
}.

Record Externals : Type := mkExternals {
  razorpayCreateOrder : string -> Z -> Result string;
  verifyPaymentSignature : string -> string -> string -> bool;
  fetchPayment : string -> Result RazorpayPayment;
  sendEmail : string -> Result unit
}.

(** The answer of a collaborator, awaited. *)
Definition liftResult {A} (r : Result A) : M A := fun w => (r, w).

(** Modelled from the spec: payment.repository.ts is not among the sources;
    the payment is looked up by its gateway order id. *)
Definition getPaymentByRazorpayOrderId (razorpayOrderId : string) : M (option Payment) :=
  gets (fun w => snd <$>
    list_find (fun p => pay_razorpayOrderId p = Some razorpayOrderId) (payments w)).

(** Modelled from the spec: payment.repository.ts is not among the sources;
    the payment is looked up by the order it pays. *)
Definition getPaymentByOrderId (orderId : string) : M (option Payment) :=
  gets (fun w => snd <$> list_find (fun p => pay_orderId p = orderId) (payments w)).

Definition updatePaymentDoc (paymentId : string) (f : Payment -> Payment)
  : M (option Payment) := fun w =>
  match list_find (fun p => pay_id p = paymentId) (payments w) with
  | Some (i, p) => (Ok (Some (f p)), setPayments (<[i := f p]> (payments w)) w)
  | None => (Ok None, w)
  end.

(** Modelled from the spec: payment.repository.ts is not among the sources;
    [markPaymentAsCaptured] moves the payment with that id to captured and
    records the gateway payment id when one is given. *)
Definition markPaymentAsCaptured (paymentId : string)
    (razorpayPaymentId : option string) : M (option Payment) :=
  updatePaymentDoc paymentId (fun p =>
    mkPayment (pay_id p) (pay_orderId p) (pay_user p) (pay_amount p)
      (pay_method p) CAPTURED (pay_razorpayOrderId p)
      (match razorpayPaymentId with
       | Some id => Some id
       | None => pay_razorpayPaymentId p
       end)).

(** Modelled from the spec: payment.repository.ts is not among the sources;
    a payment is created in status created, [newId] being the id the store
    gives it, and [updatePayment] here sets the gateway order id. *)
Definition createPayment (newId orderId user : string) (amount : Z)
    (method : IPaymentMethod) : M Payment := fun w =>
  let p := mkPayment newId orderId user amount method CREATED None None in
  (Ok p, setPayments (payments w ++ [p]) w).

Definition updatePayment (paymentId razorpayOrderId : string) : M (option Payment) :=
  updatePaymentDoc paymentId (fun p =>
    mkPayment (pay_id p) (pay_orderId p) (pay_user p) (pay_amount p)
      (pay_method p) (pay_status p) (Some razorpayOrderId)
      (pay_razorpayPaymentId p)).

(** [PaymentService.initiatePayment].  The amount in paise is
    [Math.round (order.total * 100)]; the total of an order is a whole number
    of hundredths, the one [createOrder] stored, so the rounding leaves the
    product as it is. *)
Definition initiatePayment (ext : Externals) (newId orderId user : string)
    (method : IPaymentMethod) : M (option Payment) :=
  order ← getOrderById orderId;
  if decide (o_user order <> user) then
    throw (BadRequestError "Order does not belong to user")
  else
    existingPayment ← getPaymentByOrderId orderId;
    if bool_decide (pay_status <$> existingPayment = Some CAPTURED) then
      throw (BadRequestError "Payment already completed for this order")
    else
      match method with
      | COD =>
          payment ← createPayment newId orderId user (o_total order) COD;
          updateOrderStatus orderId PROCESSING;;
          ret (Some payment)
      | RAZORPAY =>
          let amountInPaise := o_total order * 100 in
          razorpayOrderId ← liftResult (razorpayCreateOrder ext orderId amountInPaise);
          match existingPayment with
          | Some existing => updatePayment (pay_id existing) razorpayOrderId
          | None =>
              payment ← createPayment newId orderId user (o_total order) RAZORPAY;
              updatePayment (pay_id payment) razorpayOrderId;;
              ret (Some payment)
          end
      end.

(** [PaymentService.confirmCODPayment]; a mismatch of the collected amount is
    logged only. *)
Definition confirmCODPayment (orderId : string) (collectedAmount : Z)
  : M (option Payment) :=
  payment ← getPaymentByOrderId orderId;
  match payment with
  | None => throw (NotFoundError "Payment record not found")
  | Some payment =>
      if decide (pay_method payment <> COD) then
        throw (BadRequestError "This is not a COD payment")
      else if decide (pay_status payment = CAPTURED) then
        throw (BadRequestError "COD payment already confirmed")
      else markPaymentAsCaptured (pay_id payment) None
  end.

(** The stock block of [handleSuccessfulPayment], step 9: a failure is
    logged and not thrown. *)
Definition reduceStockOnCapture (orderDetails : Order) : M unit :=
  tryCatch
    (let orderItems :=
       map (fun item => mkStockItem (oi_product item) (oi_sku item)
                                    (oi_karat item) (oi_quantity item))
           (o_items orderDetails) in
     if decide (0 < length orderItems)%nat then reduceStockForOrder orderItems
     else ret tt)
    (fun _ => ret tt).

(** [PaymentService.handleSuccessfulPayment]; the text of the mismatch
    message is shortened.  The expected amount is
    [Math.round (payment.amount * 100)], where the amount of a payment is the
    total of its order, a whole number of hundredths. *)
Definition handleSuccessfulPayment (ext : Externals)
    (razorpayOrderId razorpayPaymentId razorpaySignature : string)
  : M (option Payment) :=
  payment ← getPaymentByRazorpayOrderId razorpayOrderId;
  match payment with
  | None => throw (NotFoundError "Payment not found")
  | Some payment =>
      if negb (verifyPaymentSignature ext razorpayOrderId razorpayPaymentId
                                      razorpaySignature) then
        throw (BadRequestError "Invalid payment signature")
      else
        razorpayPayment ← liftResult (fetchPayment ext razorpayPaymentId);
        if negb (String.eqb (rp_status razorpayPayment) "captured") then
          throw (BadRequestError ("Payment not captured. Status: "
                                  ++ rp_status razorpayPayment))
        else if decide (pay_amount payment <= 0) then
          throw (BadRequestError "Invalid payment amount in stored payment record")
        else
          let expectedAmountInPaise := pay_amount payment * 100 in
          let receivedAmountInPaise := rp_amount razorpayPayment in
          if decide (receivedAmountInPaise <> expectedAmountInPaise) then
            throw (BadRequestError
                     ("Payment amount mismatch. Expected "
                      ++ showAmount expectedAmountInPaise ++ " paise, received "
                      ++ showAmount receivedAmountInPaise ++ " paise"))
          else
            updatedPayment ← markPaymentAsCaptured (pay_id payment)
                               (Some razorpayPaymentId);
            updateOrderStatus (pay_orderId payment) PROCESSING;;
            orderDetails ← gets (fun w => orders w !! pay_orderId payment);
            match orderDetails with
            | None => throw (InternalServerError "Order not found")
            | Some orderDetails =>
                reduceStockOnCapture orderDetails;;
                user ← gets (fun w => users w !! pay_user payment);
                match user with
                | None => throw (NotFoundError "User not found")
                | Some email =>
                    liftResult (sendEmail ext email);;
                    clearCartItems (pay_user payment);;
                    ret updatedPayment
                end
            end
  end.

(** [PaymentService.verifyPayment]: the [catch] logs and throws again. *)
Definition verifyPayment (ext : Externals)
    (razorpayOrderId razorpayPaymentId razorpaySignature : string)
  : M (option Payment) :=
  tryCatch
    (if negb (verifyPaymentSignature ext razorpayOrderId razorpayPaymentId
                                     razorpaySignature) then
       throw (BadRequestError "Invalid payment signature")
     else
       liftResult (fetchPayment ext razorpayPaymentId);;
       handleSuccessfulPayment ext razorpayOrderId razorpayPaymentId
                               razorpaySignature)
    (fun error => throw error).

(** * Vocabulary of the properties *)

(** A computation preserves a projection of the database when that projection
    reads the same after any run, whether the run returned or threw. *)
Definition Preserves {A B} (f : World -> B) (m : M A) : Prop :=
  forall w, f (m w).2 = f w.

(** A computation maintains a property of the database when the property
    survives any run, whether the run returned or threw. *)
Definition Maintains {A} (P : World -> Prop) (m : M A) : Prop :=
  forall w, P w -> P (m w).2.

(** The sum over the items of unit price times quantity. *)
Fixpoint lineSum (items : list CartItem) : Z :=
  match items with
  | [] => 0
  | item :: rest => ci_price item * ci_quantity item + lineSum rest
  end.

(** The transition graph in the words of the specification: pending to
    processing, cancelled or failed; processing to shipped or cancelled;
    shipped to delivered or cancelled; delivered to returned; failed to
    pending; cancelled and returned are terminal. *)
Inductive transition : IOrderStatus -> IOrderStatus -> Prop :=
  | pending_processing : transition PENDING PROCESSING
  | pending_cancelled : transition PENDING CANCELLED
  | pending_failed : transition PENDING FAILED
  | processing_shipped : transition PROCESSING SHIPPED
  | processing_cancelled : transition PROCESSING CANCELLED
  | shipped_delivered : transition SHIPPED DELIVERED
  | shipped_cancelled : transition SHIPPED CANCELLED
  | delivered_returned : transition DELIVERED RETURNED
  | failed_pending : transition FAILED PENDING.

(** The stock of the first variant of a product that carries a SKU. *)
Definition stockOf (w : World) (productId sku : string) : option Z :=
  p ← products w !! productId;
  v ← list_find (fun v => v_sku v = sku) (p_variants p);
  Some (v_stock v.2).

(** Every variant of every product has a stock of at least 0. *)
Definition stockNonneg (w : World) : Prop :=
  map_Forall (fun _ p => Forall (fun v => 0 <= v_stock v) (p_variants p)) (products w).

(** The item [reserveStock] hands to [reduceStockForOrder] for a cart line. *)
Definition toStockItem (item : CartLine) : StockItem :=
  mkStockItem (cl_productId item) (cl_sku item) (cl_karat item) (cl_quantity item).

(** The variant a turn of the reservation takes from: the product of the
    item is found, it has a variant of the item's SKU and karat, and the
    stock of that variant covers the quantity. *)
Definition reservable (w : World) (item : StockItem) : option Variant :=
  match (getProductById (si_productId item) w).1 with
  | Ok product =>
      found ← list_find (fun v => v_sku v = si_sku item /\ v_karat v = si_karat item)
                        (p_variants product);
      if decide (si_quantity item <= v_stock found.2) then Some found.2 else None
  | Throw _ => None
  end.

(** What the turn of an item that cannot be reserved reports; each of the
    three texts names the SKU of the item. *)
Definition failureOf (w : World) (item : StockItem) : string :=
  match (getProductById (si_productId item) w).1 with
  | Throw error =>
      "Failed to reduce stock for SKU " ++ si_sku item ++ ": " ++ message error
  | Ok product =>
      match list_find (fun v => v_sku v = si_sku item /\ v_karat v = si_karat item)
                      (p_variants product) with
      | None => "Variant not found for SKU: " ++ si_sku item ++ ", Karat: "
                ++ pretty (si_karat item)
      | Some (_, variant) =>
          "Insufficient stock for SKU: " ++ si_sku item ++ ". Available: "
          ++ pretty (v_stock variant) ++ ", Required: " ++ pretty (si_quantity item)
      end
  end.

(** The database after the turn of an item: a turn that reserves sets the
    stock under the item's SKU to the stock it has found less the quantity,
    any other turn leaves the database as it is. *)
Definition afterTurn (w : World) (item : StockItem) : World :=
  match reservable w item with
  | Some variant =>
      (updateVariantStock (si_productId item) (si_sku item)
                          (v_stock variant - si_quantity item) w).2
  | None => w
  end.

(** The reports of the failed turns of a reservation, in the order of the
    items; every turn, after a failed one too, meets the database the turns
    before it have left. *)
Fixpoint failuresOf (w : World) (items : list StockItem) : list string :=
  match items with
  | [] => []
  | item :: rest =>
      match reservable w item with
      | Some _ => failuresOf (afterTurn w item) rest
      | None => failureOf w item :: failuresOf w rest
      end
  end.

(** What the gateway must have said for a capture: the signature is valid and
    the payment fetched from the gateway is captured for the stored amount in
    minor units. *)
Definition gatewayConfirms (ext : Externals)
    (razorpayOrderId razorpayPaymentId razorpaySignature : string)
    (payment : Payment) : Prop :=
  verifyPaymentSignature ext razorpayOrderId razorpayPaymentId razorpaySignature
  = true /\
  exists rp, fetchPayment ext razorpayPaymentId = Ok rp /\
             rp_status rp = "captured" /\
             rp_amount rp = pay_amount payment * 100.

(** The status of the payment with an id. *)
Definition paymentStatus (w : World) (paymentId : string) : option IPaymentStatus :=
  pay_status <$> (snd <$> list_find (fun p => pay_id p = paymentId) (payments w)).

(** What an order freezes at creation: everything but its lifecycle fields. *)
Definition snapshot (o : Order) :=
  (o_orderNumber o, o_user o, o_items o, o_subtotal o,
   (o_appliedCoupon o, o_appliedVoucher o, o_appliedGiftCard o),
   (o_totalDiscountAmount o, o_shippingCharge o, o_taxAmount o, o_total o)).

(** The sum of the item totals of an order. *)
Definition itemTotals (items : list OrderItem) : Z :=
  foldr (fun item acc => oi_itemTotal item + acc) 0 items.

(** An order item is the copy of a cart item. *)
Definition copyOf (item : CartItem) (oi : OrderItem) : Prop :=
  oi_product oi = ci_product item /\ oi_sku oi = ci_sku item /\
  oi_karat oi = ci_karat item /\ oi_quantity oi = ci_quantity item /\
  oi_priceAtPurchase oi = ci_price item /\
  oi_itemTotal oi = ci_price item * ci_quantity item.

(** A request for a quantity of a variant can be served: the product exists,
    it has a variant of that karat and SKU, the variant is available and its
    stock covers the quantity. *)
Definition inStock (w : World) (productId : string) (karat : Z) (sku : string)
    (quantity : Z) : bool :=
  bool_decide (productId <> "") &&
  match products w !! productId with
  | Some p =>
      match list_find (fun v => v_karat v = karat /\ v_sku v = sku) (p_variants p) with
      | Some (_, v) => v_isAvailable v && bool_decide (quantity <= v_stock v)
      | None => false
      end
  | None => false
  end.

Definition itemInStock (w : World) (item : CartItem) : bool :=
  inStock w (ci_product item) (ci_karat item) (ci_sku item) (ci_quantity item).

(** A cart with its items taken out, as [clearCartItems] leaves it. *)
Definition emptied (cart : Cart) : Cart :=
  mkCart [] (c_appliedCoupon cart) (c_appliedVoucher cart) (c_appliedGiftCard cart).

(** The remaining amount of every gift card, by code. *)
Definition balances (w : World) : gmap string Z :=
  gc_remainingAmount <$> giftCards w.

(** No gift card has a negative remaining amount. *)
Definition balanceNonneg (w : World) : Prop :=
  map_Forall (fun _ n => 0 <= n) (balances w).

(** The named slots of a cart are filled. *)
Definition hasDiscount (type : DiscountType) (cart : Cart) : bool :=
  match type with
  | coupon => bool_decide (is_Some (c_appliedCoupon cart))
  | voucher => bool_decide (is_Some (c_appliedVoucher cart))
  | all => bool_decide (is_Some (c_appliedCoupon cart))
           || bool_decide (is_Some (c_appliedVoucher cart))
  end.

(** A cart without the named slots, as [removeDiscount] leaves it. *)
Definition withoutDiscount (type : DiscountType) (cart : Cart) : Cart :=
  mkCart (c_items cart)
         (match type with coupon | all => None | voucher => c_appliedCoupon cart end)
         (match type with voucher | all => None | coupon => c_appliedVoucher cart end)
         (c_appliedGiftCard cart).

(** A cart with a voucher slot, as [applyVoucher] leaves it. *)
Definition withVoucher (cart : Cart) (slot : option AppliedVoucher) : Cart :=
  mkCart (c_items cart) (c_appliedCoupon cart) slot (c_appliedGiftCard cart).

(** A cart with a gift-card slot, as [applyGiftCard] leaves it. *)
Definition withGiftCard (cart : Cart) (slot : option AppliedGiftCard) : Cart :=
  mkCart (c_items cart) (c_appliedCoupon cart) (c_appliedVoucher cart) slot.

(** A cart item passes [validateCartItems]: its product exists and is
    active, and the first variant with its SKU is available with a stock that
    covers the quantity. *)
Definition itemValid (w : World) (item : CartItem) : bool :=
  bool_decide (ci_product item <> "") &&
  match products w !! ci_product item with
  | Some p =>
      p_isActive p &&
      match list_find (fun v => v_sku v = ci_sku item) (p_variants p) with
      | Some (_, v) => v_isAvailable v && bool_decide (ci_quantity item <= v_stock v)
      | None => false
      end
  | None => false
  end.

(** The entries of a bulk update whose product id the cast accepts, and for
    the others what the report holds: the SKU and the message of the cast's
    error. *)
Definition accepted (cast : Cast) (updates : list StockUpdate) : list StockUpdate :=
  filter (fun u => cast (su_productId u) = None) updates.

Definition refused (cast : Cast) (updates : list StockUpdate)
  : list (string * string) :=
  omap (fun u => error ← cast (su_productId u); Some (su_sku u, message error))
       updates.

(** The quantity the validation lowers a cart item to: the stock of the
    first variant with its SKU, where product and variant are available and
    that stock is positive but short of the item's quantity. *)
Definition loweredTo (w : World) (item : CartItem) : option Z :=
  if bool_decide (ci_product item <> "") then
    product ← products w !! ci_product item;
    found ← list_find (fun v => v_sku v = ci_sku item) (p_variants product);
    if p_isActive product && v_isAvailable found.2
       && bool_decide (0 < v_stock found.2 < ci_quantity item)
    then Some (v_stock found.2) else None
  else None.

(** An entry of [validItems] answers to an item of the cart: a stored entry
    is an item of the cart that passes the validation, a copy is made of an
    item of the cart short of stock and carries the stock as quantity. *)
Definition entryOf (w : World) (items : list CartItem) (x : ValidItem) : Prop :=
  match x with
  | asStored item => item ∈ items /\ itemValid w item = true
  | spreadWith item quantity =>
      item ∈ items /\ itemValid w item = false /\ loweredTo w item = Some quantity
  end.

(** The update that names a status and nothing else. *)
Definition statusOnly (status : IOrderStatus) : UpdateOrderParams :=
  mkUpdateOrderParams (Some status) None None None None None.

(** The SKUs of every product are distinct. *)
Definition skuUnique (w : World) : Prop :=
  map_Forall (fun _ p => NoDup (v_sku <$> p_variants p)) (products w).

(** The quantity a list of (product, SKU, quantity) asks of a variant. *)
Fixpoint demand (l : list (string * string * Z)) (productId sku : string) : Z :=
  match l with
  | [] => 0
  | (p, s, q) :: rest =>
      (if decide (p = productId /\ s = sku) then q else 0) + demand rest productId sku
  end.

(** What the items of a cart ask of a variant. *)
Definition cartDemand (items : list CartItem) : string -> string -> Z :=
  demand ((fun item => (ci_product item, ci_sku item, ci_quantity item)) <$> items).

(** * A shop to run the methods on *)

(** The product p1 with its two variants: 5 of A and 2 of B in stock. *)
Definition ring : Product :=
  mkProduct "P-1" "Ring" true
    [mkVariant 14 "gemstone" "A" 100 5 3 true;
     mkVariant 18 "gemstone" "B" 50 2 4 true].

(** The cart of u1: 2 of A and 1 of B, a coupon, a voucher and a gift card. *)
Definition fullCart : Cart :=
  mkCart [mkCartItem "i1" "p1" 2 14 "A" 100 "a.png";
          mkCartItem "i2" "p1" 1 18 "B" 50 "b.png"]
         (Some (mkAppliedCoupon "SAVE20" "d1" 20))
         (Some (mkAppliedVoucher "V10" "v1" "ten" 10 10))
         (Some (mkAppliedGiftCard "GC1" "g1" 30)).

(** The cart of u2: 1 of A and no discount. *)
Definition plainCart : Cart :=
  mkCart [mkCartItem "i3" "p1" 1 14 "A" 100 "a.png"] None None None.

(** The cart of the specification's example, its amounts taken in the unit
    of the model: two of A at 100, one of B at 50, a coupon of 20 and a
    voucher of 10. *)
Definition exampleCart : Cart :=
  mkCart [mkCartItem "i1" "p1" 2 14 "A" 100 "a.png";
          mkCartItem "i2" "p1" 1 18 "B" 50 "b.png"]
         (Some (mkAppliedCoupon "SAVE20" "d1" 20))
         (Some (mkAppliedVoucher "V10" "v1" "ten" 10 10))
         None.

(** The order o1 of u1, pending, for 2 of A, and its payment at the gateway. *)
Definition pendingOrder : Order :=
  mkOrder "ORD1" "u1" [mkOrderItem "p1" "Ring" "P-1" 2 14 "gemstone" "A" 100 3 200]
          200 None None None 0 0 0 200 PENDING None None None None None.

Definition createdPayment : Payment :=
  mkPayment "pay1" "o1" "u1" 200 RAZORPAY CREATED (Some "order_1") None.

(** One product with two variants, a user with a cart that carries a coupon,
    a voucher and a gift card, a second user with a cart without discounts,
    and an order of the first user awaiting payment. *)
Definition shop : World :=
  mkWorld {[ "p1" := ring ]}
          {[ "u1" := fullCart; "u2" := plainCart ]}
          {[ "o1" := pendingOrder ]}
          [createdPayment]
          {[ "V10" := mkVoucher "v1" "ten" 10 0 false 0 1000 None ]}
          {[ "GC1" := mkGiftCard "g1" 100 GC_ACTIVE true 1000 [] ]}
          {[ "SAVE20" := mkCoupon "d1" [] ]}
          {[ "u1" := "u1@example.com" ]}
          500 7.

(** A cart line for 2 of A, which are in stock, and one for 3 of B, of which
    there are 2. *)
Definition shortLines : list CartLine :=
  [mkCartLine "p1" "Ring" 2 14 "A" 100 "a.png";
   mkCartLine "p1" "Ring" 3 18 "B" 50 "b.png"].

(** The same two lines, then one for a variant the ring does not have and
    one more of A. *)
Definition brokenLines : list CartLine :=
  [mkCartLine "p1" "Ring" 2 14 "A" 100 "a.png";
   mkCartLine "p1" "Ring" 3 18 "B" 50 "b.png";
   mkCartLine "p1" "Ring" 1 22 "Z" 70 "z.png";
   mkCartLine "p1" "Ring" 1 14 "A" 100 "a.png"].

(** A gateway that knows one payment, captured for the amount 23000, and accepts
    the signature "valid". *)
Definition gateway : Externals :=
  mkExternals (fun _ _ => Ok "order_2")
              (fun _ _ signature => String.eqb signature "valid")
              (fun _ => Ok (mkRazorpayPayment "captured" 23000 "upi"))
              (fun _ => Ok tt).

(** The checkout of u1 followed by the payment of the new order through the
    gateway, and the first and second delivery of its confirmation. *)
Definition afterCheckout : World := (createOrder "o2" "u1" shop).2.
Definition afterInitiate : World :=
  (initiatePayment gateway "pay2" "o2" "u1" RAZORPAY afterCheckout).2.
Definition afterFirstDelivery : World :=
  (handleSuccessfulPayment gateway "order_2" "pay_2" "valid" afterInitiate).2.
Definition afterSecondDelivery : World :=
  (handleSuccessfulPayment gateway "order_2" "pay_2" "valid" afterFirstDelivery).2.

(** The same order paid cash on delivery and confirmed. *)
Definition afterInitiateCOD : World :=
  (initiatePayment gateway "pay2" "o2" "u1" COD afterCheckout).2.
Definition afterConfirmCOD : World := (confirmCODPayment "o2" 230 afterInitiateCOD).2.

(** The shop with the order o1 delivered. *)
Definition deliveredShop : World :=
  setOrders {[ "o1" := withLifecycle pendingOrder DELIVERED None None (Some 400)
                         None None ]} shop.

(** The shop with a cart of u3 that has two lines for the same variant: each
    line alone is covered by the 5 of A in stock, the two together are not. *)
Definition doubleLineCart : Cart :=
  mkCart [mkCartItem "i4" "p1" 3 14 "A" 100 "a.png";
          mkCartItem "i5" "p1" 3 14 "A" 100 "a.png"] None None None.

Definition doubleLineShop : World :=
  setCarts (<["u3" := doubleLineCart]> (carts shop)) shop.


(** The shop after the validity of the gift card GC1 has run out. *)
Definition lateShop : World :=
  setGiftCards {[ "GC1" := mkGiftCard "g1" 100 GC_ACTIVE true 400 [] ]} shop.

(** The shop with a cart of u4 that asks for 1 of A and for 3 of B, of which
    there are 2. *)
Definition shortCart : Cart :=
  mkCart [mkCartItem "i6" "p1" 1 14 "A" 100 "a.png";
          mkCartItem "i7" "p1" 3 18 "B" 50 "b.png"] None None None.

Definition shortShop : World :=
  setCarts (<["u4" := shortCart]> (carts shop)) shop.





(** * Properties *)

(** ** Reasoning about requests *)

Ltac munfold :=
  unfold mbind, M_bind, bind, mret, M_ret, ret, throw, gets, modify, tryCatch,
    liftResult in *.

(** One step of a run. *)
Lemma bind_run {A B} (m : M A) (k : A -> M B) w :
  (m ≫= k) w = match m w with
               | (Ok a, w') => k a w'
               | (Throw e, w') => (Throw e, w')
               end.
Proof. reflexivity. Qed.

Section preserves.
Context {B : Type} (f : World -> B).

Lemma preserves_ret {A} (a : A) : Preserves f (ret a).
Proof. done. Qed.

Lemma preserves_throw {A} e : Preserves f (@throw A e).
Proof. done. Qed.

Lemma preserves_gets {A} (g : World -> A) : Preserves f (gets g).
Proof. done. Qed.

Lemma preserves_liftResult {A} (r : Result A) : Preserves f (liftResult r).
Proof. done. Qed.

Lemma preserves_bind {A C} (m : M A) (k : A -> M C) :
  Preserves f m -> (forall a, Preserves f (k a)) -> Preserves f (m ≫= k).
Proof.
  intros Hm Hk w. munfold. specialize (Hm w).
  destruct (m w) as [[a|e] w']; simpl in *; [|done].
  by rewrite Hk.
Qed.

Lemma preserves_tryCatch {A} (m : M A) (h : Exception -> M A) :
  Preserves f m -> (forall e, Preserves f (h e)) -> Preserves f (tryCatch m h).
Proof.
  intros Hm Hh w. munfold. specialize (Hm w).
  destruct (m w) as [[a|e] w']; simpl in *; [done|].
  by rewrite Hh.
Qed.

Lemma preserves_forEach {A} (g : A -> M unit) (xs : list A) :
  (forall x, Preserves f (g x)) -> Preserves f (forEach g xs).
Proof.
  intros Hg. induction xs as [|x xs IH]; simpl.
  - apply preserves_ret.
  - apply preserves_bind; auto.
Qed.

Lemma preserves_mapM {A C} (g : A -> M C) (xs : list A) :
  (forall x, Preserves f (g x)) -> Preserves f (mapM g xs).
Proof.
  intros Hg. induction xs as [|x xs IH]; simpl.
  - apply preserves_ret.
  - apply preserves_bind; [auto|]. intros y.
    apply preserves_bind; [auto|]. intros ys. apply preserves_ret.
Qed.
End preserves.

Create HintDb preserves.
#[local] Hint Resolve preserves_ret preserves_throw preserves_gets
  preserves_liftResult : preserves.

(** Walks down a computation: binds, handlers, loops and case splits. *)
Ltac preserves_step :=
  match goal with
  | |- Preserves _ (_ ≫= _) => apply preserves_bind; [|intros]
  | |- Preserves _ (tryCatch _ _) => apply preserves_tryCatch; [|intros]
  | |- Preserves _ (forEach _ _) => apply preserves_forEach; intros
  | |- Preserves _ (mapM _ _) => apply preserves_mapM; intros
  | |- Preserves _ (match ?x with _ => _ end) => destruct x
  | |- Preserves _ (let '(_, _) := ?x in _) => destruct x
  | |- Preserves _ _ => solve [eauto with preserves]
  end.
Ltac preserves := repeat preserves_step.

(** ** Cart totals *)

Lemma fold_left_lineSum items acc :
  fold_left (fun sum item => sum + ci_price item * ci_quantity item) items acc
  = acc + lineSum items.
Proof.
  revert acc. induction items as [|item rest IH]; intros acc; simpl.
  - lia.
  - rewrite IH. lia.
Qed.

Lemma cartSubtotal_lineSum items : cartSubtotal items = lineSum items.
Proof. unfold cartSubtotal. rewrite fold_left_lineSum. lia. Qed.

(** The totals of a cart that has items, field by field. *)
Lemma calculateCartTotal_fields cart :
  c_items cart <> [] ->
  let discountAmount := default 0 (ac_discountAmount <$> c_appliedCoupon cart) in
  let voucherAmount := default 0 (av_discountAmount <$> c_appliedVoucher cart) in
  let giftCardAmount := default 0 (ag_redeemedAmount <$> c_appliedGiftCard cart) in
  calculateCartTotal cart
  = mkTotals (lineSum (c_items cart)) discountAmount voucherAmount giftCardAmount
      (Z.max 0 (lineSum (c_items cart) - discountAmount - voucherAmount
                - giftCardAmount))
      (length (c_items cart)).
Proof.
  intros Hne. unfold calculateCartTotal.
  destruct (c_items cart) as [|item rest] eqn:Hitems; [done|].
  by rewrite cartSubtotal_lineSum.
Qed.

(** C3.  For every cart the totals computation returns the subtotal as the
    sum over the items of unit price times quantity and the total as
    max (0, subtotal - couponAmount - voucherAmount - giftCardAmount), which
    is never negative; for a cart with items the three amounts are the ones
    stored in the cart's discount slots (0 for an empty slot). *)
Theorem calculateCartTotal_total (cart : Cart) :
  let t := calculateCartTotal cart in
  t_subtotal t = lineSum (c_items cart) /\
  t_total t = Z.max 0 (t_subtotal t - t_discountAmount t - t_voucherAmount t
                       - t_giftCardAmount t) /\
  0 <= t_total t /\
  (c_items cart <> [] ->
   t_discountAmount t = default 0 (ac_discountAmount <$> c_appliedCoupon cart) /\
   t_voucherAmount t = default 0 (av_discountAmount <$> c_appliedVoucher cart) /\
   t_giftCardAmount t = default 0 (ag_redeemedAmount <$> c_appliedGiftCard cart)).
Proof.
  destruct (decide (c_items cart = [])) as [Hitems|Hitems].
  - unfold calculateCartTotal. rewrite Hitems. simpl.
    split; [done|]. split; [done|]. split; [done|]. by intros [].
  - rewrite (calculateCartTotal_fields cart Hitems). simpl.
    split; [done|]. split; [done|]. split; [lia|done].
Qed.

Lemma calculateCartTotal_total_example :
  t_subtotal (calculateCartTotal exampleCart) = 250 /\
  t_total (calculateCartTotal exampleCart) = 220 /\
  t_discountAmount (calculateCartTotal exampleCart) = 20 /\
  t_voucherAmount (calculateCartTotal exampleCart) = 10.
Proof.
  destruct (calculateCartTotal_total exampleCart) as (Hs & Ht & _ & Hslots).
  destruct Hslots as (Hd & Hv & Hg); [discriminate|].
  rewrite Ht, Hs, Hd, Hv, Hg. simpl. repeat split; reflexivity.
Defined.

(** ** Order status transitions *)

Lemma validTransitions_transition (cur new : IOrderStatus) :
  new ∈ validTransitions cur <-> transition cur new.
Proof.
  split.
  - destruct cur; simpl; intros H;
      repeat (apply elem_of_cons in H as [->|H]; [constructor|]);
      by apply elem_of_nil in H.
  - destruct 1; simpl; set_solver.
Qed.

Lemma handleStatusUpdate_ok orderId order new w :
  exists w', handleStatusUpdate orderId order new w = (Ok tt, w').
Proof.
  unfold handleStatusUpdate, updateOrderDoc. munfold.
  destruct new; simpl; eauto.
  - destruct (orders w !! orderId); simpl; eauto.
  - case_bool_decide; simpl; eauto.
    destruct (orders w !! orderId); simpl; eauto.
Qed.

Lemma handleStatusUpdate_status orderId order new w :
  o_status <$> (orders (handleStatusUpdate orderId order new w).2 !! orderId)
  = o_status <$> (orders w !! orderId).
Proof.
  unfold handleStatusUpdate, updateOrderDoc. munfold.
  destruct new; simpl; try done.
  - destruct (orders w !! orderId) eqn:Ho; simpl; [|by rewrite Ho].
    by rewrite lookup_insert_eq.
  - case_bool_decide; simpl; [|done].
    destruct (orders w !! orderId) eqn:Ho; simpl; [|by rewrite Ho].
    by rewrite lookup_insert_eq.
Qed.

(** C5.  For an order in the store, [updateOrderStatus] goes through exactly
    when the requested change is an edge of the transition graph, and then
    the stored status is the requested one; any other request throws a
    BadRequestError and leaves the database, and so the order's status, as it
    was. *)
Theorem updateOrderStatus_transition_graph
    (orderId : string) (order : Order) (new : IOrderStatus) (w : World) :
  orders w !! orderId = Some order ->
  (transition (o_status order) new <->
   isOk (updateOrderStatus orderId new w).1 = true) /\
  (transition (o_status order) new ->
   o_status <$> (orders (updateOrderStatus orderId new w).2 !! orderId) = Some new) /\
  (~ transition (o_status order) new ->
   exists msg, updateOrderStatus orderId new w = (Throw (BadRequestError msg), w)).
Proof.
  intros Ho.
  assert (Hbad : ~ transition (o_status order) new ->
    exists msg, updateOrderStatus orderId new w = (Throw (BadRequestError msg), w)).
  { intros Hn. unfold updateOrderStatus, getOrderById, validateStatusTransition.
    munfold. rewrite Ho. simpl.
    rewrite bool_decide_eq_false_2; [eauto|].
    by rewrite validTransitions_transition. }
  assert (Hgood : transition (o_status order) new ->
    isOk (updateOrderStatus orderId new w).1 = true /\
    o_status <$> (orders (updateOrderStatus orderId new w).2 !! orderId) = Some new).
  { intros Ht. unfold updateOrderStatus, getOrderById, validateStatusTransition,
      orderRepo_updateOrderStatus, updateOrderDoc.
    munfold. rewrite Ho. simpl.
    rewrite bool_decide_eq_true_2 by by rewrite validTransitions_transition.
    simpl. rewrite Ho. simpl.
    match goal with
    | |- context [handleStatusUpdate ?i ?o ?s ?w0] =>
        pose proof (handleStatusUpdate_status i o s w0) as Hs;
        destruct (handleStatusUpdate_ok i o s w0) as [w' Hw']
    end.
    rewrite Hw' in Hs |- *. simpl in *. split; [done|].
    rewrite Hs. by rewrite lookup_insert_eq. }
  split; [|split].
  - split; [by intros Ht; apply Hgood|].
    intros Hok. destruct (decide (new ∈ validTransitions (o_status order))) as [Hin|Hin].
    + by apply validTransitions_transition.
    + rewrite validTransitions_transition in Hin.
      destruct (Hbad Hin) as [msg Hmsg]. by rewrite Hmsg in Hok.
  - by intros Ht; apply Hgood.
  - done.
Qed.

(** ** Which collections a method writes *)

#[local] Hint Extern 1 (_ = _) => reflexivity : preserves.

Section frames.
Context {B : Type} (f : World -> B).

Lemma updateVariantStock_preserves productId sku n :
  (forall x w, f (setProducts x w) = f w) ->
  Preserves f (updateVariantStock productId sku n).
Proof.
  intros Hf w. unfold updateVariantStock.
  destruct (products w !! productId) as [p|]; [|done].
  destruct (list_find _ _) as [[i v]|]; simpl; auto.
Qed.

Lemma getProductById_preserves id : Preserves f (getProductById id).
Proof. unfold getProductById. preserves. Qed.

Lemma getCart_preserves userId :
  (forall x w, f (setCarts x w) = f w) -> Preserves f (getCart userId).
Proof.
  intros Hf w. unfold getCart. destruct (carts w !! userId); simpl; auto.
Qed.

Lemma updateCart_preserves userId g :
  (forall x w, f (setCarts x w) = f w) -> Preserves f (updateCart userId g).
Proof.
  intros Hf w. unfold updateCart. destruct (carts w !! userId); simpl; auto.
Qed.

Lemma updateOrderDoc_preserves orderId g :
  (forall x w, f (setOrders x w) = f w) -> Preserves f (updateOrderDoc orderId g).
Proof.
  intros Hf w. unfold updateOrderDoc. destruct (orders w !! orderId); simpl; auto.
Qed.

Lemma orderRepo_createOrder_preserves newId params :
  (forall x w, f (setOrders x w) = f w) ->
  Preserves f (orderRepo_createOrder newId params).
Proof.
  intros Hf w. unfold orderRepo_createOrder. case_bool_decide; simpl; auto.
Qed.

Lemma updatePaymentDoc_preserves paymentId g :
  (forall x w, f (setPayments x w) = f w) ->
  Preserves f (updatePaymentDoc paymentId g).
Proof.
  intros Hf w. unfold updatePaymentDoc.
  destruct (list_find _ _) as [[i p]|]; simpl; auto.
Qed.

Lemma markPaymentAsCaptured_preserves paymentId razorpayPaymentId :
  (forall x w, f (setPayments x w) = f w) ->
  Preserves f (markPaymentAsCaptured paymentId razorpayPaymentId).
Proof. intros Hf. by apply updatePaymentDoc_preserves. Qed.

Lemma createPayment_preserves newId orderId user amount method :
  (forall x w, f (setPayments x w) = f w) ->
  Preserves f (createPayment newId orderId user amount method).
Proof. intros Hf w. unfold createPayment. simpl. auto. Qed.

Lemma markAsUsed_preserves code userId :
  (forall x w, f (setVouchers x w) = f w) -> Preserves f (markAsUsed code userId).
Proof.
  intros Hf w. unfold markAsUsed.
  destruct (vouchers w !! code) as [v|]; [|done].
  destruct (vo_used v); simpl; auto.
Qed.

Lemma updateGiftCardStatus_preserves code s :
  (forall x w, f (setGiftCards x w) = f w) ->
  Preserves f (updateGiftCardStatus code s).
Proof.
  intros Hf w. unfold updateGiftCardStatus, modify. simpl.
  destruct (giftCards w !! code); simpl; auto.
Qed.

Lemma markDiscountAsUsed_preserves code userId :
  (forall x w, f (setCoupons x w) = f w) ->
  Preserves f (markDiscountAsUsed code userId).
Proof.
  intros Hf. unfold markDiscountAsUsed, getDiscountByCode. preserves.
  intros w. unfold modify. simpl. auto.
Qed.
End frames.

#[local] Hint Resolve updateVariantStock_preserves getProductById_preserves
  getCart_preserves updateCart_preserves updateOrderDoc_preserves
  orderRepo_createOrder_preserves markPaymentAsCaptured_preserves
  updatePaymentDoc_preserves createPayment_preserves
  markAsUsed_preserves updateGiftCardStatus_preserves
  markDiscountAsUsed_preserves : preserves.

Section frames_services.
Context {B : Type} (f : World -> B).

Lemma reduceStockStep_preserves item :
  (forall x w, f (setProducts x w) = f w) -> Preserves f (reduceStockStep item).
Proof. intros Hf. unfold reduceStockStep. preserves. Qed.

Lemma reduceStockLoop_preserves items :
  (forall x w, f (setProducts x w) = f w) -> Preserves f (reduceStockLoop items).
Proof.
  intros Hf. induction items as [|item rest IH]; simpl; preserves.
  by apply reduceStockStep_preserves.
Qed.

Lemma reduceStockForOrder_preserves items :
  (forall x w, f (setProducts x w) = f w) -> Preserves f (reduceStockForOrder items).
Proof.
  intros Hf. unfold reduceStockForOrder. preserves.
  by apply reduceStockLoop_preserves.
Qed.

Lemma updateProductStockByVariant_preserves productId sku q :
  (forall x w, f (setProducts x w) = f w) ->
  Preserves f (updateProductStockByVariant productId sku q).
Proof. intros Hf. unfold updateProductStockByVariant. preserves. Qed.

Lemma reserveStock_preserves items :
  (forall x w, f (setProducts x w) = f w) -> Preserves f (reserveStock items).
Proof.
  intros Hf. unfold reserveStock. preserves.
  by apply reduceStockForOrder_preserves.
Qed.

Lemma restoreStock_preserves items :
  (forall x w, f (setProducts x w) = f w) -> Preserves f (restoreStock items).
Proof.
  intros Hf. unfold restoreStock. preserves.
  by apply updateProductStockByVariant_preserves.
Qed.

Lemma clearCartItems_preserves userId :
  (forall x w, f (setCarts x w) = f w) -> Preserves f (clearCartItems userId).
Proof. intros Hf. unfold clearCartItems, cartRepo_clearCartItems. preserves. Qed.

Lemma getCartWithDetails_preserves userId :
  (forall x w, f (setCarts x w) = f w) -> Preserves f (getCartWithDetails userId).
Proof. intros Hf. unfold getCartWithDetails. preserves. Qed.

Lemma validateStockAvailability_preserves items :
  Preserves f (validateStockAvailability items).
Proof. unfold validateStockAvailability. preserves. Qed.

Lemma buildOrderItem_preserves item : Preserves f (buildOrderItem item).
Proof. unfold buildOrderItem. preserves. Qed.

Lemma updateOrderStatus_preserves orderId status :
  (forall x w, f (setOrders x w) = f w) ->
  Preserves f (updateOrderStatus orderId status).
Proof.
  intros Hf.
  unfold updateOrderStatus, getOrderById, validateStatusTransition,
    orderRepo_updateOrderStatus, handleStatusUpdate.
  preserves.
Qed.

Lemma markAppliedDiscounts_preserves cart userId :
  (forall x w, f (setVouchers x w) = f w) ->
  (forall x w, f (setCoupons x w) = f w) ->
  Preserves f (markAppliedDiscounts cart userId).
Proof.
  intros Hv Hc.
  unfold markAppliedDiscounts, safelyMarkDiscountAsUsed, safelyMarkVoucherAsUsed,
    safelyMarkGiftCardAsUsed, skipNotFound, markVoucherAsUsed, hasUserUsedVoucher,
    getVoucherByCode, getDiscountByCode, getGiftCardByCode.
  preserves.
Qed.
End frames_services.

#[local] Hint Resolve reduceStockStep_preserves reduceStockLoop_preserves
  reduceStockForOrder_preserves updateProductStockByVariant_preserves
  reserveStock_preserves restoreStock_preserves clearCartItems_preserves
  getCartWithDetails_preserves validateStockAvailability_preserves
  buildOrderItem_preserves updateOrderStatus_preserves
  markAppliedDiscounts_preserves : preserves.

(** ** Rounding to hundredths *)




(** ** The total of a new order *)

Lemma getCartWithDetails_inv userId w cd w1 :
  getCartWithDetails userId w = (Ok cd, w1) -> cd_items cd <> [] ->
  carts w !! userId = Some (cd_cart cd) /\
  cd_totals cd = calculateCartTotal (cd_cart cd) /\
  c_items (cd_cart cd) <> [] /\ w1 = w.
Proof.
  unfold getCartWithDetails, getCart. unfold mbind, M_bind, bind. intros H Hne.
  destruct (carts w !! userId) as [cart|] eqn:Hcart; simpl in H;
    [|injection H as <- <-; done].
  destruct (c_items cart) as [|item rest] eqn:Hitems;
    [injection H as <- <-; done|].
  match type of H with
  | context [mapM ?g ?xs w] =>
      assert (Hw : (mapM g xs w).2 = w)
        by (apply (preserves_mapM (fun w => w)); intros; preserves);
      destruct (mapM g xs w) as [[ps|e] w2]; [|done]
  end.
  simpl in Hw. subst w2.
  match type of H with
  | context [mapM ?g ?xs w] =>
      assert (Hw : (mapM g xs w).2 = w)
        by (apply (preserves_mapM (fun w => w)); intros []; preserves);
      destruct (mapM g xs w) as [[ls|e] w2]; [|done]
  end.
  simpl in Hw. subst w2. injection H as <- <-. simpl.
  rewrite Hitems. done.
Qed.

Lemma orderRepo_createOrder_inv newId params w order w' :
  orderRepo_createOrder newId params w = (Ok order, w') ->
  order = params /\ orders w' !! newId = Some params.
Proof.
  unfold orderRepo_createOrder. case_bool_decide; [done|].
  injection 1 as <- <-. simpl. by rewrite lookup_insert_eq.
Qed.



Lemma updateOrderStatus_transition_graph_example :
  isOk (updateOrderStatus "o1" PROCESSING shop).1 = true /\
  (exists msg,
     updateOrderStatus "o1" DELIVERED shop = (Throw (BadRequestError msg), shop)).
Proof.
  assert (Ho : orders shop !! "o1" = Some pendingOrder) by (vm_compute; reflexivity).
  split.
  - apply (updateOrderStatus_transition_graph "o1" pendingOrder PROCESSING shop Ho).
    constructor.
  - apply (updateOrderStatus_transition_graph "o1" pendingOrder DELIVERED shop Ho).
    simpl. inversion 1.
Defined.


(** ** Stock is never negative *)

Section maintains.
Context (P : World -> Prop).

Lemma maintains_ret {A} (a : A) : Maintains P (ret a).
Proof. by intros w. Qed.

Lemma maintains_throw {A} e : Maintains P (@throw A e).
Proof. by intros w. Qed.

Lemma maintains_gets {A} (g : World -> A) : Maintains P (gets g).
Proof. by intros w. Qed.

Lemma maintains_liftResult {A} (r : Result A) : Maintains P (liftResult r).
Proof. by intros w. Qed.

Lemma maintains_bind {A C} (m : M A) (k : A -> M C) :
  Maintains P m -> (forall a, Maintains P (k a)) -> Maintains P (m ≫= k).
Proof.
  intros Hm Hk w Hw. munfold. specialize (Hm w Hw).
  destruct (m w) as [[a|e] w']; simpl in *; [|done].
  by apply Hk.
Qed.

Lemma maintains_tryCatch {A} (m : M A) (h : Exception -> M A) :
  Maintains P m -> (forall e, Maintains P (h e)) -> Maintains P (tryCatch m h).
Proof.
  intros Hm Hh w Hw. munfold. specialize (Hm w Hw).
  destruct (m w) as [[a|e] w']; simpl in *; [done|].
  by apply Hh.
Qed.

Lemma maintains_forEach {A} (g : A -> M unit) (xs : list A) :
  (forall x, Maintains P (g x)) -> Maintains P (forEach g xs).
Proof.
  intros Hg. induction xs as [|x xs IH]; simpl.
  - apply maintains_ret.
  - apply maintains_bind; auto.
Qed.

Lemma maintains_mapM {A C} (g : A -> M C) (xs : list A) :
  (forall x, Maintains P (g x)) -> Maintains P (mapM g xs).
Proof.
  intros Hg. induction xs as [|x xs IH]; simpl.
  - apply maintains_ret.
  - apply maintains_bind; [auto|]. intros y.
    apply maintains_bind; [auto|]. intros ys. apply maintains_ret.
Qed.
End maintains.

(** What does not write the products maintains a property of the products. *)
Lemma preserves_maintains {A} (P : World -> Prop) (m : M A) :
  (forall w w', products w' = products w -> P w -> P w') ->
  Preserves products m -> Maintains P m.
Proof. intros HP Hm w Hw. eapply HP; [apply Hm|done]. Qed.

Create HintDb maintains.
#[local] Hint Resolve maintains_ret maintains_throw maintains_gets
  maintains_liftResult : maintains.

Ltac maintains_step :=
  match goal with
  | |- Maintains _ (_ ≫= _) => apply maintains_bind; [|intros]
  | |- Maintains _ (tryCatch _ _) => apply maintains_tryCatch; [|intros]
  | |- Maintains _ (forEach _ _) => apply maintains_forEach; intros
  | |- Maintains _ (mapM _ _) => apply maintains_mapM; intros
  | |- Maintains _ (match ?x with _ => _ end) => destruct x
  | |- Maintains _ _ => solve [eauto with maintains]
  end.
Ltac maintains := repeat maintains_step.

Lemma stockNonneg_products w w' :
  products w' = products w -> stockNonneg w -> stockNonneg w'.
Proof. unfold stockNonneg. by intros ->. Qed.

Lemma preserves_stockNonneg {A} (m : M A) :
  Preserves products m -> Maintains stockNonneg m.
Proof. apply preserves_maintains, stockNonneg_products. Qed.

Lemma updateVariantStock_nonneg productId sku n :
  0 <= n -> Maintains stockNonneg (updateVariantStock productId sku n).
Proof.
  intros Hn w Hw. unfold updateVariantStock.
  destruct (products w !! productId) as [p|] eqn:Hp; [|done].
  destruct (list_find _ _) as [[i v]|] eqn:Hfind; [|done].
  unfold stockNonneg in *. simpl.
  apply map_Forall_insert_2; [|done]. simpl.
  apply Forall_insert; [by apply (Hw _ _ Hp)|done].
Qed.

Lemma reduceStockStep_nonneg item : Maintains stockNonneg (reduceStockStep item).
Proof.
  unfold reduceStockStep. maintains.
  - apply preserves_stockNonneg, getProductById_preserves.
  - apply updateVariantStock_nonneg. lia.
Qed.

Lemma reduceStockForOrder_nonneg items :
  Maintains stockNonneg (reduceStockForOrder items).
Proof.
  unfold reduceStockForOrder. maintains.
  induction items as [|item rest IH]; simpl; maintains.
  apply reduceStockStep_nonneg.
Qed.

Lemma reserveStock_nonneg lines : Maintains stockNonneg (reserveStock lines).
Proof. unfold reserveStock. maintains. apply reduceStockForOrder_nonneg. Qed.

Lemma updateProductStockByVariant_nonneg productId sku q :
  Maintains stockNonneg (updateProductStockByVariant productId sku q).
Proof.
  unfold updateProductStockByVariant. maintains.
  - apply preserves_stockNonneg, getProductById_preserves.
  - apply updateVariantStock_nonneg. lia.
Qed.

Lemma restoreStock_nonneg items : Maintains stockNonneg (restoreStock items).
Proof.
  unfold restoreStock. maintains. apply updateProductStockByVariant_nonneg.
Qed.

#[local] Hint Resolve reduceStockForOrder_nonneg reserveStock_nonneg
  updateProductStockByVariant_nonneg restoreStock_nonneg : maintains.
#[local] Hint Extern 5 (Maintains stockNonneg _) =>
  apply preserves_stockNonneg; solve [eauto with preserves] : maintains.

Lemma cancelOrder_nonneg orderId reason userId :
  Maintains stockNonneg (cancelOrder orderId reason userId).
Proof.
  unfold cancelOrder, getOrderById, orderRepo_cancelOrder. maintains.
Qed.

Lemma returnOrder_nonneg orderId reason userId :
  Maintains stockNonneg (returnOrder orderId reason userId).
Proof.
  unfold returnOrder, getOrderById, orderRepo_returnOrder. maintains.
Qed.

Lemma createOrder_nonneg newId userId :
  Maintains stockNonneg (createOrder newId userId).
Proof. unfold createOrder, generateOrderNumber. maintains. Qed.

Lemma handleSuccessfulPayment_nonneg ext o p s :
  Maintains stockNonneg (handleSuccessfulPayment ext o p s).
Proof.
  unfold handleSuccessfulPayment, getPaymentByRazorpayOrderId,
    reduceStockOnCapture.
  maintains.
Qed.

(** One turn of the reservation loop either reports a failure and writes
    nothing, or has found the variant with enough stock and writes the
    difference. *)
Lemma reduceStockStep_cases item w :
  (exists msg, reduceStockStep item w = (Ok (Some msg), w)) \/
  (exists p i v,
     products w !! si_productId item = Some p /\
     list_find (fun v => v_sku v = si_sku item /\ v_karat v = si_karat item)
               (p_variants p) = Some (i, v) /\
     si_quantity item <= v_stock v /\
     reduceStockStep item w
     = (Ok None,
        (updateVariantStock (si_productId item) (si_sku item)
                            (v_stock v - si_quantity item) w).2)).
Proof.
  unfold reduceStockStep, getProductById. munfold.
  destruct (decide (si_productId item = "")); simpl; [eauto|].
  destruct (products w !! si_productId item) as [p|] eqn:Hp; simpl; [|eauto].
  destruct (list_find _ (p_variants p)) as [[i v]|] eqn:Hfind; simpl; [|eauto].
  destruct (decide (v_stock v < si_quantity item)); simpl; [eauto|].
  right. exists p, i, v. repeat split; [done|lia|].
  unfold updateVariantStock. rewrite Hp.
  by destruct (list_find (fun v0 => v_sku v0 = si_sku item) (p_variants p))
    as [[j v']|].
Qed.

Lemma updateProductStockByVariant_rejects productId sku q w p i v :
  products w !! productId = Some p ->
  list_find (fun v => v_sku v = sku) (p_variants p) = Some (i, v) ->
  v_stock v + q < 0 ->
  exists msg,
    updateProductStockByVariant productId sku q w = (Throw (BadRequestError msg), w).
Proof.
  intros Hp Hfind Hneg. unfold updateProductStockByVariant, getProductById. munfold.
  destruct (decide (productId = "")); simpl; [eauto|].
  rewrite Hp. simpl. rewrite Hfind. simpl.
  destruct (decide (v_stock v + q < 0)); [eauto|lia].
Qed.

(** C4.  From a database in which no variant has a negative stock, no
    stock-mutating operation reaches one in which some variant has: not the
    reservation at checkout, the decrement at capture, the restore on
    cancellation or return, nor the signed adjustment, whether they return or
    throw.  A turn of the reservation loop writes only after it has found
    stock >= quantity, and what it writes is stock - quantity; a signed
    adjustment that would make the stock negative throws a BadRequestError
    and leaves the database as it was. *)
Theorem stock_never_negative (w : World) :
  stockNonneg w ->
  (forall lines, stockNonneg (reserveStock lines w).2) /\
  (forall items, stockNonneg (reduceStockForOrder items w).2) /\
  (forall items, stockNonneg (restoreStock items w).2) /\
  (forall productId sku q,
     stockNonneg (updateProductStockByVariant productId sku q w).2) /\
  (forall newId userId, stockNonneg (createOrder newId userId w).2) /\
  (forall orderId reason userId,
     stockNonneg (cancelOrder orderId reason userId w).2 /\
     stockNonneg (returnOrder orderId reason userId w).2) /\
  (forall ext o p s, stockNonneg (handleSuccessfulPayment ext o p s w).2) /\
  (forall item,
     (reduceStockStep item w).2 = w \/
     exists p i v,
       products w !! si_productId item = Some p /\
       list_find (fun v => v_sku v = si_sku item /\ v_karat v = si_karat item)
                 (p_variants p) = Some (i, v) /\
       si_quantity item <= v_stock v /\
       (reduceStockStep item w).2
       = (updateVariantStock (si_productId item) (si_sku item)
                             (v_stock v - si_quantity item) w).2) /\
  (forall productId sku q p i v,
     products w !! productId = Some p ->
     list_find (fun v => v_sku v = sku) (p_variants p) = Some (i, v) ->
     v_stock v + q < 0 ->
     exists msg,
       updateProductStockByVariant productId sku q w
       = (Throw (BadRequestError msg), w)).
Proof.
  intros Hw. repeat split; intros.
  - by apply reserveStock_nonneg.
  - by apply reduceStockForOrder_nonneg.
  - by apply restoreStock_nonneg.
  - by apply updateProductStockByVariant_nonneg.
  - by apply createOrder_nonneg.
  - by apply cancelOrder_nonneg.
  - by apply returnOrder_nonneg.
  - by apply handleSuccessfulPayment_nonneg.
  - destruct (reduceStockStep_cases item w) as [[msg H]|(p & i & v & Hp & Hf & Hq & H)];
      rewrite H; simpl; [by left|right; eauto 10].
  - by eapply updateProductStockByVariant_rejects.
Qed.

Lemma shop_stockNonneg : stockNonneg shop.
Proof.
  unfold stockNonneg, shop. simpl. apply map_Forall_singleton.
  unfold ring. simpl.
  constructor; [simpl; lia|]. constructor; [simpl; lia|]. constructor.
Defined.

(** On the shop: reserving 3 of B, of which there are 2, leaves the stock
    at 2, and taking 6 off the 5 of A is refused. *)
Lemma stock_never_negative_example :
  stockNonneg (reserveStock [mkCartLine "p1" "Ring" 3 18 "B" 50 "b.png"] shop).2 /\
  (exists msg,
     updateProductStockByVariant "p1" "A" (-6) shop
     = (Throw (BadRequestError msg), shop)).
Proof.
  destruct (stock_never_negative shop shop_stockNonneg)
    as (Hreserve & _ & _ & _ & _ & _ & _ & _ & Hreject).
  split; [apply Hreserve|].
  apply (Hreject "p1" "A" (-6) ring 0%nat (mkVariant 14 "gemstone" "A" 100 5 3 true)).
  - vm_compute. reflexivity.
  - vm_compute. reflexivity.
  - simpl. lia.
Defined.

(** ** Cancelling through the status update *)

(** What a restore writes: for a product that has the SKU, the stock of its
    first variant with that SKU goes up by the quantity. *)
Lemma updateProductStockByVariant_adds productId sku q w p i v :
  productId <> "" ->
  products w !! productId = Some p ->
  list_find (fun v => v_sku v = sku) (p_variants p) = Some (i, v) ->
  0 <= v_stock v + q ->
  isOk (updateProductStockByVariant productId sku q w).1 = true /\
  stockOf (updateProductStockByVariant productId sku q w).2 productId sku
  = Some (v_stock v + q).
Proof.
  intros Hid Hp Hfind Hq.
  unfold updateProductStockByVariant, getProductById, updateVariantStock. munfold.
  destruct (decide (productId = "")); [done|]. simpl.
  rewrite Hp. simpl. rewrite Hfind. simpl.
  destruct (decide (v_stock v + q < 0)); [lia|]. simpl.
  rewrite Hp, Hfind. simpl. split; [done|].
  unfold stockOf. simpl. rewrite lookup_insert_eq. simpl.
  apply list_find_Some in Hfind as (Hi & Hsku & Hbefore).
  assert (Hfind' : list_find (fun v0 => v_sku v0 = sku)
                     (<[i := withStock v (v_stock v + q)]> (p_variants p))
                   = Some (i, withStock v (v_stock v + q))).
  { apply list_find_Some. split; [|split; [done|]].
    - apply list_lookup_insert_eq. by eapply lookup_lt_Some.
    - intros j y Hj Hlt. rewrite list_lookup_insert_ne in Hj by lia.
      by eapply Hbefore. }
  by rewrite Hfind'.
Qed.

(** A status update writes orders only: it never touches a product. *)
Lemma updateOrderStatus_products orderId status w :
  products (updateOrderStatus orderId status w).2 = products w.
Proof. by apply updateOrderStatus_preserves. Qed.

(** [cancelOrder] on an order of one item whose product has the SKU: the
    stock of the variant the restore addresses goes up by the quantity of the
    item. *)
Lemma cancelOrder_restores orderId reason w order item p i v :
  orders w !! orderId = Some order ->
  o_items order = [item] ->
  canCancelOrder (o_status order) = true ->
  oi_product item <> "" ->
  products w !! oi_product item = Some p ->
  list_find (fun v => v_sku v = oi_sku item) (p_variants p) = Some (i, v) ->
  0 <= oi_quantity item ->
  0 <= v_stock v ->
  isOk (cancelOrder orderId reason None w).1 = true /\
  stockOf (cancelOrder orderId reason None w).2 (oi_product item) (oi_sku item)
  = Some (v_stock v + oi_quantity item).
Proof.
  intros Ho Hitems Hcan Hid Hp Hfind Hq Hstock.
  unfold cancelOrder, getOrderById, orderRepo_cancelOrder, updateOrderDoc,
    restoreStock.
  munfold. cbn -[updateProductStockByVariant]. rewrite Ho.
  cbn -[updateProductStockByVariant]. rewrite Hcan.
  cbn -[updateProductStockByVariant]. rewrite Ho, Hitems.
  cbn -[updateProductStockByVariant]. munfold.
  cbn -[updateProductStockByVariant].
  match goal with
  | |- context [updateProductStockByVariant ?a ?b ?c ?w0] =>
      destruct (updateProductStockByVariant_adds a b c w0 p i v)
        as [Hok Hst]; [done|done|done|lia|];
      destruct (updateProductStockByVariant a b c w0) as [[r|e] w1]; [|done]
  end.
  done.
Qed.

(** C6 at the failing input.  The order o1 of the shop is pending and holds
    2 of A, of which the shop has 5.  The status update to cancelled is
    accepted and stores the status, and the stock of A still reads 5;
    [cancelOrder] on the same order puts the 2 back and the stock reads 7. *)
Theorem updateOrderStatus_cancelled_restores_nothing :
  isOk (updateOrderStatus "o1" CANCELLED shop).1 = true /\
  o_status <$> (orders (updateOrderStatus "o1" CANCELLED shop).2 !! "o1")
  = Some CANCELLED /\
  oi_quantity <$> o_items pendingOrder = [2] /\
  stockOf shop "p1" "A" = Some 5 /\
  stockOf (updateOrderStatus "o1" CANCELLED shop).2 "p1" "A" = Some 5 /\
  o_status <$> (orders (cancelOrder "o1" "no longer needed" (Some "u1") shop).2 !! "o1")
  = Some CANCELLED /\
  stockOf (cancelOrder "o1" "no longer needed" (Some "u1") shop).2 "p1" "A" = Some 7.
Proof. vm_compute. repeat split; reflexivity. Qed.

(** ** Consuming the applied discounts *)

(** The gift-card marker reads and never writes. *)
Lemma safelyMarkGiftCardAsUsed_writes_nothing code userId amount w :
  (safelyMarkGiftCardAsUsed code userId amount w).2 = w.
Proof.
  revert w.
  change (Preserves (fun w => w) (safelyMarkGiftCardAsUsed code userId amount)).
  unfold safelyMarkGiftCardAsUsed, getGiftCardByCode, skipNotFound. preserves.
Qed.

(** No step of [createOrder] writes a gift card. *)
Lemma createOrder_giftCards newId userId w :
  giftCards (createOrder newId userId w).2 = giftCards w.
Proof.
  revert w. change (Preserves giftCards (createOrder newId userId)).
  unfold createOrder, generateOrderNumber. preserves.
Qed.

(** A voucher code that names no voucher is skipped: the marker returns and
    writes nothing. *)
Lemma safelyMarkVoucherAsUsed_not_found code userId w :
  vouchers w !! code = None ->
  safelyMarkVoucherAsUsed code userId w = (Ok tt, w).
Proof.
  intros Hv. unfold safelyMarkVoucherAsUsed, getVoucherByCode. munfold.
  by rewrite Hv.
Qed.

(** A voucher that is already used stops the checkout: the marker throws the
    BadRequestError of the voucher service again. *)
Lemma safelyMarkVoucherAsUsed_used code userId w v :
  vouchers w !! code = Some v ->
  vo_used v = true ->
  exists msg, safelyMarkVoucherAsUsed code userId w = (Throw (BadRequestError msg), w).
Proof.
  intros Hv Hused.
  unfold safelyMarkVoucherAsUsed, markVoucherAsUsed, getVoucherByCode,
    hasUserUsedVoucher, skipNotFound.
  munfold. rewrite Hv. simpl. rewrite Hv.
  case_bool_decide; simpl; [eauto|].
  rewrite Hv. simpl. rewrite Hused. simpl. eauto.
Qed.

(** C8 at the failing input.  The cart of u1 carries the coupon SAVE20, the
    voucher V10 and a redemption of 30 on the gift card GC1, which holds 100.
    [createOrder] returns; the coupon is consumed by u1 and the voucher is
    used, but the gift card still holds 100 with no usage recorded, where
    the service's own [redeemGiftCard] would leave 70. *)
Theorem createOrder_leaves_gift_card_unredeemed :
  isOk (createOrder "o2" "u1" shop).1 = true /\
  cp_usedBy <$> (coupons (createOrder "o2" "u1" shop).2 !! "SAVE20") = Some ["u1"] /\
  vo_used <$> (vouchers (createOrder "o2" "u1" shop).2 !! "V10") = Some true /\
  ag_redeemedAmount <$> c_appliedGiftCard fullCart = Some 30 /\
  gc_remainingAmount <$> (giftCards (createOrder "o2" "u1" shop).2 !! "GC1") = Some 100 /\
  gc_usedBy <$> (giftCards (createOrder "o2" "u1" shop).2 !! "GC1") = Some [] /\
  gc_remainingAmount <$> (giftCards (redeemGiftCard "GC1" "u1" 30 "o2" shop).2 !! "GC1")
  = Some 70.
Proof. vm_compute. repeat split; reflexivity. Qed.

(** ** Verifying a gateway confirmation *)

Lemma handleSuccessfulPayment_checks ext o p s w :
  (exists i payment,
     list_find (fun x => pay_razorpayOrderId x = Some o) (payments w)
     = Some (i, payment) /\
     gatewayConfirms ext o p s payment) \/
  (exists e, handleSuccessfulPayment ext o p s w = (Throw e, w)).
Proof.
  unfold handleSuccessfulPayment, getPaymentByRazorpayOrderId, gatewayConfirms.
  munfold.
  destruct (list_find _ (payments w)) as [[i payment]|]; simpl; [|eauto].
  destruct (verifyPaymentSignature ext o p s); simpl; [|eauto].
  destruct (fetchPayment ext p) as [rp|e]; simpl; [|eauto].
  destruct (String.eqb (rp_status rp) "captured") eqn:Hstatus; simpl; [|eauto].
  apply String.eqb_eq in Hstatus.
  destruct (decide (pay_amount payment <= 0)); simpl; [eauto|].
  destruct (decide (rp_amount rp <> pay_amount payment * 100)); simpl; [eauto|].
  left. exists i, payment. split; [done|]. split; [done|].
  exists rp. repeat split; [done|]. lia.
Qed.

(** C7.  [handleSuccessfulPayment] takes the status and the amount from what
    the gateway answers to [fetchPayment], not from its caller.  A signature
    that does not verify, a fetched status other than captured, or a fetched
    amount other than the stored amount times 100 makes it throw with the
    database, payment and order included, as it was; and whenever it has
    written anything, the signature verified and the fetched payment was
    captured for exactly that amount. *)
Theorem handleSuccessfulPayment_verifies
    (ext : Externals) (o p s : string) (w : World) :
  (verifyPaymentSignature ext o p s = false ->
   exists e, handleSuccessfulPayment ext o p s w = (Throw e, w)) /\
  (forall rp, fetchPayment ext p = Ok rp -> rp_status rp <> "captured" ->
   exists e, handleSuccessfulPayment ext o p s w = (Throw e, w)) /\
  (forall i payment rp,
     list_find (fun x => pay_razorpayOrderId x = Some o) (payments w)
     = Some (i, payment) ->
     fetchPayment ext p = Ok rp ->
     rp_amount rp <> pay_amount payment * 100 ->
     exists e, handleSuccessfulPayment ext o p s w = (Throw e, w)) /\
  ((handleSuccessfulPayment ext o p s w).2 <> w ->
   exists i payment,
     list_find (fun x => pay_razorpayOrderId x = Some o) (payments w)
     = Some (i, payment) /\
     gatewayConfirms ext o p s payment).
Proof.
  destruct (handleSuccessfulPayment_checks ext o p s w)
    as [(i & payment & Hfind & Hsig & rp & Hfetch & Hstatus & Hamount)|Hthrow].
  - split; [congruence|]. split; [congruence|]. split.
    + intros i' payment' rp' Hfind' Hfetch'. congruence.
    + intros _. exists i, payment. split; [done|]. split; [done|]. eauto.
  - split; [done|]. split; [done|]. split; [done|].
    destruct Hthrow as [e He]. rewrite He. done.
Qed.

(** A forged signature on the shop: the call throws and writes nothing. *)
Lemma handleSuccessfulPayment_verifies_example :
  exists e, handleSuccessfulPayment gateway "order_1" "pay_1" "forged" shop
            = (Throw e, shop).
Proof.
  apply (handleSuccessfulPayment_verifies gateway "order_1" "pay_1" "forged" shop).
  reflexivity.
Defined.

(** ** Delivering a confirmation twice *)

(** C2 at the failing input.  The cart holds 2 of A, of which the shop has 5.
    The checkout reserves them (3 left); the first delivery of the
    confirmation captures the payment and takes 2 of A again (1 left); the
    second delivery is thrown out at the status update of the order and
    takes nothing.  The stock of A has gone down by twice the quantity.  On
    the cash-on-delivery path the capture takes no stock (3 left), and a
    second confirmation is refused as already confirmed. *)
Theorem gateway_capture_decrements_again :
  stockOf shop "p1" "A" = Some 5 /\
  stockOf afterCheckout "p1" "A" = Some 3 /\
  paymentStatus afterInitiate "pay2" = Some CREATED /\
  isOk (handleSuccessfulPayment gateway "order_2" "pay_2" "valid" afterInitiate).1
  = true /\
  paymentStatus afterFirstDelivery "pay2" = Some CAPTURED /\
  stockOf afterFirstDelivery "p1" "A" = Some 1 /\
  (handleSuccessfulPayment gateway "order_2" "pay_2" "valid" afterFirstDelivery).1
  = Throw (BadRequestError "Invalid status transition from processing to processing") /\
  paymentStatus afterSecondDelivery "pay2" = Some CAPTURED /\
  stockOf afterSecondDelivery "p1" "A" = Some 1 /\
  paymentStatus afterConfirmCOD "pay2" = Some CAPTURED /\
  stockOf afterConfirmCOD "p1" "A" = Some 3 /\
  (confirmCODPayment "o2" 230 afterConfirmCOD).1
  = Throw (BadRequestError "COD payment already confirmed").
Proof. vm_compute. repeat split; reflexivity. Qed.

(** ** The gift card against the remaining balance *)

Lemma validateGiftCardForRedemption_carts code amount w :
  carts (validateGiftCardForRedemption code amount w).2 = carts w.
Proof.
  revert w. change (Preserves carts (validateGiftCardForRedemption code amount)).
  unfold validateGiftCardForRedemption. preserves.
Qed.

(** C9, as the code has it.  The totals computation takes the gift-card
    amount stored in the cart as it is; the bound is enforced where the gift
    card is applied.  When [applyGiftCard] returns, the cart it has stored
    carries the requested amount, and that amount is at most
    max (0, subtotal - couponAmount - voucherAmount), provided the cart held
    no gift card of a negative amount before. *)
Theorem applyGiftCard_within_remaining_balance
    (userId code : string) (amount : Z) (w w' : World) (cart' : Cart) :
  applyGiftCard userId code amount w = (Ok cart', w') ->
  (forall cart, carts w !! userId = Some cart ->
     0 <= default 0 (ag_redeemedAmount <$> c_appliedGiftCard cart)) ->
  carts w' !! userId = Some cart' /\
  t_giftCardAmount (calculateCartTotal cart') = amount /\
  t_giftCardAmount (calculateCartTotal cart')
  <= Z.max 0 (t_subtotal (calculateCartTotal cart')
              - t_discountAmount (calculateCartTotal cart')
              - t_voucherAmount (calculateCartTotal cart')).
Proof.
  unfold applyGiftCard, getCart, cartRepo_applyGiftCard, updateCart.
  unfold mbind, M_bind, bind. intros H Hprior.
  destruct (carts w !! userId) as [cart|] eqn:Hcart; [|done].
  specialize (Hprior cart eq_refl).
  destruct (c_items cart) as [|item rest] eqn:Hitems; [done|].
  destruct (decide (amount > t_total (calculateCartTotal cart))) as [|Hle]; [done|].
  pose proof (validateGiftCardForRedemption_carts code amount w) as Hc.
  destruct (validateGiftCardForRedemption code amount w) as [[gc|e] w2]; [|done].
  simpl in Hc. rewrite Hc, Hcart in H. munfold. injection H as <- <-.
  simpl. rewrite lookup_insert_eq. split; [done|].
  unfold calculateCartTotal in *. simpl. rewrite Hitems in *. simpl in *.
  split; [done|]. lia.
Qed.

Lemma applyGiftCard_within_remaining_balance_example :
  exists cart',
    carts (applyGiftCard "u2" "GC1" 100 shop).2 !! "u2" = Some cart' /\
    t_giftCardAmount (calculateCartTotal cart') = 100 /\
    t_giftCardAmount (calculateCartTotal cart') <= 100.
Proof.
  assert (H : applyGiftCard "u2" "GC1" 100 shop
              = (Ok (mkCart (c_items plainCart) None None
                            (Some (mkAppliedGiftCard "GC1" "g1" 100))),
                 (applyGiftCard "u2" "GC1" 100 shop).2))
    by (vm_compute; reflexivity).
  destruct (applyGiftCard_within_remaining_balance _ _ _ _ _ _ H)
    as (Hcart & Hamount & Hbound).
  - intros cart Hc.
    assert (Hp : carts shop !! "u2" = Some plainCart) by (vm_compute; reflexivity).
    rewrite Hp in Hc. injection Hc as <-. simpl. lia.
  - eexists. split; [exact Hcart|]. split; [exact Hamount|]. exact Hbound.
Defined.

(** C9 fails as stated: u2, whose cart holds one A at 100, applies 100 of the
    gift card and then the voucher of 10; the totals of the stored cart give
    a gift-card amount of 100 against a remaining balance of 90. *)
Lemma gift_card_exceeds_remaining_balance :
  isOk (applyGiftCard "u2" "GC1" 100 shop).1 = true /\
  isOk (applyVoucher "u2" "V10" (applyGiftCard "u2" "GC1" 100 shop).2).1 = true /\
  exists cart,
    carts (applyVoucher "u2" "V10" (applyGiftCard "u2" "GC1" 100 shop).2).2 !! "u2"
    = Some cart /\
    t_giftCardAmount (calculateCartTotal cart) = 100 /\
    Z.max 0 (t_subtotal (calculateCartTotal cart)
             - t_discountAmount (calculateCartTotal cart)
             - t_voucherAmount (calculateCartTotal cart)) = 90 /\
    ~ t_giftCardAmount (calculateCartTotal cart)
      <= Z.max 0 (t_subtotal (calculateCartTotal cart)
                  - t_discountAmount (calculateCartTotal cart)
                  - t_voucherAmount (calculateCartTotal cart)).
Proof.
  split; [vm_compute; reflexivity|]. split; [vm_compute; reflexivity|].
  eexists. split; [vm_compute; reflexivity|].
  vm_compute. repeat split; try reflexivity. intros H. by apply H.
Qed.

(** ** The second delivery takes no stock *)

(** Only a pending order can move to processing. *)
Lemma processing_from_pending status :
  PROCESSING ∈ validTransitions status -> status = PENDING.
Proof.
  destruct status; simpl; intros H; try done;
    repeat (apply elem_of_cons in H as [H|H]; [discriminate|]);
    by apply elem_of_nil in H.
Qed.

(** A status update either throws having written nothing, the order being
    absent or the edge missing, or stores the requested status. *)
Lemma updateOrderStatus_cases orderId new w :
  (exists e, updateOrderStatus orderId new w = (Throw e, w) /\
             forall order, orders w !! orderId = Some order ->
                           new ∉ validTransitions (o_status order)) \/
  (exists r w', updateOrderStatus orderId new w = (Ok r, w') /\
                o_status <$> (orders w' !! orderId) = Some new).
Proof.
  unfold updateOrderStatus, getOrderById, validateStatusTransition,
    orderRepo_updateOrderStatus, updateOrderDoc.
  munfold.
  destruct (orders w !! orderId) as [order|] eqn:Ho; simpl;
    [|left; eexists; split; done].
  case_bool_decide as Hin; simpl.
  - right. rewrite Ho. simpl.
    match goal with
    | |- context [handleStatusUpdate ?i ?o ?s ?w0] =>
        pose proof (handleStatusUpdate_status i o s w0) as Hs;
        destruct (handleStatusUpdate_ok i o s w0) as [w' Hw']
    end.
    rewrite Hw' in Hs |- *. simpl in *. eexists _, _. split; [done|].
    rewrite Hs. by rewrite lookup_insert_eq.
  - left. eexists. split; [done|]. by intros ? [= <-].
Qed.

(** Rewriting one document of a list in a way that keeps what a search looks
    at leaves the search where it was. *)
Lemma list_find_insert_keeps {A} (P : A -> Prop) `{!forall x, Decision (P x)}
    (f : A -> A) (l : list A) (i j : nat) (x y : A) :
  (forall z, P (f z) <-> P z) ->
  list_find P l = Some (i, x) ->
  l !! j = Some y ->
  list_find P (<[j := f y]> l) = Some (i, if decide (i = j) then f x else x).
Proof.
  intros HP Hfind Hj.
  apply list_find_Some in Hfind as (Hi & Hx & Hbefore).
  apply list_find_Some. split; [|split].
  - destruct (decide (i = j)) as [->|Hne].
    + rewrite list_lookup_insert_eq by by eapply lookup_lt_Some.
      congruence.
    + by rewrite list_lookup_insert_ne.
  - destruct (decide (i = j)); [by apply HP|done].
  - intros k z Hk Hlt. destruct (decide (k = j)) as [->|Hne].
    + rewrite list_lookup_insert_eq in Hk by by eapply lookup_lt_Some.
      injection Hk as <-. rewrite HP. by eapply Hbefore.
    + rewrite list_lookup_insert_ne in Hk by done. by eapply Hbefore.
Qed.

(** Marking a payment captured keeps the payment a gateway order id leads
    to, up to its status and gateway payment id. *)
Lemma markPaymentAsCaptured_find o paymentId rzp w i payment :
  list_find (fun x => pay_razorpayOrderId x = Some o) (payments w)
  = Some (i, payment) ->
  exists payment',
    list_find (fun x => pay_razorpayOrderId x = Some o)
              (payments (markPaymentAsCaptured paymentId rzp w).2)
    = Some (i, payment') /\
    pay_orderId payment' = pay_orderId payment.
Proof.
  intros Hfind. unfold markPaymentAsCaptured, updatePaymentDoc.
  destruct (list_find (fun p => pay_id p = paymentId) (payments w))
    as [[j pj]|] eqn:Hj; simpl; [|eauto].
  apply list_find_Some in Hj as (Hj & _ & _).
  set (f := fun q : Payment =>
         mkPayment (pay_id q) (pay_orderId q) (pay_user q) (pay_amount q)
           (pay_method q) CAPTURED (pay_razorpayOrderId q)
           (match rzp with Some id => Some id | None => pay_razorpayPaymentId q end)).
  exists (if decide (i = j) then f payment else payment). split.
  - by apply (list_find_insert_keeps
                (fun x => pay_razorpayOrderId x = Some o) f).
  - by destruct (decide (i = j)).
Qed.

(** A run of [handleSuccessfulPayment] either throws having written nothing,
    or leaves a database in which the gateway order id leads to a payment
    whose order, if there is one, is not pending. *)
Lemma handleSuccessfulPayment_cases ext o p s w :
  (exists e, handleSuccessfulPayment ext o p s w = (Throw e, w)) \/
  (exists i payment,
     list_find (fun x => pay_razorpayOrderId x = Some o)
               (payments (handleSuccessfulPayment ext o p s w).2)
     = Some (i, payment) /\
     forall order,
       orders (handleSuccessfulPayment ext o p s w).2 !! pay_orderId payment
       = Some order ->
       o_status order <> PENDING).
Proof.
  remember (handleSuccessfulPayment ext o p s w) as res eqn:Hres.
  unfold handleSuccessfulPayment, getPaymentByRazorpayOrderId in Hres.
  rewrite bind_run in Hres. unfold gets at 1 in Hres.
  destruct (list_find _ (payments w)) as [[i payment]|] eqn:Hfind;
    cbn -[mbind] in Hres; [|left; eexists; exact Hres].
  destruct (verifyPaymentSignature ext o p s); cbn -[mbind] in Hres;
    [|left; eexists; exact Hres].
  rewrite bind_run in Hres. unfold liftResult at 1 in Hres.
  destruct (fetchPayment ext p) as [rp|e]; [|left; eexists; exact Hres].
  destruct (String.eqb (rp_status rp) "captured"); cbn -[mbind] in Hres;
    [|left; eexists; exact Hres].
  destruct (decide (pay_amount payment <= 0)); [left; eexists; exact Hres|].
  destruct (decide (rp_amount rp <> pay_amount payment * 100));
    [left; eexists; exact Hres|].
  right. rewrite bind_run in Hres.
  destruct (markPaymentAsCaptured_find o (pay_id payment) (Some p) w i payment Hfind)
    as (payment' & Hfind' & Horder).
  assert (Hmark : exists up, (markPaymentAsCaptured (pay_id payment) (Some p) w).1 = Ok up).
  { unfold markPaymentAsCaptured, updatePaymentDoc.
    destruct (list_find (fun q => pay_id q = pay_id payment) (payments w))
      as [[? ?]|]; simpl; eauto. }
  destruct Hmark as [up Hup].
  destruct (markPaymentAsCaptured (pay_id payment) (Some p) w) as [r wa].
  simpl in Hup, Hfind'. subst r. rewrite bind_run in Hres.
  pose proof (updateOrderStatus_preserves payments (pay_orderId payment) PROCESSING
                ltac:(done) wa) as Hpay.
  destruct (updateOrderStatus_cases (pay_orderId payment) PROCESSING wa)
    as [(e & He & Hno)|(r & wb & Hok & Hstatus)].
  - rewrite He in Hres. subst res. simpl. exists i, payment'. split; [done|].
    rewrite Horder. intros order Ho Hpending. apply (Hno order Ho).
    rewrite Hpending. simpl. set_solver.
  - rewrite Hok in Hpay, Hres. simpl in Hpay.
    match type of Hres with
    | res = ?k wb =>
        assert (Hkp : Preserves payments k) by
          (unfold reduceStockOnCapture; preserves);
        assert (Hko : Preserves orders k) by
          (unfold reduceStockOnCapture; preserves);
        specialize (Hkp wb); specialize (Hko wb)
    end.
    rewrite <- Hres in Hkp, Hko.
    exists i, payment'. split; [by rewrite Hkp, Hpay|].
    rewrite Hko, Horder. intros order Ho.
    rewrite Ho in Hstatus. simpl in Hstatus. by injection Hstatus as ->.
Qed.

(** A delivery for a payment whose order is not pending writes no product. *)
Lemma handleSuccessfulPayment_not_pending ext o p s w i payment :
  list_find (fun x => pay_razorpayOrderId x = Some o) (payments w)
  = Some (i, payment) ->
  (forall order, orders w !! pay_orderId payment = Some order ->
                 o_status order <> PENDING) ->
  products (handleSuccessfulPayment ext o p s w).2 = products w.
Proof.
  intros Hfind Hno.
  unfold handleSuccessfulPayment, getPaymentByRazorpayOrderId.
  rewrite bind_run. unfold gets at 1. rewrite Hfind. cbn -[mbind].
  destruct (verifyPaymentSignature ext o p s); cbn -[mbind]; [|done].
  rewrite bind_run. unfold liftResult at 1.
  destruct (fetchPayment ext p) as [rp|e]; [|done].
  destruct (String.eqb (rp_status rp) "captured"); cbn -[mbind]; [|done].
  destruct (decide (pay_amount payment <= 0)); [done|].
  destruct (decide (rp_amount rp <> pay_amount payment * 100)); [done|].
  rewrite bind_run.
  pose proof (markPaymentAsCaptured_preserves products (pay_id payment) (Some p)
                ltac:(done) w) as Hp.
  pose proof (markPaymentAsCaptured_preserves orders (pay_id payment) (Some p)
                ltac:(done) w) as Ho.
  destruct (markPaymentAsCaptured (pay_id payment) (Some p) w) as [[up|e] wa];
    simpl in *; [|done].
  rewrite bind_run.
  destruct (updateOrderStatus_cases (pay_orderId payment) PROCESSING wa)
    as [(e & He & _)|(r & wb & Hok & Hstatus)].
  - by rewrite He.
  - exfalso.
    unfold updateOrderStatus, getOrderById, validateStatusTransition in Hok.
    revert Hok. munfold. rewrite Ho.
    destruct (orders w !! pay_orderId payment) as [order|] eqn:Horder; [|done].
    simpl. case_bool_decide as Hin; [|done].
    apply processing_from_pending in Hin. by destruct (Hno order eq_refl).
Qed.

(** Whatever the first delivery of a confirmation did, delivering the same
    confirmation again writes no product: no stock is taken a second time. *)
Lemma second_delivery_takes_no_stock ext o p s w :
  products (handleSuccessfulPayment ext o p s
              (handleSuccessfulPayment ext o p s w).2).2
  = products (handleSuccessfulPayment ext o p s w).2.
Proof.
  destruct (handleSuccessfulPayment_cases ext o p s w)
    as [[e He]|(i & payment & Hfind & Hno)].
  - rewrite He. simpl. by rewrite He.
  - by eapply handleSuccessfulPayment_not_pending.
Qed.

(** * Further properties of the services *)

(** ** The lifecycle of an order *)

(** A restore never throws and writes products only. *)
Lemma restoreStock_ok items w :
  exists w', restoreStock items w = (Ok tt, w').
Proof.
  unfold restoreStock, tryCatch.
  destruct (forEach _ items w) as [[[]|e] w']; eauto.
Qed.

Lemma canCancelOrder_spec status :
  canCancelOrder status = true <-> status = PENDING \/ status = PROCESSING.
Proof.
  destruct status;
    (split;
     [intros H; first [by left | by right | vm_compute in H; discriminate]
     |intros [H|H]; first [discriminate | vm_compute; reflexivity]]).
Qed.

(** X1.  [cancelOrder] goes through exactly for an order that exists, that
    belongs to the requesting user when one is given, and that is pending or
    processing; it then stores the status cancelled with the reason.  In
    every other case it throws and leaves the database as it was. *)
Theorem cancelOrder_guard (orderId reason : string) (userId : option string) (w : World) :
  (forall order,
     orders w !! orderId = Some order ->
     notOwner userId (o_user order) = false ->
     o_status order = PENDING \/ o_status order = PROCESSING ->
     exists r w',
       cancelOrder orderId reason userId w = (Ok r, w') /\
       o_status <$> (orders w' !! orderId) = Some CANCELLED /\
       o_cancelReason <$> (orders w' !! orderId) = Some (Some reason)) /\
  (isOk (cancelOrder orderId reason userId w).1 = true ->
   exists order,
     orders w !! orderId = Some order /\
     notOwner userId (o_user order) = false /\
     (o_status order = PENDING \/ o_status order = PROCESSING)) /\
  (isOk (cancelOrder orderId reason userId w).1 = false ->
   (cancelOrder orderId reason userId w).2 = w).
Proof.
  unfold cancelOrder, getOrderById, orderRepo_cancelOrder, updateOrderDoc.
  munfold.
  destruct (orders w !! orderId) as [order|] eqn:Ho; cbn -[restoreStock];
    [|split; [done|split; done]].
  destruct (notOwner userId (o_user order)) eqn:Hown; cbn -[restoreStock];
    [split; [intros ? [= <-] ?; congruence|split; done]|].
  destruct (canCancelOrder (o_status order)) eqn:Hcan; cbn -[restoreStock].
  - rewrite Ho. cbn -[restoreStock].
    match goal with
    | |- context [restoreStock ?items ?w0] =>
        pose proof (restoreStock_preserves orders items ltac:(done) w0) as Hr;
        destruct (restoreStock_ok items w0) as [w' Hw']
    end.
    rewrite Hw' in Hr |- *. cbn in Hr |- *.
    split; [|split; [|done]].
    + intros ? [= <-] _ _. eexists _, _. split; [done|].
      rewrite Hr, lookup_insert_eq. done.
    + intros _. exists order. split; [done|]. split; [done|].
      by apply canCancelOrder_spec.
  - split; [|split; done].
    intros ? [= <-] _ Hst. apply canCancelOrder_spec in Hst. congruence.
Qed.

Lemma cancelOrder_guard_example :
  exists r w',
    cancelOrder "o1" "no longer needed" (Some "u1") shop = (Ok r, w') /\
    o_status <$> (orders w' !! "o1") = Some CANCELLED /\
    o_cancelReason <$> (orders w' !! "o1") = Some (Some "no longer needed").
Proof.
  apply (cancelOrder_guard "o1" "no longer needed" (Some "u1") shop) with pendingOrder.
  - vm_compute. reflexivity.
  - vm_compute. reflexivity.
  - left. reflexivity.
Defined.

(** X2.  [returnOrder] goes through exactly for an order that exists, that
    belongs to the requesting user when one is given, and that is delivered;
    it then stores the status returned with the reason.  In every other case
    it throws and leaves the database as it was. *)
Theorem returnOrder_guard (orderId reason : string) (userId : option string) (w : World) :
  (forall order,
     orders w !! orderId = Some order ->
     notOwner userId (o_user order) = false ->
     o_status order = DELIVERED ->
     exists r w',
       returnOrder orderId reason userId w = (Ok r, w') /\
       o_status <$> (orders w' !! orderId) = Some RETURNED /\
       o_returnReason <$> (orders w' !! orderId) = Some (Some reason)) /\
  (isOk (returnOrder orderId reason userId w).1 = true ->
   exists order,
     orders w !! orderId = Some order /\
     notOwner userId (o_user order) = false /\
     o_status order = DELIVERED) /\
  (isOk (returnOrder orderId reason userId w).1 = false ->
   (returnOrder orderId reason userId w).2 = w).
Proof.
  unfold returnOrder, getOrderById, orderRepo_returnOrder, updateOrderDoc.
  munfold.
  destruct (orders w !! orderId) as [order|] eqn:Ho; cbn -[restoreStock];
    [|split; [done|split; done]].
  destruct (notOwner userId (o_user order)) eqn:Hown; cbn -[restoreStock];
    [split; [intros ? [= <-] ?; congruence|split; done]|].
  case_bool_decide as Hst; cbn -[restoreStock].
  - rewrite Ho. cbn -[restoreStock].
    match goal with
    | |- context [restoreStock ?items ?w0] =>
        pose proof (restoreStock_preserves orders items ltac:(done) w0) as Hr;
        destruct (restoreStock_ok items w0) as [w' Hw']
    end.
    rewrite Hw' in Hr |- *. cbn in Hr |- *.
    split; [|split; [|done]].
    + intros ? [= <-] _ _. eexists _, _. split; [done|].
      rewrite Hr, lookup_insert_eq. done.
    + intros _. by exists order.
  - split; [|split; done].
    by intros ? [= <-] _ ?.
Qed.

Lemma returnOrder_guard_example :
  exists r w',
    returnOrder "o1" "too large" (Some "u1") deliveredShop = (Ok r, w') /\
    o_status <$> (orders w' !! "o1") = Some RETURNED /\
    o_returnReason <$> (orders w' !! "o1") = Some (Some "too large").
Proof.
  eapply (returnOrder_guard "o1" "too large" (Some "u1") deliveredShop).
  - vm_compute. reflexivity.
  - vm_compute. reflexivity.
  - reflexivity.
Defined.

(** X3.  A cancelled or returned order is terminal: a status update to any
    status, a cancellation and a return all throw and leave the database as
    it was. *)
Theorem cancelled_returned_terminal
    (orderId : string) (order : Order) (w : World) :
  orders w !! orderId = Some order ->
  o_status order = CANCELLED \/ o_status order = RETURNED ->
  (forall new, exists e, updateOrderStatus orderId new w = (Throw e, w)) /\
  (forall reason userId, exists e, cancelOrder orderId reason userId w = (Throw e, w)) /\
  (forall reason userId, exists e, returnOrder orderId reason userId w = (Throw e, w)).
Proof.
  intros Ho Hst. split; [|split].
  - intros new.
    destruct (updateOrderStatus_cases orderId new w)
      as [(e & He & _)|(r & w' & Hok & _)]; [eauto|].
    exfalso. revert Hok.
    unfold updateOrderStatus, getOrderById, validateStatusTransition. munfold.
    rewrite Ho. simpl. rewrite bool_decide_eq_false_2; [done|].
    rewrite validTransitions_transition.
    destruct Hst as [Hst|Hst]; rewrite Hst; inversion 1.
  - intros reason userId.
    unfold cancelOrder, getOrderById. munfold. rewrite Ho. simpl.
    destruct (notOwner userId (o_user order)); [eauto|].
    destruct (canCancelOrder (o_status order)) eqn:Hcan; simpl; [|eauto].
    apply canCancelOrder_spec in Hcan. destruct Hst, Hcan; congruence.
  - intros reason userId.
    unfold returnOrder, getOrderById. munfold. rewrite Ho. simpl.
    destruct (notOwner userId (o_user order)); [eauto|].
    case_bool_decide as Hd; simpl; [|eauto].
    destruct Hst; congruence.
Qed.

Lemma cancelled_returned_terminal_example :
  exists e,
    updateOrderStatus "o1" PENDING
      (cancelOrder "o1" "no longer needed" None shop).2
    = (Throw e, (cancelOrder "o1" "no longer needed" None shop).2).
Proof.
  eapply (cancelled_returned_terminal "o1").
  - vm_compute. reflexivity.
  - left. reflexivity.
Defined.

(** X4.  What an accepted status update stores: the order with the requested
    status; an estimated delivery date seven days from now when it enters
    processing; a fresh tracking number when it enters shipped without one,
    the one it has otherwise; the delivery date when it enters delivered.
    The order the method returns is the one read back before the date or the
    tracking number was added. *)
Theorem updateOrderStatus_stores
    (orderId : string) (order : Order) (new : IOrderStatus) (w : World) :
  orders w !! orderId = Some order ->
  transition (o_status order) new ->
  let actual := if decide (new = DELIVERED) then Some (now w)
                else o_actualDeliveryDate order in
  let eta := if decide (new = PROCESSING) then Some (now w + 604800000)
             else o_estimatedDeliveryDate order in
  let tracking :=
    if decide (new = SHIPPED /\
               (o_trackingNumber order = None \/ o_trackingNumber order = Some ""))
    then Some ("TRK" ++ pretty (now w) ++ pretty (random w))
    else o_trackingNumber order in
  updateOrderStatus orderId new w
  = (Ok (withLifecycle order new (o_trackingNumber order)
           (o_estimatedDeliveryDate order) actual
           (o_cancelReason order) (o_returnReason order)),
     setOrders
       (<[orderId := withLifecycle order new tracking eta actual
                       (o_cancelReason order) (o_returnReason order)]> (orders w))
       w).
Proof.
  intros Ho Ht.
  unfold updateOrderStatus, getOrderById, validateStatusTransition,
    orderRepo_updateOrderStatus, updateOrderDoc, handleStatusUpdate.
  munfold. rewrite Ho. simpl.
  rewrite bool_decide_eq_true_2 by by rewrite validTransitions_transition.
  simpl. rewrite Ho. simpl.
  destruct Ht; simpl; try done.
  - unfold updateOrderDoc. simpl. rewrite lookup_insert_eq. simpl.
    by rewrite insert_insert_eq.
  - destruct (decide (SHIPPED = SHIPPED /\ _)) as [[_ Hd]|Hd];
      [rewrite bool_decide_eq_true_2 by done
      |rewrite bool_decide_eq_false_2 by (intros ?; apply Hd; done)];
      simpl; [|done].
    unfold updateOrderDoc. simpl. rewrite lookup_insert_eq. simpl.
    by rewrite insert_insert_eq.
Qed.

Lemma updateOrderStatus_stores_example :
  o_estimatedDeliveryDate <$>
    (orders (updateOrderStatus "o1" PROCESSING shop).2 !! "o1")
  = Some (Some 604800500).
Proof.
  rewrite (updateOrderStatus_stores "o1" pendingOrder PROCESSING shop);
    [|vm_compute; reflexivity|constructor].
  simpl. rewrite lookup_insert_eq. reflexivity.
Defined.

(** Rewriting an order in a way that keeps its snapshot keeps the snapshot
    of every order. *)
Lemma updateOrderDoc_snapshot orderId g id :
  (forall o, snapshot (g o) = snapshot o) ->
  Preserves (fun w => snapshot <$> (orders w !! id)) (updateOrderDoc orderId g).
Proof.
  intros Hg w. unfold updateOrderDoc.
  destruct (orders w !! orderId) as [o|] eqn:Ho; simpl; [|done].
  destruct (decide (orderId = id)) as [->|Hne].
  - rewrite lookup_insert_eq, Ho. simpl. by rewrite Hg.
  - by rewrite lookup_insert_ne.
Qed.

#[local] Hint Resolve updateOrderDoc_snapshot | 10 : preserves.

(** X5.  The snapshot of an order, its number, user, items, subtotal,
    discounts and total, is frozen: no status update, cancellation, return,
    payment initiation, capture or cash-on-delivery confirmation changes it,
    for any order in the store. *)
Theorem order_snapshot_frozen (id : string) (w : World) :
  let frozen w' := snapshot <$> (orders w' !! id) = snapshot <$> (orders w !! id) in
  (forall orderId new, frozen (updateOrderStatus orderId new w).2) /\
  (forall orderId reason userId, frozen (cancelOrder orderId reason userId w).2) /\
  (forall orderId reason userId, frozen (returnOrder orderId reason userId w).2) /\
  (forall ext newId orderId user method,
     frozen (initiatePayment ext newId orderId user method w).2) /\
  (forall ext o p s, frozen (handleSuccessfulPayment ext o p s w).2) /\
  (forall orderId collected, frozen (confirmCODPayment orderId collected w).2).
Proof.
  assert (Hupd : forall orderId new,
    Preserves (fun w => snapshot <$> (orders w !! id)) (updateOrderStatus orderId new)).
  { intros. unfold updateOrderStatus, getOrderById, validateStatusTransition,
      orderRepo_updateOrderStatus, handleStatusUpdate. preserves. }
  simpl. repeat split; intros.
  - apply Hupd.
  - revert w. change (Preserves (fun w => snapshot <$> (orders w !! id))
                        (cancelOrder orderId reason userId)).
    unfold cancelOrder, getOrderById, orderRepo_cancelOrder. preserves.
  - revert w. change (Preserves (fun w => snapshot <$> (orders w !! id))
                        (returnOrder orderId reason userId)).
    unfold returnOrder, getOrderById, orderRepo_returnOrder. preserves.
  - revert w. change (Preserves (fun w => snapshot <$> (orders w !! id))
                        (initiatePayment ext newId orderId user method)).
    unfold initiatePayment, getOrderById, getPaymentByOrderId, updatePayment.
    preserves; apply Hupd.
  - revert w. change (Preserves (fun w => snapshot <$> (orders w !! id))
                        (handleSuccessfulPayment ext o p s)).
    unfold handleSuccessfulPayment, getPaymentByRazorpayOrderId,
      reduceStockOnCapture.
    preserves; apply Hupd.
  - revert w. change (Preserves (fun w => snapshot <$> (orders w !! id))
                        (confirmCODPayment orderId collected)).
    unfold confirmCODPayment, getPaymentByOrderId. preserves.
Qed.

(** ** Checkout *)

Lemma mapM_Forall2 {A B} (R : A -> B -> Prop) (f : A -> M B) xs w ys w' :
  (forall x w y w', f x w = (Ok y, w') -> R x y) ->
  mapM f xs w = (Ok ys, w') -> Forall2 R xs ys.
Proof.
  intros Hf. revert w ys w'.
  induction xs as [|x xs IH]; intros w ys w'; simpl.
  - intros [= <- <-]. constructor.
  - rewrite bind_run. destruct (f x w) as [[y|e] w1] eqn:Hx; [|done].
    rewrite bind_run. destruct (mapM f xs w1) as [[ys'|e] w2] eqn:Hxs; [|done].
    intros [= <- <-]. constructor; eauto.
Qed.

(** The lines of [getCartWithDetails] are the items of the cart, in order. *)
Lemma getCartWithDetails_lines userId w cd w1 :
  getCartWithDetails userId w = (Ok cd, w1) ->
  Forall2 (fun item line =>
             cl_productId line = ci_product item /\ cl_sku line = ci_sku item /\
             cl_karat line = ci_karat item /\ cl_quantity line = ci_quantity item /\
             cl_price line = ci_price item)
          (c_items (cd_cart cd)) (cd_items cd).
Proof.
  unfold getCartWithDetails, getCart. unfold mbind, M_bind, bind. intros H.
  destruct (carts w !! userId) as [cart|] eqn:Hcart; simpl in H;
    [|injection H as <- <-; constructor].
  destruct (c_items cart) as [|item rest] eqn:Hitems;
    [injection H as <- <-; simpl; rewrite Hitems; constructor|].
  match type of H with
  | context [mapM ?g ?xs w] =>
      pose proof (mapM_Forall2 (fun _ _ => True) g xs w) as Hlen;
      destruct (mapM g xs w) as [[ps|e] w2]; [|done]
  end.
  specialize (Hlen ps w2 ltac:(done) eq_refl). apply Forall2_length in Hlen.
  match type of H with
  | context [mapM ?g ?xs w2] =>
      pose proof (mapM_Forall2
                    (fun x line =>
                       cl_productId line = ci_product x.1 /\
                       cl_sku line = ci_sku x.1 /\
                       cl_karat line = ci_karat x.1 /\
                       cl_quantity line = ci_quantity x.1 /\
                       cl_price line = ci_price x.1) g xs w2) as Hl;
      destruct (mapM g xs w2) as [[ls|e] w3]; [|done]
  end.
  injection H as <- <-. simpl. rewrite Hitems.
  specialize (Hl ls w3). 
  assert (Hl' : Forall2
            (fun x line =>
               cl_productId line = ci_product x.1 /\ cl_sku line = ci_sku x.1 /\
               cl_karat line = ci_karat x.1 /\ cl_quantity line = ci_quantity x.1 /\
               cl_price line = ci_price x.1)
            (zip (item :: rest) ps) ls).
  { apply Hl; [|done]. intros [it p] w0 y w0'. unfold throw, ret.
    destruct (list_find _ _); [|done]. by intros [= <- <-]. }
  rewrite <- (fst_zip (item :: rest) ps) at 1 by lia.
  by apply Forall2_fmap_l.
Qed.

Lemma buildOrderItem_copy line w oi w' :
  buildOrderItem line w = (Ok oi, w') ->
  oi_product oi = cl_productId line /\ oi_sku oi = cl_sku line /\
  oi_karat oi = cl_karat line /\ oi_quantity oi = cl_quantity line /\
  oi_priceAtPurchase oi = cl_price line /\
  oi_itemTotal oi = cl_price line * cl_quantity line.
Proof.
  unfold buildOrderItem. rewrite bind_run.
  destruct (getProductById _ w) as [[p|e] w1]; [|done].
  destruct (list_find _ _) as [[i v]|]; [|done].
  by intros [= <- <-].
Qed.

Lemma copyOf_itemTotals items ois :
  Forall2 copyOf items ois -> itemTotals ois = lineSum items.
Proof.
  induction 1 as [|item oi items ois Hc _ IH]; simpl; [done|].
  destruct Hc as (_ & _ & _ & _ & _ & ->). by rewrite IH.
Qed.

(** A loop whose body checks and never writes has checked every element. *)
Lemma forEach_checks {A} (f : A -> M unit) (P : A -> Prop) xs w :
  (forall x, (f x w).2 = w /\ (isOk (f x w).1 = true -> P x)) ->
  (forEach f xs w).2 = w /\
  (isOk (forEach f xs w).1 = true -> Forall P xs).
Proof.
  intros Hf. induction xs as [|x xs [IHw IHok]]; simpl; [by split|].
  rewrite bind_run. destruct (Hf x) as [Hw Hok].
  destruct (f x w) as [[[]|e] w1]; simpl in *; subst; [|by split].
  split; [done|]. intros H. constructor; auto.
Qed.

(** What the stock validation of the checkout has checked when it returns;
    it never writes. *)
Lemma validateStockAvailability_inv lines w :
  (validateStockAvailability lines w).2 = w /\
  (isOk (validateStockAvailability lines w).1 = true ->
   Forall (fun line => inStock w (cl_productId line) (cl_karat line)
                         (cl_sku line) (cl_quantity line) = true) lines).
Proof.
  unfold validateStockAvailability. apply forEach_checks. intros line.
  unfold getProductById, inStock. munfold.
  destruct (decide (cl_productId line = "")) as [Hid|Hid]; [by split|].
  simpl. destruct (products w !! cl_productId line) as [p|] eqn:Hp; [|by split].
  simpl. destruct (list_find _ (p_variants p)) as [[i v]|] eqn:Hf; [|by split].
  destruct (v_isAvailable v) eqn:Hav; simpl; [|by split].
  destruct (decide (v_stock v < cl_quantity line)) as [Hlt|Hge]; [by split|].
  split; [done|]. intros _.
  rewrite bool_decide_eq_true_2 by done. simpl.
  apply bool_decide_eq_true_2. lia.
Qed.

Lemma getCartWithDetails_reads userId w cart :
  carts w !! userId = Some cart -> (getCartWithDetails userId w).2 = w.
Proof.
  intros Hcart. unfold getCartWithDetails, getCart. rewrite bind_run, Hcart.
  revert w Hcart.
  match goal with
  | |- forall w, _ -> (?k w).2 = w =>
      intros w _; revert w; change (Preserves (fun w => w) k)
  end.
  preserves.
Qed.

Lemma clearCartItems_lookup userId w cart :
  carts w !! userId = Some cart ->
  carts (clearCartItems userId w).2 !! userId = Some (emptied cart).
Proof.
  intros Hcart. unfold clearCartItems, getCart, cartRepo_clearCartItems, updateCart.
  rewrite bind_run, Hcart. unfold emptied.
  destruct (c_items cart) as [|item rest] eqn:Hitems; simpl.
  - rewrite Hcart. destruct cart; simpl in *. by subst.
  - rewrite Hcart. simpl. by rewrite lookup_insert_eq.
Qed.

(** X6.  A checkout of a user without items throws BadRequestError "Cart is
    empty"; the only thing it may have written is the empty cart that the
    first access of a user creates. *)
Theorem createOrder_empty_cart (newId userId : string) (w : World) :
  (forall cart, carts w !! userId = Some cart -> c_items cart = []) ->
  createOrder newId userId w
  = (Throw (BadRequestError "Cart is empty"),
     match carts w !! userId with
     | Some _ => w
     | None => setCarts (<[userId := emptyCart]> (carts w)) w
     end).
Proof.
  intros Hempty. unfold createOrder, getCartWithDetails, getCart. munfold.
  destruct (carts w !! userId) as [cart|] eqn:Hcart; simpl; [|done].
  by rewrite (Hempty cart eq_refl).
Qed.

Lemma createOrder_empty_cart_example :
  createOrder "o3" "u9" shop
  = (Throw (BadRequestError "Cart is empty"),
     setCarts (<["u9" := emptyCart]> (carts shop)) shop).
Proof.
  rewrite (createOrder_empty_cart "o3" "u9" shop).
  - reflexivity.
  - intros cart H. vm_compute in H. discriminate.
Defined.

(** X7.  A checkout whose cart holds a line that cannot be served, the
    product or the variant missing, the variant unavailable or its stock
    short of the quantity, throws and writes nothing: no discount is
    consumed, no order stored, no stock taken. *)
Theorem createOrder_unavailable_line
    (newId userId : string) (cart : Cart) (w : World) :
  carts w !! userId = Some cart ->
  Exists (fun item => itemInStock w item = false) (c_items cart) ->
  exists e, createOrder newId userId w = (Throw e, w).
Proof.
  intros Hcart Hex. unfold createOrder. rewrite bind_run.
  pose proof (getCartWithDetails_reads userId w cart Hcart) as Hw.
  destruct (getCartWithDetails userId w) as [[cd|e] w1] eqn:Hcd;
    simpl in Hw; subst w1; [|eauto].
  pose proof (getCartWithDetails_lines _ _ _ _ Hcd) as Hlines.
  destruct (cd_items cd) as [|l ls] eqn:Hitems.
  { exfalso. apply Forall2_nil_inv_r in Hlines.
    assert (Hcart' : cd_cart cd = cart).
    { revert Hcd. unfold getCartWithDetails, getCart. rewrite bind_run, Hcart.
      destruct (c_items cart); [by intros [= <-]|].
      rewrite bind_run. destruct (mapM _ _ w) as [[ps|?] w2]; [|done].
      rewrite bind_run. destruct (mapM _ _ w2) as [[ls|?] w3]; [|done].
      by intros [= <-]. }
    rewrite Hcart' in Hlines. rewrite Hlines in Hex. by inversion Hex. }
  destruct (getCartWithDetails_inv _ _ _ _ Hcd) as (Hc & _ & _ & _);
    [by rewrite Hitems|].
  rewrite Hcart in Hc. injection Hc as Hc. rewrite <- Hc in Hlines.
  rewrite bind_run.
  destruct (validateStockAvailability_inv (l :: ls) w) as [Hvw Hvok].
  destruct (validateStockAvailability (l :: ls) w) as [[[]|e] w2];
    simpl in Hvw; subst w2; [|eauto].
  exfalso. specialize (Hvok eq_refl).
  apply Exists_exists in Hex as (item & Hin & Hno).
  apply list_elem_of_lookup in Hin as [k Hk].
  destruct (Forall2_lookup_l _ _ _ _ _ Hlines Hk) as (line & Hline & H1 & H2 & H3 & H4 & _).
  rewrite Forall_lookup in Hvok. specialize (Hvok _ _ Hline). simpl in Hvok.
  unfold itemInStock in Hno. rewrite H1, H2, H3, H4 in Hvok. congruence.
Qed.

Lemma createOrder_unavailable_line_example :
  exists e,
    createOrder "o3" "u2"
      (setProducts {[ "p1" := mkProduct "P-1" "Ring" true
                                [mkVariant 14 "gemstone" "A" 100 0 3 true] ]} shop)
    = (Throw e,
       setProducts {[ "p1" := mkProduct "P-1" "Ring" true
                                [mkVariant 14 "gemstone" "A" 100 0 3 true] ]} shop).
Proof.
  apply createOrder_unavailable_line with plainCart.
  - vm_compute. reflexivity.
  - apply Exists_cons_hd. vm_compute. reflexivity.
Defined.

Lemma clearCartItems_ok userId w :
  isOk (clearCartItems userId w).1 = true.
Proof.
  unfold clearCartItems, getCart, cartRepo_clearCartItems, updateCart.
  rewrite bind_run.
  destruct (carts w !! userId) as [cart|] eqn:Hcart; simpl.
  - destruct (c_items cart); simpl; [done|]. by rewrite Hcart.
  - done.
Qed.

Lemma reserveStock_throws lines w e w' :
  reserveStock lines w = (Throw e, w') ->
  exists msg, e = BadRequestError ("Failed to reserve stock: " ++ msg).
Proof.
  unfold reserveStock, tryCatch.
  destruct (reduceStockForOrder _ w) as [[[]|e0] w1]; [done|].
  intros [= <- <-]. eauto.
Qed.

(** X8.  What a checkout that returns has done: the order stored under the
    new id is pending, belongs to the user and holds one item per cart item,
    in order, with the cart's product, SKU, karat, quantity and price and
    price times quantity as item total; its subtotal is the sum of the item
    totals; every cart item could be served from the stock the checkout
    found; and the cart is left without items, its discount slots kept. *)
Theorem createOrder_stores
    (newId userId : string) (cart : Cart) (w w' : World) (summary : OrderSummary) :
  carts w !! userId = Some cart ->
  createOrder newId userId w = (Ok summary, w') ->
  exists order,
    orders w' !! newId = Some order /\
    o_status order = PENDING /\
    o_user order = userId /\
    Forall2 copyOf (c_items cart) (o_items order) /\
    o_subtotal order = itemTotals (o_items order) /\
    Forall (fun item => itemInStock w item = true) (c_items cart) /\
    carts w' !! userId = Some (emptied cart) /\
    summary = mkOrderSummary newId (o_orderNumber order) (o_total order)
                (length (c_items cart)) PENDING.
Proof.
  intros Hcart0. unfold createOrder. rewrite bind_run.
  destruct (getCartWithDetails userId w) as [[cd|e] w1] eqn:Hcd; [|done].
  pose proof (getCartWithDetails_lines _ _ _ _ Hcd) as Hlines.
  destruct (cd_items cd) as [|l ls] eqn:Hitems; [done|].
  destruct (getCartWithDetails_inv _ _ _ _ Hcd) as (Hcart & Htot & Hne & ->);
    [by rewrite Hitems|].
  rewrite Hcart0 in Hcart. injection Hcart as Hcart. rewrite <- Hcart in *.
  rewrite bind_run.
  destruct (validateStockAvailability_inv (l :: ls) w) as [Hvw Hvok].
  destruct (validateStockAvailability (l :: ls) w) as [[[]|e] w2];
    simpl in Hvw; subst w2; [|done].
  specialize (Hvok eq_refl).
  unfold generateOrderNumber. rewrite !bind_run. unfold gets at 1. cbv beta iota.
  rewrite bind_run. unfold gets at 1. cbv beta iota.
  unfold mret, M_ret, ret at 1. cbv beta iota.
  rewrite bind_run.
  pose proof (preserves_mapM (fun w => w) buildOrderItem (l :: ls)
                (fun x => buildOrderItem_preserves (fun w => w) x) w) as Hb.
  destruct (mapM buildOrderItem (l :: ls) w) as [[ois|e] w3] eqn:Hois;
    simpl in Hb; subst w3; [|done].
  apply (mapM_Forall2 (fun line oi =>
           oi_product oi = cl_productId line /\ oi_sku oi = cl_sku line /\
           oi_karat oi = cl_karat line /\ oi_quantity oi = cl_quantity line /\
           oi_priceAtPurchase oi = cl_price line /\
           oi_itemTotal oi = cl_price line * cl_quantity line)) in Hois;
    [|intros; by eapply buildOrderItem_copy].
  rewrite bind_run.
  pose proof (markAppliedDiscounts_preserves carts cart userId
                ltac:(done) ltac:(done) w) as Hmc.
  destruct (markAppliedDiscounts cart userId w) as [[[]|e] w4]; [|done].
  simpl in Hmc. rewrite bind_run.
  destruct (orderRepo_createOrder _ _ w4) as [[order|e] w5] eqn:Hc; [|done].
  match type of Hc with
  | orderRepo_createOrder _ ?params _ = _ =>
      pose proof (orderRepo_createOrder_preserves carts newId params
                    ltac:(done) w4) as Hoc
  end.
  rewrite Hc in Hoc. simpl in Hoc.
  apply orderRepo_createOrder_inv in Hc as [-> Ho].
  rewrite bind_run.
  pose proof (reserveStock_preserves orders (l :: ls) ltac:(done) w5) as Hr.
  pose proof (reserveStock_preserves carts (l :: ls) ltac:(done) w5) as Hrc.
  destruct (reserveStock _ w5) as [[[]|e] w6]; [|done].
  simpl in Hr, Hrc. rewrite bind_run.
  pose proof (clearCartItems_preserves orders userId ltac:(done) w6) as Hcl.
  pose proof (clearCartItems_lookup userId w6 cart) as Hcc.
  destruct (clearCartItems _ w6) as [[c|e] w7]; [|done].
  simpl in Hcl, Hcc. intros [= <- <-].
  assert (Hcopy : Forall2 copyOf (c_items cart) ois).
  { eapply Forall2_trans; [|exact Hlines|exact Hois].
    intros item line oi (-> & -> & -> & -> & ->) (? & ? & ? & ? & ? & ?).
    by repeat split. }
  eexists. split; [by rewrite Hcl, Hr|]. simpl.
  split; [done|]. split; [done|]. split; [done|].
  split.
  { rewrite (copyOf_itemTotals _ _ Hcopy), Htot,
      (calculateCartTotal_fields cart Hne). done. }
  split.
  { eapply Forall2_Forall_l; [exact Hlines|].
    eapply Forall_impl; [exact Hvok|].
    intros line Hl item (H1 & H2 & H3 & H4 & _). unfold itemInStock.
    by rewrite <- H1, <- H2, <- H3, <- H4. }
  split.
  { apply Hcc. by rewrite Hrc, Hoc, Hmc. }
  f_equal. by apply Forall2_length in Hcopy.
Qed.

Lemma createOrder_stores_example :
  exists order,
    orders afterCheckout !! "o2" = Some order /\
    o_status order = PENDING /\
    o_user order = "u1" /\
    Forall2 copyOf (c_items fullCart) (o_items order) /\
    o_subtotal order = itemTotals (o_items order) /\
    Forall (fun item => itemInStock shop item = true) (c_items fullCart) /\
    carts afterCheckout !! "u1" = Some (emptied fullCart) /\
    mkOrderSummary "o2" "ORD500007" 230 2 PENDING
    = mkOrderSummary "o2" (o_orderNumber order) (o_total order)
        (length (c_items fullCart)) PENDING.
Proof.
  apply (createOrder_stores "o2" "u1" fullCart shop afterCheckout
           (mkOrderSummary "o2" "ORD500007" 230 2 PENDING)).
  - vm_compute. reflexivity.
  - vm_compute. reflexivity.
Defined.


(** X9.  A checkout has no way back.  When it throws, either it failed
    before the order was stored, and then orders, products and carts are as
    they were, or the stock reservation failed after the order was stored:
    then the order stays in the store as pending, the cart keeps its items
    and the error is BadRequestError "Failed to reserve stock: ...". *)
Theorem createOrder_throws
    (newId userId : string) (cart : Cart) (w w' : World) (e : Exception) :
  carts w !! userId = Some cart ->
  createOrder newId userId w = (Throw e, w') ->
  (orders w' = orders w /\ products w' = products w /\ carts w' = carts w) \/
  (exists order msg,
     orders w' = <[newId := order]> (orders w) /\
     o_status order = PENDING /\
     e = BadRequestError ("Failed to reserve stock: " ++ msg) /\
     carts w' = carts w).
Proof.
  intros Hcart0. unfold createOrder. rewrite bind_run.
  pose proof (getCartWithDetails_reads userId w cart Hcart0) as Hw.
  destruct (getCartWithDetails userId w) as [[cd|e0] w1] eqn:Hcd;
    simpl in Hw; subst w1; [|by intros [= <- <-]; left].
  destruct (cd_items cd) as [|l ls] eqn:Hitems; [by intros [= <- <-]; left|].
  rewrite bind_run.
  destruct (validateStockAvailability_inv (l :: ls) w) as [Hvw _].
  destruct (validateStockAvailability (l :: ls) w) as [[[]|e0] w2];
    simpl in Hvw; subst w2; [|by intros [= <- <-]; left].
  unfold generateOrderNumber. rewrite !bind_run. unfold gets at 1. cbv beta iota.
  rewrite bind_run. unfold gets at 1. cbv beta iota.
  unfold mret, M_ret, ret at 1. cbv beta iota.
  rewrite bind_run.
  pose proof (preserves_mapM (fun w => w) buildOrderItem (l :: ls)
                (fun x => buildOrderItem_preserves (fun w => w) x) w) as Hb.
  destruct (mapM buildOrderItem (l :: ls) w) as [[ois|e0] w3];
    simpl in Hb; subst w3; [|by intros [= <- <-]; left].
  rewrite bind_run.
  pose proof (markAppliedDiscounts_preserves carts (cd_cart cd) userId
                ltac:(done) ltac:(done) w) as Hmc.
  pose proof (markAppliedDiscounts_preserves orders (cd_cart cd) userId
                ltac:(done) ltac:(done) w) as Hmo.
  pose proof (markAppliedDiscounts_preserves products (cd_cart cd) userId
                ltac:(done) ltac:(done) w) as Hmp.
  destruct (markAppliedDiscounts (cd_cart cd) userId w) as [[[]|e0] w4];
    simpl in Hmc, Hmo, Hmp; [|by intros [= <- <-]; left].
  rewrite bind_run. unfold orderRepo_createOrder at 1.
  case_bool_decide; [by intros [= <- <-]; left|].
  cbv beta iota. rewrite bind_run.
  match goal with
  | |- context [reserveStock ?ls ?w5] =>
      pose proof (reserveStock_preserves orders ls ltac:(done) w5) as Hr;
      pose proof (reserveStock_preserves carts ls ltac:(done) w5) as Hrc;
      pose proof (reserveStock_throws ls w5) as Hre;
      destruct (reserveStock ls w5) as [[[]|e0] w6]
  end.
  - rewrite bind_run.
    pose proof (clearCartItems_ok userId w6) as Hok.
    destruct (clearCartItems userId w6) as [[c|e0] w7]; [done|].
    simpl in Hok. discriminate.
  - intros [= <- <-]. right. destruct (Hre _ _ eq_refl) as [msg ->].
    simpl in Hr, Hrc. eexists _, msg.
    split; [by rewrite Hr, Hmo|]. split; [done|]. split; [done|].
    by rewrite Hrc.
Qed.

Lemma createOrder_throws_example :
  let w' := (createOrder "o3" "u3" doubleLineShop).2 in
  let e := BadRequestError
             ("Failed to reserve stock: Stock reduction failed: "
              ++ "Insufficient stock for SKU: A. Available: 2, Required: 3") in
  (orders w' = orders doubleLineShop /\ products w' = products doubleLineShop /\
   carts w' = carts doubleLineShop) \/
  (exists order msg,
     orders w' = <["o3" := order]> (orders doubleLineShop) /\
     o_status order = PENDING /\
     e = BadRequestError ("Failed to reserve stock: " ++ msg) /\
     carts w' = carts doubleLineShop).
Proof.
  apply (createOrder_throws "o3" "u3" doubleLineCart doubleLineShop).
  - vm_compute. reflexivity.
  - vm_compute. reflexivity.
Defined.

(** ** Stock *)


(** What a signed adjustment that returns has found and written. *)
Lemma updateProductStockByVariant_inv productId sku q w r w' :
  updateProductStockByVariant productId sku q w = (Ok r, w') ->
  productId <> "" /\
  exists p i v,
    products w !! productId = Some p /\
    list_find (fun v => v_sku v = sku) (p_variants p) = Some (i, v) /\
    0 <= v_stock v + q.
Proof.
  unfold updateProductStockByVariant, getProductById. munfold.
  destruct (decide (productId = "")); simpl; [done|].
  destruct (products w !! productId) as [p|] eqn:Hp; simpl; [|done].
  destruct (list_find _ (p_variants p)) as [[i v]|] eqn:Hfind; simpl; [|done].
  destruct (decide (v_stock v + q < 0)); simpl; [done|].
  intros _. split; [done|]. exists p, i, v. repeat split; [done|lia].
Qed.


(** [getVariantStock] reads the stock of the first variant with the SKU. *)
Lemma getVariantStock_stockOf productId sku w n :
  productId <> "" -> stockOf w productId sku = Some n ->
  getVariantStock productId sku w = (Ok n, w).
Proof.
  intros Hid. unfold stockOf, getVariantStock, getProductById. munfold.
  destruct (decide (productId = "")); [done|]. simpl.
  destruct (products w !! productId) as [p|]; simpl; [|done].
  destruct (list_find _ (p_variants p)) as [[i v]|]; simpl; [|done].
  by intros [= <-].
Qed.



(** X11.  Read after write: when a signed adjustment of a variant returns,
    [getVariantStock] read the stock n of that variant before it, reads
    n + quantity after it, and n + quantity is not negative. *)
Theorem getVariantStock_after_update
    (productId sku : string) (q : Z) (w w' : World) (r : Product) :
  updateProductStockByVariant productId sku q w = (Ok r, w') ->
  exists n,
    getVariantStock productId sku w = (Ok n, w) /\
    getVariantStock productId sku w' = (Ok (n + q), w') /\
    0 <= n + q.
Proof.
  intros Hrun.
  destruct (updateProductStockByVariant_inv _ _ _ _ _ _ Hrun)
    as (Hid & p & i & v & Hp & Hfind & Hq).
  destruct (updateProductStockByVariant_adds productId sku q w p i v)
    as [_ Hst]; [done..|].
  rewrite Hrun in Hst. simpl in Hst.
  exists (v_stock v). split; [|split; [|done]].
  - apply getVariantStock_stockOf; [done|]. unfold stockOf. rewrite Hp. simpl.
    by rewrite Hfind.
  - by apply getVariantStock_stockOf.
Qed.

Lemma getVariantStock_after_update_example :
  exists n,
    getVariantStock "p1" "A" shop = (Ok n, shop) /\
    getVariantStock "p1" "A" (updateProductStockByVariant "p1" "A" (-3) shop).2
    = (Ok (n + -3), (updateProductStockByVariant "p1" "A" (-3) shop).2) /\
    0 <= n + -3.
Proof.
  eapply getVariantStock_after_update. vm_compute. reflexivity.
Defined.

Lemma updateVariantStock_ok productId sku n w :
  exists r, (updateVariantStock productId sku n w).1 = Ok r.
Proof.
  unfold updateVariantStock.
  destruct (products w !! productId) as [p|]; [|by eexists].
  destruct (list_find _ _) as [[i v]|]; by eexists.
Qed.

Lemma updateVariantStock_miss productId sku n w :
  stockOf w productId sku = None -> (updateVariantStock productId sku n w).2 = w.
Proof.
  unfold stockOf, updateVariantStock.
  destruct (products w !! productId) as [p|]; simpl; [|done].
  by destruct (list_find _ _) as [[i v]|].
Qed.

Lemma updateVariantStock_stockOf productId sku n w m :
  stockOf w productId sku = Some m ->
  stockOf (updateVariantStock productId sku n w).2 productId sku = Some n.
Proof.
  unfold stockOf, updateVariantStock.
  destruct (products w !! productId) as [p|] eqn:Hp; simpl; [|done].
  destruct (list_find _ (p_variants p)) as [[i v]|] eqn:Hfind; simpl; [|done].
  intros _. rewrite lookup_insert_eq. simpl.
  apply list_find_Some in Hfind as (Hi & Hsku & Hbefore).
  assert (Hfind' : list_find (fun v0 => v_sku v0 = sku)
                     (<[i := withStock v n]> (p_variants p))
                   = Some (i, withStock v n)).
  { apply list_find_Some. split; [|split; [done|]].
    - apply list_lookup_insert_eq. by eapply lookup_lt_Some.
    - intros j y Hj Hlt. rewrite list_lookup_insert_ne in Hj by lia.
      by eapply Hbefore. }
  by rewrite Hfind'.
Qed.

Lemma accepted_cons cast u us :
  accepted cast (u :: us)
  = match cast (su_productId u) with
    | None => u :: accepted cast us
    | Some _ => accepted cast us
    end.
Proof.
  unfold accepted. rewrite filter_cons.
  destruct (cast (su_productId u)); by case_decide.
Qed.

Lemma refused_cons cast u us :
  refused cast (u :: us)
  = match cast (su_productId u) with
    | None => refused cast us
    | Some error => (su_sku u, message error) :: refused cast us
    end.
Proof. unfold refused. simpl. by destruct (cast (su_productId u)). Qed.

Lemma bulkUpdateLoop_run cast updates results w :
  (bulkUpdateLoop cast updates results w).1
  = Ok (mkBulkReport (br_success results ++ (su_sku <$> accepted cast updates))
                     (br_failed results ++ refused cast updates)) /\
  (Forall (fun u => stockOf w (su_productId u) (su_sku u) = None)
          (accepted cast updates) ->
   (bulkUpdateLoop cast updates results w).2 = w).
Proof.
  revert results w. induction updates as [|u us IH]; intros results w.
  - simpl. by rewrite !app_nil_r; destruct results.
  - cbn [bulkUpdateLoop]. rewrite accepted_cons, refused_cons.
    rewrite bind_run. unfold tryCatch, updateVariantStockOf.
    destruct (cast (su_productId u)) as [error|] eqn:Hcast.
    + rewrite bind_run. unfold throw at 1. cbv beta iota.
      unfold mret, M_ret, ret at 1. cbv beta iota.
      destruct (IH (mkBulkReport (br_success results)
                      (br_failed results ++ [(su_sku u, message error)])) w)
        as [IH1 IH2].
      split.
      * rewrite IH1. simpl. by rewrite <- app_assoc.
      * exact IH2.
    + rewrite bind_run.
      destruct (updateVariantStock_ok (su_productId u) (su_sku u) (su_stock u) w)
        as [r Hr].
      pose proof (updateVariantStock_miss (su_productId u) (su_sku u)
                    (su_stock u) w) as Hmiss.
      destruct (updateVariantStock _ _ _ w) as [[r'|e] w1]; simpl in Hr; [|done].
      simpl in Hmiss. unfold mret, M_ret, ret at 1. cbv beta iota.
      destruct (IH (mkBulkReport (br_success results ++ [su_sku u])
                                 (br_failed results)) w1) as [IH1 IH2].
      split.
      * rewrite IH1. simpl. by rewrite <- app_assoc.
      * intros Hall. inversion Hall as [|? ? Hu Hus]; subst.
        rewrite Hmiss in * by done. by apply IH2.
Qed.

(** X12.  The bulk stock update returns a report whatever the entries are.
    An entry whose product id the cast refuses goes under [failed], with the
    message of the cast's error, and writes nothing.  Every other entry goes
    under [success], also one that names no product or no variant and has
    written nothing; where such an entry names a variant, the stock is set to
    the value given, whatever its sign. *)
Theorem bulkUpdateVariantStock_reports
    (cast : Cast) (updates : list StockUpdate) (w : World) :
  (bulkUpdateVariantStock cast updates w).1
  = Ok (mkBulkReport (su_sku <$> accepted cast updates) (refused cast updates)) /\
  (Forall (fun u => stockOf w (su_productId u) (su_sku u) = None)
          (accepted cast updates) ->
   (bulkUpdateVariantStock cast updates w).2 = w) /\
  (forall u error, cast (su_productId u) = Some error ->
     bulkUpdateVariantStock cast [u] w
     = (Ok (mkBulkReport [] [(su_sku u, message error)]), w)) /\
  (forall u, cast (su_productId u) = None ->
     (bulkUpdateVariantStock cast [u] w).1 = Ok (mkBulkReport [su_sku u] []) /\
     (is_Some (stockOf w (su_productId u) (su_sku u)) ->
      stockOf (bulkUpdateVariantStock cast [u] w).2 (su_productId u) (su_sku u)
      = Some (su_stock u))).
Proof.
  unfold bulkUpdateVariantStock.
  destruct (bulkUpdateLoop_run cast updates (mkBulkReport [] []) w) as [H1 H2].
  split; [done|]. split; [done|]. split.
  - intros u error Hcast.
    destruct (bulkUpdateLoop_run cast [u] (mkBulkReport [] []) w) as [Hr Hw].
    rewrite accepted_cons, refused_cons, Hcast in *.
    rewrite (surjective_pairing (bulkUpdateLoop cast [u] _ w)), Hr, Hw;
      [done|constructor].
  - intros u Hcast. split.
    { destruct (bulkUpdateLoop_run cast [u] (mkBulkReport [] []) w) as [Hr _].
      by rewrite Hr, accepted_cons, refused_cons, Hcast. }
    intros [m Hm]. simpl. rewrite bind_run.
    unfold tryCatch, updateVariantStockOf. rewrite Hcast, bind_run.
    pose proof (updateVariantStock_stockOf _ _ (su_stock u) _ _ Hm) as Hst.
    destruct (updateVariantStock_ok (su_productId u) (su_sku u) (su_stock u) w)
      as [r Hr].
    destruct (updateVariantStock _ _ _ w) as [[r'|e] w1]; simpl in Hr; [|done].
    done.
Qed.

(** A cast that takes p1 for an ObjectId and no other string: the entry for
    the variant B of p1 sets its stock, the entry for a SKU that p1 does not
    have counts as a success all the same, and the entry whose id is refused
    is reported as failed. *)
Lemma bulkUpdateVariantStock_reports_example :
  let cast : Cast := fun id =>
    if decide (id = "p1") then None else Some (Error ("Cast to ObjectId failed: " ++ id)) in
  let updates := [mkStockUpdate "p1" "B" 9; mkStockUpdate "p1" "Z" 4;
                  mkStockUpdate "none" "A" 1] in
  (bulkUpdateVariantStock cast updates shop).1
  = Ok (mkBulkReport ["B"; "Z"] [("A", "Cast to ObjectId failed: none")]) /\
  stockOf (bulkUpdateVariantStock cast updates shop).2 "p1" "B" = Some 9 /\
  stockOf (bulkUpdateVariantStock cast updates shop).2 "p1" "A" = Some 5.
Proof.
  intros cast updates.
  split; [apply (bulkUpdateVariantStock_reports cast updates shop)|].
  split; vm_compute; reflexivity.
Defined.

(** ** Vouchers *)

(** What [applyVoucher] has written when it returns: the voucher slot of the
    cart and nothing else. *)
Lemma applyVoucher_applies_inv userId code w w' r :
  applyVoucher userId code w = (Ok r, w') ->
  exists cart v,
    carts w !! userId = Some cart /\ c_items cart <> [] /\
    vouchers w !! code = Some v /\
    r = Some (withVoucher cart
                (Some (mkAppliedVoucher code (vo_id v) (vo_name v) (vo_amount v)
                                        (roundToHundredths (vo_amount v))))) /\
    w' = setCarts (<[userId :=
                      withVoucher cart
                        (Some (mkAppliedVoucher code (vo_id v) (vo_name v)
                                 (vo_amount v)
                                 (roundToHundredths (vo_amount v))))]> (carts w)) w.
Proof.
  unfold applyVoucher, getCart, voucherService_applyVoucher, getVoucherByCode,
    validateVoucher, cartRepo_applyVoucher, updateCart.
  rewrite bind_run.
  destruct (carts w !! userId) as [cart|] eqn:Hcart; [|done].
  destruct (c_items cart) as [|item rest] eqn:Hitems; [done|].
  munfold. simpl.
  destruct (vouchers w !! code) as [v|] eqn:Hv; simpl; [|done].
  destruct (vo_used v) eqn:Hused; simpl; [done|].
  destruct (decide (now w < vo_startFrom v)); simpl; [done|].
  destruct (decide (now w > vo_validUpto v)); simpl; [done|].
  destruct (decide (_ < vo_minimumValue v)); simpl; [done|].
  destruct (decide (vo_amount v > _)); simpl; [done|].
  rewrite Hcart. intros [= <- <-].
  exists cart, v. unfold withVoucher. rewrite Hitems. by repeat split.
Qed.



(** X14.  A voucher is used once.  When [markVoucherAsUsed] returns, the
    voucher is stored as used by that user; from then on marking it again
    throws for every user, and so does applying it to a cart of any
    subtotal, both without a write. *)
Theorem markVoucherAsUsed_single_use
    (code userId : string) (w w' : World) (v : Voucher) :
  markVoucherAsUsed code userId w = (Ok v, w') ->
  vouchers w' !! code = Some v /\
  vo_used v = true /\
  vo_usedBy v = Some userId /\
  (forall u, exists e, markVoucherAsUsed code u w' = (Throw e, w')) /\
  (forall subtotal,
     exists e, voucherService_applyVoucher code subtotal w' = (Throw e, w')).
Proof.
  unfold markVoucherAsUsed, hasUserUsedVoucher, getVoucherByCode, markAsUsed.
  munfold.
  destruct (vouchers w !! code) as [v0|] eqn:Hv; simpl; rewrite ?Hv; simpl;
    [|done].
  case_bool_decide; simpl; [done|]. rewrite ?Hv. simpl.
  destruct (vo_used v0) eqn:Hused; simpl; [done|].
  destruct (decide (now w < vo_startFrom v0)); simpl; [done|].
  destruct (decide (now w > vo_validUpto v0)); simpl; [done|].
  rewrite Hv, Hused. simpl. intros [= <- <-]. simpl.
  rewrite lookup_insert_eq. repeat split; try done.
  - intros u. case_bool_decide; [eauto|]. simpl. rewrite lookup_insert_eq.
    simpl. eauto.
  - intros subtotal. unfold voucherService_applyVoucher, getVoucherByCode,
      validateVoucher. munfold. simpl. rewrite lookup_insert_eq. simpl. eauto.
Qed.

Lemma markVoucherAsUsed_single_use_example :
  let w' := (markVoucherAsUsed "V10" "u1" shop).2 in
  let v := mkVoucher "v1" "ten" 10 0 true 0 1000 (Some "u1") in
  vouchers w' !! "V10" = Some v /\
  vo_used v = true /\
  vo_usedBy v = Some "u1" /\
  (forall u, exists e, markVoucherAsUsed "V10" u w' = (Throw e, w')) /\
  (forall subtotal,
     exists e, voucherService_applyVoucher "V10" subtotal w' = (Throw e, w')).
Proof.
  apply (markVoucherAsUsed_single_use "V10" "u1" shop). vm_compute. reflexivity.
Defined.

(** ** Gift cards *)

(** What the validation of a redemption has found when it returns; it has
    written nothing. *)
Lemma validateGiftCardForRedemption_inv code amount w g w' :
  validateGiftCardForRedemption code amount w = (Ok g, w') ->
  w' = w /\ giftCards w !! code = Some g /\
  gc_isActive g = true /\
  (gc_status g = GC_ACTIVE \/ gc_status g = GC_REDEEMED) /\
  now w <= gc_validUpto g /\
  amount <= gc_remainingAmount g.
Proof.
  unfold validateGiftCardForRedemption, updateGiftCardStatus. munfold.
  destruct (giftCards w !! code) as [g0|] eqn:Hg; simpl; [|done].
  destruct (gc_isActive g0) eqn:Hact; simpl; [|done].
  destruct (decide (gc_status g0 = GC_PENDING)); simpl; [done|].
  destruct (decide (gc_status g0 = GC_EXPIRED)); simpl; [done|].
  destruct (decide (gc_status g0 = GC_CANCELLED)); simpl; [done|].
  destruct (decide (gc_status g0 = GC_REDEEMED /\ gc_remainingAmount g0 = 0));
    simpl; [done|].
  destruct (decide (now w > gc_validUpto g0)); simpl; [done|].
  destruct (decide (amount > gc_remainingAmount g0)); simpl; [done|].
  intros [= <- <-]. repeat split; try done; try lia.
  destruct (gc_status g0); auto; done.
Qed.

(** X15.  What a redemption that returns has done: the amount was at most
    the remaining amount, the card was active and inside its validity; the
    remaining amount has gone down by the amount, to the value returned,
    which is not negative; the use is appended to the card's history; and
    the status is redeemed exactly when nothing remains. *)
Theorem redeemGiftCard_deducts
    (code userId orderId : string) (amount remaining : Z) (w w' : World) :
  redeemGiftCard code userId amount orderId w = (Ok remaining, w') ->
  exists g,
    giftCards w !! code = Some g /\
    gc_isActive g = true /\
    now w <= gc_validUpto g /\
    amount <= gc_remainingAmount g /\
    remaining = gc_remainingAmount g - amount /\
    0 <= remaining /\
    giftCards w'
    = <[code := mkGiftCard (gc_id g) remaining
                  (if decide (remaining = 0) then GC_REDEEMED else gc_status g)
                  (gc_isActive g) (gc_validUpto g)
                  (gc_usedBy g ++ [mkGiftCardUsage userId amount orderId])]>
        (giftCards w).
Proof.
  unfold redeemGiftCard. rewrite bind_run.
  destruct (validateGiftCardForRedemption code amount w) as [[g|e] w1] eqn:Hval;
    [|done].
  apply validateGiftCardForRedemption_inv in Hval
    as (-> & Hg & Hact & Hst & Hnow & Hle).
  unfold repo_redeemGiftCard, updateGiftCardStatus. munfold. rewrite Hg. simpl.
  destruct (decide (gc_remainingAmount g - amount = 0)) as [Hz|Hz]; simpl.
  - rewrite lookup_insert_eq. intros [= <- <-]. exists g. simpl.
    repeat split; try done; try lia.
    rewrite insert_insert_eq. unfold withGiftStatus. simpl.
    by destruct (decide (gc_remainingAmount g - amount = 0)).
  - intros [= <- <-]. exists g. simpl. repeat split; try done; try lia.
    by destruct (decide (gc_remainingAmount g - amount = 0)).
Qed.

Lemma redeemGiftCard_deducts_example :
  exists g,
    giftCards shop !! "GC1" = Some g /\
    gc_isActive g = true /\
    now shop <= gc_validUpto g /\
    100 <= gc_remainingAmount g /\
    0 = gc_remainingAmount g - 100 /\
    0 <= 0 /\
    giftCards (redeemGiftCard "GC1" "u1" 100 "o1" shop).2
    = <["GC1" := mkGiftCard (gc_id g) 0
                   (if decide (0 = 0) then GC_REDEEMED else gc_status g)
                   (gc_isActive g) (gc_validUpto g)
                   (gc_usedBy g ++ [mkGiftCardUsage "u1" 100 "o1"])]>
        (giftCards shop).
Proof.
  apply (redeemGiftCard_deducts "GC1" "u1" "o1" 100 0 shop). vm_compute.
  reflexivity.
Defined.

Lemma updateGiftCardStatus_balances code s :
  Preserves balances (updateGiftCardStatus code s).
Proof.
  intros w. unfold updateGiftCardStatus, modify, balances. simpl.
  destruct (giftCards w !! code) as [g|] eqn:Hg; simpl; [|done].
  rewrite fmap_insert. apply insert_id. by rewrite lookup_fmap, Hg.
Qed.

#[local] Hint Resolve updateGiftCardStatus_balances | 10 : preserves.

Lemma validateGiftCardForRedemption_balances code amount :
  Preserves balances (validateGiftCardForRedemption code amount).
Proof. unfold validateGiftCardForRedemption. preserves. Qed.

#[local] Hint Resolve validateGiftCardForRedemption_balances | 10 : preserves.

(** X16.  Only a redemption changes the remaining amount of a gift card,
    and it never makes one negative.  Validating a redemption, which may
    mark a card expired, applying a gift card to a cart, taking it off the
    cart, a checkout, a capture and a cancellation leave the remaining amount
    of every card as it was. *)
Theorem gift_card_balances (w : World) :
  (forall code amount,
     balances (validateGiftCardForRedemption code amount w).2 = balances w) /\
  (forall userId code amount,
     balances (applyGiftCard userId code amount w).2 = balances w) /\
  (forall userId, balances (removeGiftCard userId w).2 = balances w) /\
  (forall newId userId, balances (createOrder newId userId w).2 = balances w) /\
  (forall ext o p s,
     balances (handleSuccessfulPayment ext o p s w).2 = balances w) /\
  (forall orderId reason userId,
     balances (cancelOrder orderId reason userId w).2 = balances w) /\
  (forall code userId amount orderId,
     balanceNonneg w ->
     balanceNonneg (redeemGiftCard code userId amount orderId w).2).
Proof.
  repeat split.
  - intros code amount. by apply validateGiftCardForRedemption_balances.
  - intros userId code amount. revert w.
    change (Preserves balances (applyGiftCard userId code amount)).
    unfold applyGiftCard, cartRepo_applyGiftCard. preserves.
  - intros userId. revert w. change (Preserves balances (removeGiftCard userId)).
    unfold removeGiftCard, cartRepo_clearGiftCard. preserves.
  - intros newId userId. unfold balances. by rewrite createOrder_giftCards.
  - intros ext o p s. revert w.
    change (Preserves balances (handleSuccessfulPayment ext o p s)).
    unfold handleSuccessfulPayment, getPaymentByRazorpayOrderId,
      reduceStockOnCapture. preserves.
  - intros orderId reason userId. revert w.
    change (Preserves balances (cancelOrder orderId reason userId)).
    unfold cancelOrder, getOrderById, orderRepo_cancelOrder. preserves.
  - intros code userId amount orderId Hw. unfold redeemGiftCard.
    rewrite bind_run.
    pose proof (validateGiftCardForRedemption_balances code amount w) as Hb.
    destruct (validateGiftCardForRedemption code amount w) as [[g|e] w1] eqn:Hval;
      simpl in Hb; [|by simpl; unfold balanceNonneg; rewrite Hb].
    apply validateGiftCardForRedemption_inv in Hval as (-> & Hg & _ & _ & _ & Hle).
    rewrite bind_run. unfold repo_redeemGiftCard. rewrite Hg.
    match goal with
    | |- context [updateGiftCardStatus ?c ?s] =>
        pose proof (updateGiftCardStatus_balances c s) as Hs
    end.
    assert (Hins : forall g', gc_remainingAmount g' = gc_remainingAmount g - amount ->
              balanceNonneg (setGiftCards (<[code := g']> (giftCards w)) w)).
    { intros g' Hg'. unfold balanceNonneg, balances. simpl. rewrite fmap_insert.
      apply map_Forall_insert_2; [|done].
      assert (Hr : balances w !! code = Some (gc_remainingAmount g))
        by (unfold balances; by rewrite lookup_fmap, Hg).
      specialize (Hw _ _ Hr). simpl in Hw. lia. }
    cbv beta iota zeta. rewrite bind_run. cbn [gc_remainingAmount].
    destruct (decide (gc_remainingAmount g - amount = 0)); cbv beta iota.
    + match goal with
      | |- context [updateGiftCardStatus ?c ?s ?w0] =>
          specialize (Hs w0); destruct (updateGiftCardStatus c s w0) as [[[]|e'] w2]
      end; simpl in *; unfold balanceNonneg; rewrite Hs; by apply Hins.
    + simpl. by apply Hins.
Qed.

(** X17.  A gift card found past its validity is marked expired by the
    validation that finds it, which throws BadRequestError "Gift card has
    expired"; an application of the card to a cart fails. *)
Theorem validateGiftCardForRedemption_expires
    (code : string) (amount : Z) (g : GiftCard) (w : World) :
  giftCards w !! code = Some g ->
  gc_isActive g = true ->
  gc_status g = GC_ACTIVE ->
  now w > gc_validUpto g ->
  validateGiftCardForRedemption code amount w
  = (Throw (BadRequestError "Gift card has expired"),
     setGiftCards (<[code := withGiftStatus g GC_EXPIRED]> (giftCards w)) w) /\
  (forall userId, isOk (applyGiftCard userId code amount w).1 = false).
Proof.
  intros Hg Hact Hst Hnow.
  assert (Hval : validateGiftCardForRedemption code amount w
                 = (Throw (BadRequestError "Gift card has expired"),
                    setGiftCards (<[code := withGiftStatus g GC_EXPIRED]>
                                    (giftCards w)) w)).
  { unfold validateGiftCardForRedemption, updateGiftCardStatus. munfold.
    rewrite Hg. simpl. rewrite Hact, Hst. simpl.
    destruct (decide (now w > gc_validUpto g)); [|lia]. simpl. by rewrite Hg. }
  split; [done|]. intros userId. unfold applyGiftCard. rewrite bind_run.
  destruct (getCart userId w) as [[cart|e] w1] eqn:Hcart; [|done].
  assert (Hw1 : giftCards w1 = giftCards w /\ now w1 = now w).
  { revert Hcart. unfold getCart. destruct (carts w !! userId); by intros [= <- <-]. }
  destruct Hw1 as [Hg1 Hn1].
  destruct (c_items cart); [done|].
  destruct (decide (amount > _)); [done|]. rewrite bind_run.
  unfold validateGiftCardForRedemption, updateGiftCardStatus. munfold.
  rewrite Hg1, Hg. simpl. rewrite Hact, Hst. simpl. rewrite Hn1.
  by destruct (decide (now w > gc_validUpto g)); [|lia].
Qed.

Lemma validateGiftCardForRedemption_expires_example :
  validateGiftCardForRedemption "GC1" 30 lateShop
  = (Throw (BadRequestError "Gift card has expired"),
     setGiftCards (<["GC1" := withGiftStatus
                                (mkGiftCard "g1" 100 GC_ACTIVE true 400 [])
                                GC_EXPIRED]> (giftCards lateShop)) lateShop) /\
  (forall userId, isOk (applyGiftCard userId "GC1" 30 lateShop).1 = false).
Proof.
  apply validateGiftCardForRedemption_expires.
  - vm_compute. reflexivity.
  - reflexivity.
  - reflexivity.
  - vm_compute. reflexivity.
Defined.

(** ** Taking a discount off the cart *)

Lemma setCarts_id w : setCarts (carts w) w = w.
Proof. by destruct w. Qed.

Lemma setCarts_setCarts x y w : setCarts x (setCarts y w) = setCarts x w.
Proof. done. Qed.

(** X18.  Taking a gift card or a voucher off the cart undoes its
    application: from a cart without a gift card, [applyGiftCard] followed
    by [removeGiftCard] returns the cart as it was and leaves the database as
    it was before the two; the same holds of [applyVoucher] followed by
    [removeVoucher] from a cart without a voucher. *)
Theorem remove_undoes_apply (userId : string) (cart : Cart) (w : World) :
  carts w !! userId = Some cart ->
  (forall code amount cart' w',
     c_appliedGiftCard cart = None ->
     applyGiftCard userId code amount w = (Ok cart', w') ->
     removeGiftCard userId w' = (Ok cart, w)) /\
  (forall code r w',
     c_appliedVoucher cart = None ->
     applyVoucher userId code w = (Ok r, w') ->
     removeVoucher userId w' = (Ok cart, w)).
Proof.
  intros Hcart. split.
  - intros code amount cart' w' Hnone.
    unfold applyGiftCard, getCart, cartRepo_applyGiftCard, updateCart.
    rewrite bind_run, Hcart.
    destruct (c_items cart) as [|item rest] eqn:Hitems; [done|].
    destruct (decide (amount > _)); [done|]. rewrite bind_run.
    destruct (validateGiftCardForRedemption code amount w) as [[g|e] w1] eqn:Hval;
      [|done].
    apply validateGiftCardForRedemption_inv in Hval as (-> & _).
    rewrite bind_run, Hcart. intros [= <- <-].
    unfold removeGiftCard, getCart, cartRepo_clearGiftCard, updateCart.
    rewrite bind_run. simpl. rewrite lookup_insert_eq. simpl.
    rewrite bind_run. simpl. rewrite lookup_insert_eq. simpl.
    rewrite insert_insert_eq, <- Hnone.
    replace (mkCart (c_items cart) (c_appliedCoupon cart) (c_appliedVoucher cart)
                    (c_appliedGiftCard cart)) with cart by by destruct cart.
    rewrite insert_id by done. unfold mret, M_ret, ret.
    by rewrite setCarts_setCarts, setCarts_id.
  - intros code r w' Hnone Hrun.
    destruct (applyVoucher_applies_inv userId code w w' r Hrun)
      as (cart0 & v & Hc & _ & _ & -> & ->).
    rewrite Hcart in Hc. injection Hc as <-.
    unfold removeVoucher, getCart, cartRepo_clearVoucher, updateCart.
    rewrite bind_run. simpl. rewrite lookup_insert_eq. simpl.
    rewrite bind_run. simpl. rewrite lookup_insert_eq. simpl.
    rewrite insert_insert_eq, <- Hnone.
    replace (mkCart (c_items cart) (c_appliedCoupon cart) (c_appliedVoucher cart)
                    (c_appliedGiftCard cart)) with cart by by destruct cart.
    rewrite insert_id by done. unfold mret, M_ret, ret.
    by rewrite setCarts_setCarts, setCarts_id.
Qed.

Lemma remove_undoes_apply_example :
  removeGiftCard "u2" (applyGiftCard "u2" "GC1" 100 shop).2 = (Ok plainCart, shop) /\
  removeVoucher "u2" (applyVoucher "u2" "V10" shop).2 = (Ok plainCart, shop).
Proof.
  destruct (remove_undoes_apply "u2" plainCart shop) as [Hg Hv];
    [vm_compute; reflexivity|].
  split.
  - apply (Hg "GC1" 100
             (withGiftCard plainCart (Some (mkAppliedGiftCard "GC1" "g1" 100))));
      [reflexivity|]. vm_compute. reflexivity.
  - apply (Hv "V10"
             (Some (withVoucher plainCart
                      (Some (mkAppliedVoucher "V10" "v1" "ten" 10 10)))));
      [reflexivity|]. vm_compute. reflexivity.
Defined.

(** X19.  [removeDiscount] goes through for every cart with items, whether
    or not the named slot is filled: it clears the named slots, both for
    'all', and keeps the items and the gift card.  On a cart with items whose
    named slots are empty it therefore returns the cart as it is and leaves
    the database as it is, no [NotFoundError] is thrown.  For a cart without
    items it throws the [BadRequestError] of the empty cart and writes
    nothing. *)
Theorem removeDiscount_guard
    (userId : string) (type : DiscountType) (cart : Cart) (w : World) :
  carts w !! userId = Some cart ->
  (c_items cart <> [] ->
   removeDiscount userId type w
   = (Ok (Some (withoutDiscount type cart)),
      setCarts (<[userId := withoutDiscount type cart]> (carts w)) w)) /\
  (c_items cart <> [] -> hasDiscount type cart = false ->
   removeDiscount userId type w = (Ok (Some cart), w)) /\
  (c_items cart = [] ->
   removeDiscount userId type w = (Throw (BadRequestError "Cart is empty"), w)).
Proof.
  intros Hcart.
  assert (Hrun : c_items cart <> [] ->
                 removeDiscount userId type w
                 = (Ok (Some (withoutDiscount type cart)),
                    setCarts (<[userId := withoutDiscount type cart]> (carts w)) w)).
  { intros Hne.
    unfold removeDiscount, getCart, cartRepo_removeDiscount, updateCart,
      withoutDiscount, slotMissing.
    rewrite bind_run, Hcart.
    destruct (c_items cart) as [|item rest] eqn:Hitems; [done|].
    rewrite !andb_false_r. munfold. simpl. by rewrite Hcart, Hitems. }
  split; [exact Hrun|]. split.
  - intros Hne Hnone. rewrite (Hrun Hne).
    assert (Hsame : withoutDiscount type cart = cart).
    { unfold withoutDiscount, hasDiscount in *. destruct cart as [iss c v g].
      simpl in *. destruct type, c, v; simpl in *; done. }
    by rewrite Hsame, insert_id, setCarts_id.
  - intros Hnil. unfold removeDiscount, getCart. rewrite bind_run, Hcart.
    by rewrite Hnil.
Qed.

Lemma removeDiscount_guard_example :
  removeDiscount "u1" all shop
  = (Ok (Some (withoutDiscount all fullCart)),
     setCarts (<["u1" := withoutDiscount all fullCart]> (carts shop)) shop) /\
  removeDiscount "u2" coupon shop = (Ok (Some plainCart), shop).
Proof.
  split.
  - apply (removeDiscount_guard "u1" all fullCart shop); [|done].
    vm_compute. reflexivity.
  - apply (removeDiscount_guard "u2" coupon plainCart shop); [|done|].
    + vm_compute. reflexivity.
    + reflexivity.
Defined.

(** ** Validating a cart *)

(** One turn of the validation: it returns, writes nothing, and pushes an
    issue exactly for an item that is not valid. *)
Lemma validateCartItem_run item w :
  exists i v,
    validateCartItem item w = (Ok (i, v), w) /\
    (i = None <-> itemValid w item = true) /\
    (i = None -> v = Some (asStored item)) /\
    (itemValid w item = true -> v = Some (asStored item)) /\
    (forall x, v = Some x -> entryOf w [item] x).
Proof.
  unfold validateCartItem, getProductById, itemValid, entryOf, loweredTo. munfold.
  destruct (decide (ci_product item = "")) as [Hid|Hid]; simpl.
  { eexists _, _. split; [done|]. rewrite bool_decide_eq_false_2 by tauto.
    by repeat split. }
  rewrite (bool_decide_eq_true_2 _ Hid). simpl.
  destruct (products w !! ci_product item) as [p|] eqn:Hp; simpl;
    [|eexists _, _; by repeat split].
  destruct (p_isActive p) eqn:Hact; simpl; [|eexists _, _; by repeat split].
  destruct (list_find _ (p_variants p)) as [[k variant]|] eqn:Hfind; simpl;
    [|eexists _, _; by repeat split].
  destruct (v_isAvailable variant) eqn:Hav; simpl; [|eexists _, _; by repeat split].
  destruct (decide (v_stock variant < ci_quantity item)) as [Hlt|Hge]; simpl.
  - eexists _, _. split; [done|].
    rewrite bool_decide_eq_false_2 by lia. split; [done|]. split; [done|].
    split; [done|].
    intros x. destruct (decide (v_stock variant > 0)); [|done].
    intros [= <-]. split; [apply list_elem_of_here|].
    unfold itemValid. rewrite (bool_decide_eq_true_2 _ Hid), Hp. simpl.
    rewrite Hact, Hfind. simpl. rewrite Hav. simpl.
    rewrite bool_decide_eq_false_2 by lia. split; [done|].
    rewrite bool_decide_eq_true_2 by lia. f_equal. lia.
  - eexists _, _. split; [done|].
    rewrite bool_decide_eq_true_2 by lia. split; [done|]. split; [done|].
    split; [done|].
    intros x [= <-]. split; [apply list_elem_of_here|].
    unfold itemValid. rewrite (bool_decide_eq_true_2 _ Hid), Hp. simpl.
    rewrite Hact, Hfind. simpl. rewrite Hav. simpl.
    by rewrite bool_decide_eq_true_2 by lia.
Qed.

Lemma entryOf_mono w items items' x :
  (forall item, item ∈ items -> item ∈ items') ->
  entryOf w items x -> entryOf w items' x.
Proof.
  destruct x; simpl; intros Hsub.
  - intros [Hin Hok]. split; [by apply Hsub|done].
  - intros (Hin & Hno & Hlow). split; [by apply Hsub|done].
Qed.

Lemma validateCartLoop_run items w :
  exists issues valid,
    validateCartLoop items w = (Ok (issues, valid), w) /\
    (issues = [] <-> forallb (itemValid w) items = true) /\
    (issues = [] -> valid = asStored <$> items) /\
    Forall (entryOf w items) valid /\
    (forall item, item ∈ items -> itemValid w item = true -> asStored item ∈ valid).
Proof.
  induction items
    as [|item rest (issues & valid & Hrun & Hiff & Hall & Hvalid & Hin)]; simpl.
  { eexists _, _. split; [done|]. repeat split; try done.
    intros item H. by apply elem_of_nil in H. }
  destruct (validateCartItem_run item w)
    as (i & v & Hi & Hiv & Hnone & Hgood & Hsome).
  rewrite bind_run, Hi, bind_run, Hrun. eexists _, _. split; [done|]. simpl.
  split; [|split; [|split]].
  - rewrite andb_true_iff, <- Hiff, <- Hiv.
    destruct i; simpl; split; try done; intros [? ?]; done.
  - destruct i; simpl; [done|]. intros ->.
    by rewrite (Hnone eq_refl), (Hall eq_refl).
  - apply Forall_app. split.
    + destruct v as [x|]; simpl; [|constructor].
      constructor; [|constructor].
      apply (entryOf_mono w [item]); [|by apply Hsome].
      intros it Hit. apply list_elem_of_singleton in Hit as ->.
      apply list_elem_of_here.
    + eapply Forall_impl; [exact Hvalid|].
      intros x. apply entryOf_mono. intros it. apply list_elem_of_further.
  - intros it Hit Hok. apply elem_of_app.
    apply elem_of_cons in Hit as [->|Hit].
    + left. rewrite (Hgood Hok). simpl. apply list_elem_of_here.
    + right. by apply Hin.
Qed.

(** X20.  The validation of a user's cart returns and writes nothing; it
    reports the cart valid exactly when every item is valid, that is when
    its product exists and is active and the first variant with its SKU is
    available with stock for the quantity; valid means no issue is listed;
    and for a cart with items [needsUpdate] is the negation of [valid]. *)
Theorem validateCartItems_valid (userId : string) (cart : Cart) (w : World) :
  carts w !! userId = Some cart ->
  exists r,
    validateCartItems userId w = (Ok r, w) /\
    cv_valid r = forallb (itemValid w) (c_items cart) /\
    (cv_valid r = true <-> cv_issues r = []) /\
    (c_items cart <> [] -> cv_needsUpdate r = Some (negb (cv_valid r))).
Proof.
  intros Hcart. unfold validateCartItems, getCart. rewrite bind_run, Hcart.
  destruct (c_items cart) as [|item rest] eqn:Hitems.
  { eexists. split; [done|]. by repeat split. }
  destruct (validateCartLoop_run (item :: rest) w)
    as (issues & valid & Hrun & Hiff & _ & _).
  rewrite bind_run, Hrun. eexists. split; [done|]. cbn [cv_valid cv_issues
    cv_needsUpdate fst snd].
  split; [|split].
  - destruct issues as [|i iss]; simpl.
    + symmetry. by apply Hiff.
    + symmetry. apply not_true_is_false. intros H. by apply Hiff in H.
  - destruct issues; simpl; split; done.
  - intros _. by destruct issues.
Qed.

Lemma validateCartItems_valid_example :
  exists r,
    validateCartItems "u4" shortShop = (Ok r, shortShop) /\
    cv_valid r = forallb (itemValid shortShop) (c_items shortCart) /\
    (cv_valid r = true <-> cv_issues r = []) /\
    (c_items shortCart <> [] -> cv_needsUpdate r = Some (negb (cv_valid r))).
Proof.
  apply (validateCartItems_valid "u4" shortCart shortShop). vm_compute.
  reflexivity.
Defined.



(** ** Payments *)

Lemma setPayments_id w : setPayments (payments w) w = w.
Proof. by destruct w. Qed.

(** Among payments with distinct ids, the payment with the id of a stored
    payment is that payment. *)
Lemma list_find_pay_id (l : list Payment) i payment :
  NoDup (pay_id <$> l) ->
  l !! i = Some payment ->
  list_find (fun q => pay_id q = pay_id payment) l = Some (i, payment).
Proof.
  intros Hnodup Hi. apply list_find_Some. split; [done|]. split; [done|].
  intros j q Hj Hlt Hid.
  assert (i = j); [|lia].
  eapply NoDup_lookup; [exact Hnodup| |].
  - by rewrite list_lookup_fmap, Hi.
  - rewrite list_lookup_fmap, Hj. simpl. by rewrite Hid.
Qed.

(** X22.  A cash-on-delivery payment is confirmed once.  When
    [confirmCODPayment] returns, the payment of the order is a
    cash-on-delivery payment stored as captured, whatever amount was
    collected; neither the order nor any stock is touched; and confirming
    again throws BadRequestError "COD payment already confirmed" without a
    write.  Payment ids are distinct. *)
Theorem confirmCODPayment_once
    (orderId : string) (collected : Z) (w w' : World) (r : option Payment) :
  NoDup (pay_id <$> payments w) ->
  confirmCODPayment orderId collected w = (Ok r, w') ->
  (exists payment,
     r = Some payment /\
     pay_orderId payment = orderId /\
     pay_method payment = COD /\
     pay_status payment = CAPTURED /\
     getPaymentByOrderId orderId w' = (Ok (Some payment), w')) /\
  orders w' = orders w /\
  products w' = products w /\
  (forall collected',
     confirmCODPayment orderId collected' w'
     = (Throw (BadRequestError "COD payment already confirmed"), w')).
Proof.
  intros Hnodup. unfold confirmCODPayment, getPaymentByOrderId.
  rewrite bind_run. unfold gets at 1.
  destruct (list_find (fun q => pay_orderId q = orderId) (payments w))
    as [[i payment]|] eqn:Hfind; simpl; [|done].
  destruct (decide (pay_method payment <> COD)) as [|Hcod]; [done|].
  destruct (decide (pay_status payment = CAPTURED)); [done|].
  unfold markPaymentAsCaptured, updatePaymentDoc.
  pose proof Hfind as Hfind0.
  apply list_find_Some in Hfind as (Hi & Horder & _).
  rewrite (list_find_pay_id _ i payment Hnodup Hi).
  set (f := fun q : Payment =>
         mkPayment (pay_id q) (pay_orderId q) (pay_user q) (pay_amount q)
           (pay_method q) CAPTURED (pay_razorpayOrderId q)
           (pay_razorpayPaymentId q)).
  intros [= <- <-]. simpl.
  assert (Hfind' : list_find (fun q => pay_orderId q = orderId)
                     (<[i := f payment]> (payments w)) = Some (i, f payment)).
  { pose proof (list_find_insert_keeps (fun q => pay_orderId q = orderId) f
                  (payments w) i i payment payment ltac:(done) Hfind0 Hi) as H.
    by destruct (decide (i = i)). }
  subst f. cbv beta in Hfind'.
  split; [|split; [done|split; [done|]]].
  - eexists. split; [reflexivity|]. simpl. split; [done|].
    split; [by destruct (decide (pay_method payment = COD)); [|destruct Hcod]|].
    split; [done|].
    unfold gets. simpl. by rewrite Hfind'.
  - intros collected'. rewrite bind_run. unfold gets at 1. simpl.
    rewrite Hfind'. simpl.
    destruct (decide (pay_method payment <> COD)); [done|]. done.
Qed.

Lemma confirmCODPayment_once_example :
  let w' := (confirmCODPayment "o2" 999 afterInitiateCOD).2 in
  (exists payment,
     Some (mkPayment "pay2" "o2" "u1" 230 COD CAPTURED None None) = Some payment /\
     pay_orderId payment = "o2" /\
     pay_method payment = COD /\
     pay_status payment = CAPTURED /\
     getPaymentByOrderId "o2" w' = (Ok (Some payment), w')) /\
  orders w' = orders afterInitiateCOD /\
  products w' = products afterInitiateCOD /\
  (forall collected',
     confirmCODPayment "o2" collected' w'
     = (Throw (BadRequestError "COD payment already confirmed"), w')).
Proof.
  apply (confirmCODPayment_once "o2" 999 afterInitiateCOD).
  - apply (bool_decide_unpack _). vm_compute. exact I.
  - vm_compute. reflexivity.
Defined.

(** X23.  Paying cash on delivery: for an order of the user without a
    captured payment, [initiatePayment] always appends a new payment record,
    in status created and for the order's total, and takes no stock; a
    pending order moves to processing and the payment is returned; for an
    order in any other status the method throws, the order stays as it is
    and the payment record stays in the store. *)
Theorem initiatePayment_cod
    (ext : Externals) (newId orderId user : string) (order : Order) (w : World) :
  orders w !! orderId = Some order ->
  o_user order = user ->
  pay_status <$> (snd <$> list_find (fun q => pay_orderId q = orderId) (payments w))
  <> Some CAPTURED ->
  let payment := mkPayment newId orderId user (o_total order) COD CREATED None None in
  let run := initiatePayment ext newId orderId user COD w in
  payments run.2 = (payments w ++ [payment])%list /\
  products run.2 = products w /\
  (o_status order = PENDING ->
   run.1 = Ok (Some payment) /\
   o_status <$> (orders run.2 !! orderId) = Some PROCESSING) /\
  (o_status order <> PENDING ->
   isOk run.1 = false /\ orders run.2 = orders w).
Proof.
  intros Ho Huser Hcap payment run. subst run.
  remember (initiatePayment ext newId orderId user COD w) as res eqn:Hres.
  unfold initiatePayment, getOrderById, getPaymentByOrderId in Hres.
  rewrite !bind_run in Hres. unfold gets at 1 in Hres. cbv beta in Hres.
  rewrite Ho in Hres. cbn -[mbind] in Hres.
  destruct (decide (o_user order <> user)); [done|].
  rewrite bind_run in Hres. unfold gets at 1 in Hres. cbn -[mbind] in Hres.
  rewrite bool_decide_eq_false_2 in Hres by done.
  rewrite bind_run in Hres. unfold createPayment at 1 in Hres.
  cbn -[mbind] in Hres. rewrite bind_run in Hres. fold payment in Hres.
  set (wa := setPayments (payments w ++ [payment])%list w) in Hres.
  pose proof (updateOrderStatus_preserves payments orderId PROCESSING
                ltac:(done) wa) as Hpay.
  pose proof (updateOrderStatus_preserves products orderId PROCESSING
                ltac:(done) wa) as Hprod.
  pose proof (updateOrderStatus_preserves orders orderId PROCESSING) as _.
  destruct (updateOrderStatus_cases orderId PROCESSING wa)
    as [(e & He & Hno)|(r & wb & Hok & Hstatus)].
  - rewrite He in Hres, Hpay, Hprod. subst res. simpl in *.
    split; [done|]. split; [done|]. split; [|done].
    intros Hpending. exfalso. apply (Hno order Ho). rewrite Hpending. simpl.
    apply list_elem_of_here.
  - rewrite Hok in Hres, Hpay, Hprod. subst res. simpl in *.
    split; [done|]. split; [done|].
    assert (Hpending : o_status order = PENDING).
    { revert Hok. unfold updateOrderStatus, getOrderById, validateStatusTransition.
      munfold. simpl. rewrite Ho. simpl. case_bool_decide as Hin; [|done].
      intros _. by apply processing_from_pending. }
    split; [done|]. intros Hne. by destruct Hne.
Qed.

Lemma initiatePayment_cod_example :
  let payment := mkPayment "pay2" "o2" "u1" 230 COD CREATED None None in
  let run := initiatePayment gateway "pay2" "o2" "u1" COD afterCheckout in
  payments run.2 = (payments afterCheckout ++ [payment])%list /\
  products run.2 = products afterCheckout /\
  (PENDING = PENDING ->
   run.1 = Ok (Some payment) /\
   o_status <$> (orders run.2 !! "o2") = Some PROCESSING) /\
  (PENDING <> PENDING ->
   isOk run.1 = false /\ orders run.2 = orders afterCheckout).
Proof.
  apply (initiatePayment_cod gateway "pay2" "o2" "u1"
           (mkOrder "ORD500007" "u1"
              [mkOrderItem "p1" "Ring" "P-1" 2 14 "gemstone" "A" 100 3 200;
               mkOrderItem "p1" "Ring" "P-1" 1 18 "gemstone" "B" 50 4 50]
              250 (Some (mkAppliedCoupon "SAVE20" "d1" 20))
              (Some (mkAppliedCoupon "V10" "v1" 10))
              (Some (mkAppliedGiftCard "GC1" "g1" 30))
              20 0 0 230 PENDING None None None None None) afterCheckout).
  - vm_compute. reflexivity.
  - reflexivity.
  - vm_compute. discriminate.
Defined.

(** X24.  [verifyPayment] adds no check to [handleSuccessfulPayment]: the
    two leave the same database and agree on whether they return; where the
    gateway order id leads to a payment they are equal, and where it leads to
    none both throw. *)
Theorem verifyPayment_handleSuccessfulPayment
    (ext : Externals) (o p s : string) (w : World) :
  (verifyPayment ext o p s w).2 = (handleSuccessfulPayment ext o p s w).2 /\
  isOk (verifyPayment ext o p s w).1 = isOk (handleSuccessfulPayment ext o p s w).1 /\
  (is_Some (list_find (fun x => pay_razorpayOrderId x = Some o) (payments w)) ->
   verifyPayment ext o p s w = handleSuccessfulPayment ext o p s w).
Proof.
  assert (Hv : verifyPayment ext o p s w = handleSuccessfulPayment ext o p s w \/
               (list_find (fun x => pay_razorpayOrderId x = Some o) (payments w)
                = None /\
                exists e e', verifyPayment ext o p s w = (Throw e, w) /\
                             handleSuccessfulPayment ext o p s w = (Throw e', w))).
  { destruct (list_find (fun x => pay_razorpayOrderId x = Some o) (payments w))
      as [[i payment]|] eqn:Hfind.
    - left. unfold verifyPayment, tryCatch.
      remember (handleSuccessfulPayment ext o p s w) as h eqn:Hh.
      destruct (verifyPaymentSignature ext o p s) eqn:Hsig; simpl.
      + rewrite bind_run. unfold liftResult at 1.
        destruct (fetchPayment ext p) as [rp|e] eqn:Hfetch.
        * rewrite <- Hh. by destruct h as [[?|?] ?].
        * subst h. unfold handleSuccessfulPayment, getPaymentByRazorpayOrderId.
          rewrite bind_run. unfold gets at 1. cbv beta. rewrite Hfind.
          cbn -[mbind]. rewrite Hsig. cbn -[mbind]. rewrite bind_run.
          unfold liftResult. by rewrite Hfetch.
      + subst h. unfold handleSuccessfulPayment, getPaymentByRazorpayOrderId.
        rewrite bind_run. unfold gets at 1. cbv beta. rewrite Hfind.
        cbn -[mbind]. by rewrite Hsig.
    - right. split; [done|].
      assert (Hh : handleSuccessfulPayment ext o p s w
                   = (Throw (NotFoundError "Payment not found"), w)).
      { unfold handleSuccessfulPayment, getPaymentByRazorpayOrderId.
        rewrite bind_run. unfold gets at 1. cbv beta. by rewrite Hfind. }
      unfold verifyPayment, tryCatch.
      destruct (verifyPaymentSignature ext o p s); simpl; [|by eexists _, _].
      rewrite bind_run. unfold liftResult at 1.
      destruct (fetchPayment ext p) as [rp|e]; [|by eexists _, _].
      rewrite Hh. by eexists _, _. }
  destruct Hv as [->|(Hnone & e & e' & -> & ->)]; [done|].
  repeat split. rewrite Hnone. by intros [? [=]].
Qed.

(** Marking a payment captured keeps the payment a gateway order id leads
    to, up to its status and gateway payment id. *)
Lemma markPaymentAsCaptured_find_fields o paymentId rzp w i payment :
  list_find (fun x => pay_razorpayOrderId x = Some o) (payments w)
  = Some (i, payment) ->
  exists payment',
    list_find (fun x => pay_razorpayOrderId x = Some o)
              (payments (markPaymentAsCaptured paymentId rzp w).2)
    = Some (i, payment') /\
    pay_id payment' = pay_id payment /\
    pay_orderId payment' = pay_orderId payment /\
    pay_amount payment' = pay_amount payment.
Proof.
  intros Hfind. unfold markPaymentAsCaptured, updatePaymentDoc.
  destruct (list_find (fun p => pay_id p = paymentId) (payments w))
    as [[j pj]|] eqn:Hj; simpl; [|eauto].
  apply list_find_Some in Hj as (Hj & _ & _).
  set (f := fun q : Payment =>
         mkPayment (pay_id q) (pay_orderId q) (pay_user q) (pay_amount q)
           (pay_method q) CAPTURED (pay_razorpayOrderId q)
           (match rzp with Some id => Some id | None => pay_razorpayPaymentId q end)).
  exists (if decide (i = j) then f payment else payment). split.
  - by apply (list_find_insert_keeps
                (fun x => pay_razorpayOrderId x = Some o) f).
  - by destruct (decide (i = j)).
Qed.

(** Marking a payment captured again, with the same gateway payment id,
    changes nothing. *)
Lemma markPaymentAsCaptured_again paymentId p w w1 :
  payments w1 = payments (markPaymentAsCaptured paymentId (Some p) w).2 ->
  exists up, markPaymentAsCaptured paymentId (Some p) w1 = (Ok up, w1).
Proof.
  unfold markPaymentAsCaptured, updatePaymentDoc.
  destruct (list_find (fun q => pay_id q = paymentId) (payments w))
    as [[j q]|] eqn:Hj; simpl; intros Hpay; rewrite Hpay.
  - set (f := fun q : Payment =>
           mkPayment (pay_id q) (pay_orderId q) (pay_user q) (pay_amount q)
             (pay_method q) CAPTURED (pay_razorpayOrderId q) (Some p)).
    pose proof Hj as Hj0. apply list_find_Some in Hj as (Hjl & _ & _).
    pose proof (list_find_insert_keeps (fun q => pay_id q = paymentId) f
                  (payments w) j j q q ltac:(done) Hj0 Hjl) as Hfind.
    destruct (decide (j = j)); [|done].
    change (mkPayment (pay_id q) (pay_orderId q) (pay_user q) (pay_amount q)
              (pay_method q) CAPTURED (pay_razorpayOrderId q) (Some p))
      with (f q).
    rewrite Hfind. eexists. f_equal.
    rewrite list_insert_insert_eq. unfold f at 1. simpl. fold (f q).
    change (payments w1 = <[j := f q]> (payments w)) in Hpay.
    rewrite <- Hpay. apply setPayments_id.
  - rewrite Hj. eauto.
Qed.

(** What a delivery that returns has found and left behind. *)
Lemma handleSuccessfulPayment_inv ext o p s w r w1 :
  handleSuccessfulPayment ext o p s w = (Ok r, w1) ->
  exists i payment rp,
    list_find (fun x => pay_razorpayOrderId x = Some o) (payments w)
    = Some (i, payment) /\
    verifyPaymentSignature ext o p s = true /\
    fetchPayment ext p = Ok rp /\
    String.eqb (rp_status rp) "captured" = true /\
    0 < pay_amount payment /\
    rp_amount rp = pay_amount payment * 100 /\
    payments w1 = payments (markPaymentAsCaptured (pay_id payment) (Some p) w).2 /\
    o_status <$> (orders w1 !! pay_orderId payment) = Some PROCESSING.
Proof.
  intros Hres. unfold handleSuccessfulPayment, getPaymentByRazorpayOrderId in Hres.
  rewrite bind_run in Hres. unfold gets at 1 in Hres.
  destruct (list_find _ (payments w)) as [[i payment]|] eqn:Hfind;
    cbn -[mbind] in Hres; [|done].
  destruct (verifyPaymentSignature ext o p s) eqn:Hsig; cbn -[mbind] in Hres;
    [|done].
  rewrite bind_run in Hres. unfold liftResult at 1 in Hres.
  destruct (fetchPayment ext p) as [rp|e] eqn:Hfetch; [|done].
  destruct (String.eqb (rp_status rp) "captured") eqn:Hst; cbn -[mbind] in Hres;
    [|done].
  destruct (decide (pay_amount payment <= 0)); [done|].
  destruct (decide (rp_amount rp <> pay_amount payment * 100)); [done|].
  rewrite bind_run in Hres.
  destruct (markPaymentAsCaptured (pay_id payment) (Some p) w) as [[up|e] wa]
    eqn:Hmark; [|done].
  rewrite bind_run in Hres.
  pose proof (updateOrderStatus_preserves payments (pay_orderId payment) PROCESSING
                ltac:(done) wa) as Hpay.
  destruct (updateOrderStatus_cases (pay_orderId payment) PROCESSING wa)
    as [(e & He & Hno)|(r' & wb & Hok & Hstatus)]; [by rewrite He in Hres|].
  rewrite Hok in Hpay, Hres. simpl in Hpay.
  match type of Hres with
  | ?k wb = _ =>
      assert (Hkp : Preserves payments k) by
        (unfold reduceStockOnCapture; preserves);
      assert (Hko : Preserves orders k) by
        (unfold reduceStockOnCapture; preserves);
      specialize (Hkp wb); specialize (Hko wb)
  end.
  rewrite Hres in Hkp, Hko. simpl in Hkp, Hko.
  exists i, payment, rp. repeat split; try done; try lia.
  - by rewrite Hkp, Hpay, Hmark.
  - by rewrite Hko.
Qed.

(** X25.  Delivering again a confirmation that has gone through: the second
    delivery throws BadRequestError "Invalid status transition from
    processing to processing" and leaves the whole database as the first
    delivery left it; the payment stays captured, the order stays in
    processing, no stock is taken and no mail is sent. *)
Theorem handleSuccessfulPayment_replay
    (ext : Externals) (o p s : string) (w w1 : World) (r : option Payment) :
  handleSuccessfulPayment ext o p s w = (Ok r, w1) ->
  handleSuccessfulPayment ext o p s w1
  = (Throw (BadRequestError
              "Invalid status transition from processing to processing"), w1).
Proof.
  intros Hrun.
  destruct (handleSuccessfulPayment_inv _ _ _ _ _ _ _ Hrun)
    as (i & payment & rp & Hfind & Hsig & Hfetch & Hst & Hpos & Hamount
        & Hpay & Hstatus).
  destruct (markPaymentAsCaptured_find_fields o (pay_id payment) (Some p) w i
              payment Hfind) as (payment' & Hfind' & Hid & Horder & Ham).
  rewrite <- Hpay in Hfind'.
  unfold handleSuccessfulPayment, getPaymentByRazorpayOrderId.
  rewrite bind_run. unfold gets at 1. cbv beta. rewrite Hfind'.
  cbn -[mbind]. rewrite Hsig. cbn -[mbind].
  rewrite bind_run. unfold liftResult at 1. rewrite Hfetch, Hst. cbn -[mbind].
  rewrite Ham, Hid, Horder.
  destruct (decide (pay_amount payment <= 0)); [lia|].
  destruct (decide (rp_amount rp <> pay_amount payment * 100)); [done|].
  rewrite bind_run.
  destruct (markPaymentAsCaptured_again (pay_id payment) p w w1 Hpay) as [up ->].
  rewrite bind_run.
  unfold updateOrderStatus, getOrderById. rewrite !bind_run.
  unfold gets at 1. cbv beta.
  destruct (orders w1 !! pay_orderId payment) as [order|]; [|done].
  simpl in Hstatus. injection Hstatus as Hstatus.
  unfold mret, M_ret, ret at 1. cbv beta iota.
  rewrite bind_run. unfold validateStatusTransition. rewrite Hstatus.
  reflexivity.
Qed.

Lemma handleSuccessfulPayment_replay_example :
  handleSuccessfulPayment gateway "order_2" "pay_2" "valid" afterFirstDelivery
  = (Throw (BadRequestError
              "Invalid status transition from processing to processing"),
     afterFirstDelivery).
Proof.
  apply (handleSuccessfulPayment_replay gateway "order_2" "pay_2" "valid"
           afterInitiate afterFirstDelivery
           (Some (mkPayment "pay2" "o2" "u1" 230 RAZORPAY CAPTURED
                            (Some "order_2") (Some "pay_2")))).
  vm_compute. reflexivity.
Defined.



(** ** The general update of an order *)

(** X27.  The general update of an order does not consult the transition
    graph: for every stored order and every status it returns and stores that
    status, the snapshot of the order untouched and no stock restored, also
    where [updateOrderStatus] rejects the same change because the graph has
    no such edge. *)
Theorem updateOrder_skips_transition_graph
    (orderId : string) (order : Order) (new : IOrderStatus) (w : World) :
  orders w !! orderId = Some order ->
  exists r w',
    updateOrder orderId (statusOnly new) w = (Ok r, w') /\
    o_status <$> (orders w' !! orderId) = Some new /\
    snapshot <$> (orders w' !! orderId) = Some (snapshot order) /\
    products w' = products w /\
    (~ transition (o_status order) new ->
     exists e, updateOrderStatus orderId new w = (Throw e, w)).
Proof.
  intros Ho. unfold updateOrder, getOrderById, orderRepo_updateOrder, updateOrderDoc.
  munfold. simpl. rewrite Ho. simpl. rewrite Ho. simpl.
  eexists _, _. split; [done|]. simpl. rewrite lookup_insert_eq. simpl.
  split; [done|]. split; [done|]. split; [done|].
  intros Hno.
  destruct (updateOrderStatus_cases orderId new w)
    as [(e & He & _)|(r & w' & Hok & _)]; [eauto|].
  exfalso. apply Hno. apply validTransitions_transition.
  revert Hok. unfold updateOrderStatus, getOrderById, validateStatusTransition.
  munfold. simpl. rewrite Ho. simpl. by case_bool_decide.
Qed.

Lemma updateOrder_skips_transition_graph_example :
  exists r w',
    updateOrder "o1" (statusOnly PENDING) deliveredShop = (Ok r, w') /\
    o_status <$> (orders w' !! "o1") = Some PENDING /\
    snapshot <$> (orders w' !! "o1")
    = Some (snapshot (withLifecycle pendingOrder DELIVERED None None (Some 400)
                        None None)) /\
    products w' = products deliveredShop /\
    (~ transition DELIVERED PENDING ->
     exists e, updateOrderStatus "o1" PENDING deliveredShop
               = (Throw e, deliveredShop)).
Proof.
  apply (updateOrder_skips_transition_graph "o1"
           (withLifecycle pendingOrder DELIVERED None None (Some 400) None None)
           PENDING deliveredShop).
  vm_compute. reflexivity.
Defined.

(** ** A checkout and its cancellation *)

Lemma stockOf_products w w' productId sku :
  products w' = products w -> stockOf w' productId sku = stockOf w productId sku.
Proof. unfold stockOf. by intros ->. Qed.

Lemma skuUnique_products w w' :
  products w' = products w -> skuUnique w -> skuUnique w'.
Proof. unfold skuUnique. by intros ->. Qed.

(** With distinct SKUs the variant of a SKU and karat is the variant of the
    SKU. *)
Lemma list_find_sku_unique (vs : list Variant) sku karat i v :
  NoDup (v_sku <$> vs) ->
  list_find (fun v => v_sku v = sku /\ v_karat v = karat) vs = Some (i, v) ->
  list_find (fun v => v_sku v = sku) vs = Some (i, v).
Proof.
  intros Hnodup Hfind. apply list_find_Some in Hfind as (Hi & [Hs Hk] & _).
  apply list_find_Some. split; [done|]. split; [done|].
  intros j y Hj Hlt Hy. assert (i = j); [|lia].
  eapply NoDup_lookup; [exact Hnodup| |].
  - rewrite list_lookup_fmap, Hi. simpl. by rewrite Hs.
  - rewrite list_lookup_fmap, Hj. simpl. by rewrite Hy.
Qed.

(** What a write of a stock does to the stock of every variant. *)
Lemma stockOf_updateVariantStock productId sku n w productId' sku' :
  is_Some (stockOf w productId sku) ->
  stockOf (updateVariantStock productId sku n w).2 productId' sku'
  = if decide (productId = productId' /\ sku = sku') then Some n
    else stockOf w productId' sku'.
Proof.
  intros [m Hm].
  destruct (decide (productId = productId' /\ sku = sku')) as [[<- <-]|Hne].
  { by eapply updateVariantStock_stockOf. }
  revert Hm. unfold stockOf, updateVariantStock.
  destruct (products w !! productId) as [prod|] eqn:Hp; simpl; [|done].
  destruct (list_find (fun v => v_sku v = sku) (p_variants prod))
    as [[k v]|] eqn:Hk; simpl; [|done].
  intros _. destruct (decide (productId = productId')) as [<-|Hp'].
  - rewrite lookup_insert_eq, Hp. simpl.
    assert (Hsku : sku <> sku') by (intros ->; by apply Hne).
    pose proof Hk as Hk0. apply list_find_Some in Hk as (Hkl & Hks & _).
    destruct (list_find (fun v0 => v_sku v0 = sku') (p_variants prod))
      as [[i x]|] eqn:Hi.
    + rewrite (list_find_insert_keeps (fun v0 => v_sku v0 = sku')
                 (fun v0 => withStock v0 n) (p_variants prod) i k x v
                 ltac:(done) Hi Hkl).
      simpl. destruct (decide (i = k)) as [->|]; [|done].
      apply list_find_Some in Hi as (Hil & His & _).
      rewrite Hkl in Hil. injection Hil as <-. congruence.
    + assert (Hnone : list_find (fun v0 => v_sku v0 = sku')
                        (<[k := withStock v n]> (p_variants prod)) = None).
      { apply list_find_None. apply list_find_None in Hi.
        apply Forall_insert; [done|]. simpl. congruence. }
      by rewrite Hnone.
  - by rewrite lookup_insert_ne.
Qed.

Lemma updateVariantStock_skuUnique productId sku n :
  Maintains skuUnique (updateVariantStock productId sku n).
Proof.
  intros w Hw. unfold updateVariantStock.
  destruct (products w !! productId) as [p|] eqn:Hp; [|done].
  destruct (list_find _ _) as [[i v]|] eqn:Hfind; [|done].
  unfold skuUnique in *. simpl. apply map_Forall_insert_2; [|done]. simpl.
  apply list_find_Some in Hfind as (Hi & _ & _).
  rewrite list_fmap_insert. simpl. rewrite list_insert_id; [by apply (Hw _ _ Hp)|].
  by rewrite list_lookup_fmap, Hi.
Qed.

Lemma fmap_minus_zero (x : option Z) : (fun n => n - 0) <$> x = x.
Proof. destruct x; simpl; f_equal; lia. Qed.

(** A reservation in which every turn has reserved takes from every variant
    what the items ask of it. *)
Lemma reduceStockLoop_takes items w w' :
  skuUnique w ->
  reduceStockLoop items w = (Ok [], w') ->
  forall productId sku,
    stockOf w' productId sku
    = (fun n => n - demand ((fun it => (si_productId it, si_sku it, si_quantity it))
                              <$> items) productId sku)
        <$> stockOf w productId sku.
Proof.
  revert w. induction items as [|item rest IH]; intros w Hw.
  { simpl. intros [= <-] productId sku. by rewrite fmap_minus_zero. }
  cbn [reduceStockLoop]. rewrite bind_run.
  destruct (reduceStockStep_cases item w)
    as [[msg H]|(p & i & v & Hp & Hfind & Hq & H)]; rewrite H.
  { rewrite bind_run. by destruct (reduceStockLoop rest w) as [[errs|e] w2]. }
  rewrite bind_run.
  destruct (reduceStockLoop rest _) as [[errs|e] w2] eqn:Hrest; [|done].
  intros [= -> <-] productId sku.
  assert (Hst : stockOf w (si_productId item) (si_sku item) = Some (v_stock v)).
  { unfold stockOf. rewrite Hp. simpl.
    by rewrite (list_find_sku_unique _ _ _ _ _ (Hw _ _ Hp) Hfind). }
  rewrite (IH _ (updateVariantStock_skuUnique _ _ _ w Hw) Hrest).
  rewrite stockOf_updateVariantStock by (by rewrite Hst).
  rewrite fmap_cons. cbn [demand].
  destruct (decide (si_productId item = productId /\ si_sku item = sku))
    as [[<- <-]|Hne].
  - rewrite Hst. simpl. f_equal. lia.
  - destruct (stockOf w productId sku); simpl; f_equal; lia.
Qed.

(** What a signed adjustment that goes through returns and writes. *)
Lemma updateProductStockByVariant_run productId sku q w n :
  productId <> "" ->
  stockOf w productId sku = Some n ->
  0 <= n + q ->
  exists r,
    updateProductStockByVariant productId sku q w
    = (Ok r, (updateVariantStock productId sku (n + q) w).2).
Proof.
  intros Hid Hst Hq. revert Hst.
  unfold stockOf, updateProductStockByVariant, getProductById, updateVariantStock.
  munfold. destruct (decide (productId = "")); [done|]. simpl.
  destruct (products w !! productId) as [p|] eqn:Hp; simpl; [|done].
  destruct (list_find _ (p_variants p)) as [[i v]|] eqn:Hfind; simpl; [|done].
  intros [= <-]. destruct (decide (v_stock v + q < 0)); [lia|]. simpl.
  rewrite Hp, Hfind. simpl. eauto.
Qed.

Lemma stockOf_nonneg w productId sku n :
  stockNonneg w -> stockOf w productId sku = Some n -> 0 <= n.
Proof.
  intros Hw. unfold stockOf.
  destruct (products w !! productId) as [p|] eqn:Hp; simpl; [|done].
  destruct (list_find _ (p_variants p)) as [[i v]|] eqn:Hfind; simpl; [|done].
  intros [= <-]. apply list_find_Some in Hfind as (Hi & _ & _).
  specialize (Hw _ _ Hp). simpl in Hw. rewrite Forall_lookup in Hw.
  by apply (Hw _ _ Hi).
Qed.

(** A restore of items of known variants and quantities that are not
    negative goes through and gives every variant what the items ask. *)
Lemma restoreStock_gives items w :
  stockNonneg w ->
  Forall (fun oi => 0 <= oi_quantity oi /\ oi_product oi <> "" /\
                    is_Some (stockOf w (oi_product oi) (oi_sku oi))) items ->
  exists w',
    restoreStock items w = (Ok tt, w') /\
    forall productId sku,
      stockOf w' productId sku
      = (fun n => n + demand ((fun oi => (oi_product oi, oi_sku oi, oi_quantity oi))
                                <$> items) productId sku)
          <$> stockOf w productId sku.
Proof.
  unfold restoreStock, tryCatch.
  revert w. induction items as [|oi rest IH]; intros w Hw Hall.
  { simpl. exists w. split; [done|]. intros productId sku.
    destruct (stockOf w productId sku); simpl; f_equal; lia. }
  cbn [forEach].
  inversion Hall as [|? ? (Hq & Hid & [n Hn]) Hrest]; subst.
  pose proof (stockOf_nonneg _ _ _ _ Hw Hn) as Hn0.
  destruct (updateProductStockByVariant_run _ _ (oi_quantity oi) w n Hid Hn
              ltac:(lia)) as [r Hr].
  rewrite !bind_run, Hr. unfold mret, M_ret, ret at 1. cbv beta iota.
  set (w1 := (updateVariantStock (oi_product oi) (oi_sku oi)
                (n + oi_quantity oi) w).2).
  assert (Hst1 : forall productId sku,
            stockOf w1 productId sku
            = if decide (oi_product oi = productId /\ oi_sku oi = sku)
              then Some (n + oi_quantity oi) else stockOf w productId sku).
  { intros productId sku. apply stockOf_updateVariantStock. by rewrite Hn. }
  destruct (IH w1) as (w' & Hrun & Hst).
  { apply updateVariantStock_nonneg; [lia|done]. }
  { eapply Forall_impl; [exact Hrest|]. intros x (? & ? & ?).
    split; [done|]. split; [done|]. rewrite Hst1.
    by destruct (decide (oi_product oi = oi_product x /\ oi_sku oi = oi_sku x)). }
  exists w'. split; [exact Hrun|].
  intros productId sku. rewrite Hst, Hst1. rewrite fmap_cons. cbn [demand].
  destruct (decide (oi_product oi = productId /\ oi_sku oi = sku))
    as [[<- <-]|Hne].
  - rewrite Hn. simpl. f_equal. lia.
  - destruct (stockOf w productId sku); simpl; f_equal; lia.
Qed.

(** A request that can be served names a product and a SKU it has. *)
Lemma inStock_stockOf w productId karat sku quantity :
  inStock w productId karat sku quantity = true ->
  productId <> "" /\ is_Some (stockOf w productId sku).
Proof.
  unfold inStock, stockOf. intros H. apply andb_true_iff in H as [Hid H].
  apply bool_decide_eq_true in Hid. split; [done|].
  destruct (products w !! productId) as [p|]; simpl; [|done].
  destruct (list_find (fun v => v_karat v = karat /\ v_sku v = sku) (p_variants p))
    as [[i v]|] eqn:Hfind; [|done].
  apply list_find_Some in Hfind as (Hi & [_ Hs] & _).
  destruct (list_find (fun v0 => v_sku v0 = sku) (p_variants p)) as [[j x]|] eqn:Hj;
    simpl; [eauto|].
  apply list_find_None in Hj. rewrite Forall_lookup in Hj.
  by destruct (Hj _ _ Hi).
Qed.

(** The steps of a checkout that returns. *)
Lemma createOrder_run newId userId cart w summary w1 :
  carts w !! userId = Some cart ->
  createOrder newId userId w = (Ok summary, w1) ->
  exists lines ois order w5 w6,
    Forall2 (fun item line =>
               cl_productId line = ci_product item /\ cl_sku line = ci_sku item /\
               cl_quantity line = ci_quantity item) (c_items cart) lines /\
    Forall2 (fun line oi =>
               oi_product oi = cl_productId line /\ oi_sku oi = cl_sku line /\
               oi_quantity oi = cl_quantity line) lines ois /\
    Forall (fun line => inStock w (cl_productId line) (cl_karat line)
                          (cl_sku line) (cl_quantity line) = true) lines /\
    products w5 = products w /\
    reserveStock lines w5 = (Ok tt, w6) /\
    products w1 = products w6 /\
    orders w1 !! newId = Some order /\
    o_items order = ois /\ o_user order = userId /\ o_status order = PENDING.
Proof.
  intros Hcart0. unfold createOrder. rewrite bind_run.
  destruct (getCartWithDetails userId w) as [[cd|e] w0] eqn:Hcd; [|done].
  pose proof (getCartWithDetails_lines _ _ _ _ Hcd) as Hlines.
  destruct (cd_items cd) as [|l ls] eqn:Hitems; [done|].
  destruct (getCartWithDetails_inv _ _ _ _ Hcd) as (Hcart & Htot & Hne & ->);
    [by rewrite Hitems|].
  rewrite Hcart0 in Hcart. injection Hcart as Hcart. rewrite <- Hcart in *.
  rewrite bind_run.
  destruct (validateStockAvailability_inv (l :: ls) w) as [Hvw Hvok].
  destruct (validateStockAvailability (l :: ls) w) as [[[]|e] w2];
    simpl in Hvw; subst w2; [|done].
  specialize (Hvok eq_refl).
  unfold generateOrderNumber. rewrite !bind_run. unfold gets at 1. cbv beta iota.
  rewrite bind_run. unfold gets at 1. cbv beta iota.
  unfold mret, M_ret, ret at 1. cbv beta iota.
  rewrite bind_run.
  pose proof (preserves_mapM (fun w => w) buildOrderItem (l :: ls)
                (fun x => buildOrderItem_preserves (fun w => w) x) w) as Hb.
  destruct (mapM buildOrderItem (l :: ls) w) as [[ois|e] w3] eqn:Hois;
    simpl in Hb; subst w3; [|done].
  apply (mapM_Forall2 (fun line oi =>
           oi_product oi = cl_productId line /\ oi_sku oi = cl_sku line /\
           oi_quantity oi = cl_quantity line)) in Hois;
    [|intros x w0 y w0' Hx;
      apply buildOrderItem_copy in Hx as (? & ? & ? & ? & _); done].
  rewrite bind_run.
  pose proof (markAppliedDiscounts_preserves products cart userId
                ltac:(done) ltac:(done) w) as Hmp.
  destruct (markAppliedDiscounts cart userId w) as [[[]|e] w4]; [|done].
  simpl in Hmp. rewrite bind_run.
  destruct (orderRepo_createOrder _ _ w4) as [[order|e] w5] eqn:Hc; [|done].
  match type of Hc with
  | orderRepo_createOrder _ ?params _ = _ =>
      pose proof (orderRepo_createOrder_preserves products newId params
                    ltac:(done) w4) as Hop
  end.
  rewrite Hc in Hop. simpl in Hop.
  apply orderRepo_createOrder_inv in Hc as [-> Ho].
  rewrite bind_run.
  pose proof (reserveStock_preserves orders (l :: ls) ltac:(done) w5) as Hr.
  destruct (reserveStock _ w5) as [[[]|e] w6] eqn:Hreserve; [|done].
  simpl in Hr. rewrite bind_run.
  pose proof (clearCartItems_preserves orders userId ltac:(done) w6) as Hcl.
  pose proof (clearCartItems_preserves products userId ltac:(done) w6) as Hcp.
  destruct (clearCartItems _ w6) as [[c|e] w7]; [|done].
  simpl in Hcl, Hcp. intros [= <- <-].
  eexists (l :: ls), ois, _, w5, w6.
  split.
  { eapply Forall2_impl; [exact Hlines|].
    intros item line (? & ? & ? & ? & _). done. }
  split; [done|]. split; [done|]. split; [by rewrite Hop|].
  split; [done|]. split; [done|]. split; [by rewrite Hcl, Hr|]. done.
Qed.

Lemma demand_Forall2 {A B} (f : A -> string * string * Z)
    (g : B -> string * string * Z) xs ys :
  Forall2 (fun x y => g y = f x) xs ys -> g <$> ys = f <$> xs.
Proof. induction 1 as [|x y xs ys H _ IH]; [done|]. by rewrite !fmap_cons, H, IH. Qed.

(** X28.  A checkout and its cancellation, where the SKUs of a product are
    distinct.  A checkout that returns has taken from every variant exactly
    what the cart asked of it.  Where in addition no stock was negative and
    the cart asks for no negative quantity, cancelling the new order for the
    same user goes through and every variant has the stock it had before the
    checkout. *)
Theorem checkout_cancel_round_trip
    (newId userId reason : string) (cart : Cart) (w w1 : World)
    (summary : OrderSummary) :
  carts w !! userId = Some cart ->
  skuUnique w ->
  createOrder newId userId w = (Ok summary, w1) ->
  (forall productId sku,
     stockOf w1 productId sku
     = (fun n => n - cartDemand (c_items cart) productId sku)
         <$> stockOf w productId sku) /\
  (stockNonneg w ->
   Forall (fun item => 0 <= ci_quantity item) (c_items cart) ->
   exists r w2,
     cancelOrder newId reason (Some userId) w1 = (Ok r, w2) /\
     o_status r = CANCELLED /\
     forall productId sku, stockOf w2 productId sku = stockOf w productId sku).
Proof.
  intros Hcart Huniq Hrun.
  destruct (createOrder_run _ _ _ _ _ _ Hcart Hrun)
    as (lines & ois & order & w5 & w6 & Hlines & Hois & Hin & Hp5 & Hres & Hp1
        & Ho & Hitems & Huser & Hstatus).
  assert (Hkeys : (fun line => (cl_productId line, cl_sku line, cl_quantity line))
                    <$> lines
                  = (fun item => (ci_product item, ci_sku item, ci_quantity item))
                    <$> c_items cart).
  { apply demand_Forall2. eapply Forall2_impl; [exact Hlines|].
    intros item line (-> & -> & ->). done. }
  assert (Hokeys : (fun oi => (oi_product oi, oi_sku oi, oi_quantity oi)) <$> ois
                   = (fun item => (ci_product item, ci_sku item, ci_quantity item))
                     <$> c_items cart).
  { rewrite <- Hkeys. apply demand_Forall2. eapply Forall2_impl; [exact Hois|].
    intros line oi (-> & -> & ->). done. }
  assert (Htaken : forall productId sku,
            stockOf w1 productId sku
            = (fun n => n - cartDemand (c_items cart) productId sku)
                <$> stockOf w productId sku).
  { intros productId sku.
    rewrite (stockOf_products w6 w1) by done.
    rewrite <- (stockOf_products w w5 productId sku Hp5).
    revert Hres. unfold reserveStock, tryCatch, reduceStockForOrder.
    rewrite bind_run.
    destruct (reduceStockLoop _ w5) as [[errors|e] wr] eqn:Hloop; [|done].
    destruct errors as [|m errors]; simpl; [|done]. intros [= <-].
    rewrite (reduceStockLoop_takes _ _ _ (skuUnique_products _ _ Hp5 Huniq) Hloop).
    unfold cartDemand. rewrite <- Hkeys, <- list_fmap_compose. done. }
  split; [exact Htaken|]. intros Hnonneg Hq.
  unfold cancelOrder, getOrderById. rewrite !bind_run. unfold gets at 1.
  cbv beta iota. rewrite Ho. unfold mret, M_ret, ret at 1. cbv beta iota.
  rewrite Huser, Hstatus.
  assert (Hown : notOwner (Some userId) userId = false).
  { simpl. rewrite (bool_decide_eq_false_2 (userId <> userId)) by tauto.
    apply andb_false_r. }
  rewrite Hown. cbn [negb]. replace (canCancelOrder PENDING) with true by done.
  cbn [negb]. rewrite bind_run.
  unfold orderRepo_cancelOrder, updateOrderDoc. rewrite Ho. cbv beta iota.
  rewrite bind_run.
  match goal with
  | |- context [restoreStock ?items ?wc] =>
      destruct (restoreStock_gives items wc) as (w2 & Hrestore & Hgiven)
  end.
  { eapply stockNonneg_products; [|exact (createOrder_nonneg newId userId w Hnonneg)].
    by rewrite Hrun. }
  { rewrite Hitems.
    assert (Hall : Forall (fun line =>
              0 <= cl_quantity line /\
              (cl_productId line <> "" /\
               is_Some (stockOf w (cl_productId line) (cl_sku line)))) lines).
    { apply Forall_and. split.
      - eapply Forall2_Forall_r; [exact Hlines|].
        eapply Forall_impl; [exact Hq|].
        intros item H0 line (_ & _ & H3). by rewrite H3.
      - eapply Forall_impl; [exact Hin|]. intros line. apply inStock_stockOf. }
    eapply Forall2_Forall_r; [exact Hois|].
    eapply Forall_impl; [exact Hall|].
    intros line (H0 & Hid & Hsome) oi (-> & -> & ->).
    split; [done|]. split; [done|].
    rewrite (stockOf_products w1) by done. rewrite Htaken.
    by apply fmap_is_Some. }
  rewrite Hrestore. eexists _, w2. split; [done|]. split; [done|].
  intros productId sku. rewrite Hgiven, (stockOf_products w1) by done.
  rewrite Htaken, Hitems, Hokeys. unfold cartDemand.
  destruct (stockOf w productId sku); simpl; f_equal; lia.
Qed.

Lemma shop_skuUnique : skuUnique shop.
Proof.
  unfold skuUnique, shop. simpl. apply map_Forall_singleton.
  unfold ring. simpl. apply (bool_decide_unpack _). vm_compute. exact I.
Qed.

Lemma checkout_cancel_round_trip_example :
  (forall productId sku,
     stockOf afterCheckout productId sku
     = (fun n => n - cartDemand (c_items fullCart) productId sku)
         <$> stockOf shop productId sku) /\
  (stockNonneg shop ->
   Forall (fun item => 0 <= ci_quantity item) (c_items fullCart) ->
   exists r w2,
     cancelOrder "o2" "no longer needed" (Some "u1") afterCheckout = (Ok r, w2) /\
     o_status r = CANCELLED /\
     forall productId sku, stockOf w2 productId sku = stockOf shop productId sku).
Proof.
  apply (checkout_cancel_round_trip "o2" "u1" "no longer needed" fullCart shop
           afterCheckout (mkOrderSummary "o2" "ORD500007" 230 2 PENDING)).
  - vm_compute. reflexivity.
  - exact shop_skuUnique.
  - vm_compute. reflexivity.
Defined.

(** ** The voucher of a checkout *)

(** The marker of the checkout returns for a voucher that exists only when
    it has marked it: no error of the voucher service counts as not
    found. *)
Lemma safelyMarkVoucherAsUsed_ok code userId w v w' :
  vouchers w !! code = Some v ->
  safelyMarkVoucherAsUsed code userId w = (Ok tt, w') ->
  vo_used v = false /\
  vo_startFrom v <= now w <= vo_validUpto v /\
  w' = setVouchers (<[code := withUsed v userId]> (vouchers w)) w.
Proof.
  intros Hv.
  unfold safelyMarkVoucherAsUsed, markVoucherAsUsed, getVoucherByCode,
    hasUserUsedVoucher, markAsUsed, skipNotFound.
  munfold. rewrite Hv. simpl. rewrite Hv.
  case_bool_decide; simpl; [done|].
  rewrite Hv. simpl.
  destruct (vo_used v) eqn:Hused; simpl; [done|].
  destruct (decide (now w < vo_startFrom v)); simpl; [done|].
  destruct (decide (now w > vo_validUpto v)); simpl; [done|].
  rewrite Hv, Hused. simpl. intros [= <-]. split; [done|]. split; [lia|done].
Qed.

(** X29.  A checkout that returns has used up the voucher of the cart: the
    voucher the cart's slot names, if it exists, was unused and inside its
    window when the checkout ran, and is stored as used by the user
    afterwards. *)
Theorem createOrder_consumes_voucher
    (newId userId : string) (cart : Cart) (slot : AppliedVoucher) (v : Voucher)
    (w w1 : World) (summary : OrderSummary) :
  carts w !! userId = Some cart ->
  c_appliedVoucher cart = Some slot ->
  av_code slot <> "" ->
  vouchers w !! av_code slot = Some v ->
  createOrder newId userId w = (Ok summary, w1) ->
  vo_used v = false /\
  vo_startFrom v <= now w <= vo_validUpto v /\
  vouchers w1 !! av_code slot = Some (withUsed v userId).
Proof.
  intros Hcart0 Hslot Hcode Hv. unfold createOrder. rewrite bind_run.
  destruct (getCartWithDetails userId w) as [[cd|e] w0] eqn:Hcd; [|done].
  destruct (cd_items cd) as [|l ls] eqn:Hitems; [done|].
  destruct (getCartWithDetails_inv _ _ _ _ Hcd) as (Hcart & _ & _ & ->);
    [by rewrite Hitems|].
  rewrite Hcart0 in Hcart. injection Hcart as Hcart. rewrite <- Hcart in *.
  rewrite bind_run.
  destruct (validateStockAvailability_inv (l :: ls) w) as [Hvw _].
  destruct (validateStockAvailability (l :: ls) w) as [[[]|e] w2];
    simpl in Hvw; subst w2; [|done].
  unfold generateOrderNumber. rewrite !bind_run. unfold gets at 1. cbv beta iota.
  rewrite bind_run. unfold gets at 1. cbv beta iota.
  unfold mret, M_ret, ret at 1. cbv beta iota.
  rewrite bind_run.
  pose proof (preserves_mapM (fun w => w) buildOrderItem (l :: ls)
                (fun x => buildOrderItem_preserves (fun w => w) x) w) as Hb.
  destruct (mapM buildOrderItem (l :: ls) w) as [[ois|e] w3];
    simpl in Hb; subst w3; [|done].
  rewrite bind_run.
  destruct (markAppliedDiscounts cart userId w) as [[[]|e] w4] eqn:Hmark; [|done].
  assert (Hused : vo_used v = false /\ vo_startFrom v <= now w <= vo_validUpto v /\
                  vouchers w4 !! av_code slot = Some (withUsed v userId)).
  { revert Hmark. unfold markAppliedDiscounts. rewrite Hslot.
    rewrite bind_run.
    match goal with
    | |- context [match ?m w with _ => _ end] =>
        assert (Hcv : Preserves vouchers m) by
          (unfold safelyMarkDiscountAsUsed, getDiscountByCode, skipNotFound;
           preserves);
        assert (Hcn : Preserves now m) by
          (unfold safelyMarkDiscountAsUsed, getDiscountByCode, skipNotFound;
           preserves);
        specialize (Hcv w); specialize (Hcn w);
        destruct (m w) as [[[]|e] wa]; [|done]
    end.
    simpl in Hcv, Hcn. rewrite bind_run.
    destruct (decide (av_code slot = "")); [done|].
    destruct (safelyMarkVoucherAsUsed (av_code slot) userId wa)
      as [[[]|e] wb] eqn:Hsafe; [|done].
    apply safelyMarkVoucherAsUsed_ok with (v := v) in Hsafe as (Hu & Hwin & ->);
      [|by rewrite Hcv].
    intros Hgift.
    match type of Hgift with
    | ?m ?wb = _ =>
        assert (Hgv : Preserves vouchers m) by
          (unfold safelyMarkGiftCardAsUsed, getGiftCardByCode, skipNotFound;
           preserves);
        specialize (Hgv wb); rewrite Hgift in Hgv
    end.
    simpl in Hgv. rewrite Hgv, lookup_insert_eq. rewrite Hcn in Hwin. done. }
  destruct Hused as (Hu & Hwin & Hv4). intros Hrest.
  split; [done|]. split; [done|]. revert Hrest.
  rewrite bind_run.
  destruct (orderRepo_createOrder _ _ w4) as [[order|e] w5] eqn:Hc; [|done].
  match type of Hc with
  | orderRepo_createOrder _ ?params _ = _ =>
      pose proof (orderRepo_createOrder_preserves vouchers newId params
                    ltac:(done) w4) as Hov
  end.
  rewrite Hc in Hov. simpl in Hov. rewrite bind_run.
  pose proof (reserveStock_preserves vouchers (l :: ls) ltac:(done) w5) as Hr.
  destruct (reserveStock _ w5) as [[[]|e] w6]; [|done].
  simpl in Hr. rewrite bind_run.
  pose proof (clearCartItems_preserves vouchers userId ltac:(done) w6) as Hcl.
  destruct (clearCartItems _ w6) as [[c|e] w7]; [|done].
  simpl in Hcl. intros [= <- <-]. by rewrite Hcl, Hr, Hov.
Qed.

Lemma createOrder_consumes_voucher_example :
  let v := mkVoucher "v1" "ten" 10 0 false 0 1000 None in
  vo_used v = false /\
  vo_startFrom v <= now shop <= vo_validUpto v /\
  vouchers afterCheckout !! "V10" = Some (withUsed v "u1").
Proof.
  apply (createOrder_consumes_voucher "o2" "u1" fullCart
           (mkAppliedVoucher "V10" "v1" "ten" 10 10)
           (mkVoucher "v1" "ten" 10 0 false 0 1000 None) shop afterCheckout
           (mkOrderSummary "o2" "ORD500007" 230 2 PENDING)).
  - vm_compute. reflexivity.
  - reflexivity.
  - discriminate.
  - vm_compute. reflexivity.
  - vm_compute. reflexivity.
Defined.

(** ** The reservation loop keeps what it has reserved *)

Lemma reservable_inv w item variant :
  reservable w item = Some variant ->
  exists product i,
    products w !! si_productId item = Some product /\
    list_find (fun v => v_sku v = si_sku item /\ v_karat v = si_karat item)
              (p_variants product) = Some (i, variant) /\
    si_quantity item <= v_stock variant.
Proof.
  unfold reservable, getProductById. munfold.
  destruct (decide (si_productId item = "")); simpl; [done|].
  destruct (products w !! si_productId item) as [p|] eqn:Hp; simpl; [|done].
  destruct (list_find _ (p_variants p)) as [[i v]|] eqn:Hfind; simpl; [|done].
  case_decide; [|done]. intros [= <-]. by exists p, i.
Qed.

(** One turn of the loop, read off the database it meets. *)
Lemma reduceStockStep_turn item w :
  reduceStockStep item w
  = (Ok (match reservable w item with
         | Some _ => None
         | None => Some (failureOf w item)
         end), afterTurn w item).
Proof.
  unfold afterTurn, reservable, failureOf, reduceStockStep, getProductById.
  munfold.
  destruct (decide (si_productId item = "")); simpl; [done|].
  destruct (products w !! si_productId item) as [p|] eqn:Hp; simpl; [|done].
  destruct (list_find _ (p_variants p)) as [[i v]|] eqn:Hfind; simpl; [|done].
  destruct (decide (v_stock v < si_quantity item));
    destruct (decide (si_quantity item <= v_stock v)); try lia; simpl; [done|].
  destruct (updateVariantStock_ok (si_productId item) (si_sku item)
              (v_stock v - si_quantity item) w) as [r Hr].
  by destruct (updateVariantStock _ _ _ w) as [[r'|e] w1].
Qed.

Lemma afterTurn_failed w item : reservable w item = None -> afterTurn w item = w.
Proof. unfold afterTurn. by intros ->. Qed.

Lemma reduceStockLoop_turns items w :
  reduceStockLoop items w = (Ok (failuresOf w items), fold_left afterTurn items w).
Proof.
  revert w. induction items as [|item rest IH]; intros w; [done|].
  cbn [reduceStockLoop failuresOf fold_left].
  rewrite bind_run, reduceStockStep_turn, bind_run, IH.
  destruct (reservable w item) eqn:Hres; [done|].
  by rewrite (afterTurn_failed _ _ Hres).
Qed.

Lemma failuresOf_lists pre item post w :
  reservable (fold_left afterTurn pre w) item = None ->
  failureOf (fold_left afterTurn pre w) item ∈ failuresOf w (pre ++ item :: post).
Proof.
  revert w. induction pre as [|x pre IH]; intros w Hres.
  - simpl in *. rewrite Hres. apply list_elem_of_here.
  - cbn [app failuresOf fold_left] in *.
    destruct (reservable w x) eqn:Hx; [by apply IH|].
    apply list_elem_of_further. rewrite (afterTurn_failed _ _ Hx) in *.
    by apply IH.
Qed.

Lemma afterTurn_skuUnique w item : skuUnique w -> skuUnique (afterTurn w item).
Proof.
  unfold afterTurn. destruct (reservable w item); [|done].
  apply updateVariantStock_skuUnique.
Qed.

Lemma fold_afterTurn_skuUnique items w :
  skuUnique w -> skuUnique (fold_left afterTurn items w).
Proof.
  revert w. induction items as [|item rest IH]; intros w Hw; [done|].
  simpl. by apply IH, afterTurn_skuUnique.
Qed.

(** C1, as the code has it.  A reservation over several items releases
    nothing.  Every item has its turn, in order, on the database the turns
    before it have left, the turns after a failed one as well.  A turn that
    finds the variant of the item's SKU and karat with stock for the
    quantity sets the stock under that SKU to the stock found less the
    quantity and touches no other stock; with distinct SKUs the stock found
    is the stock that was under the SKU, which has gone down by the quantity.
    A turn that cannot reserve writes nothing and reports a text that names
    the item's SKU.  After the last turn the method returns if no turn has
    failed, and otherwise throws a BadRequestError whose message joins the
    reports of all failed turns; in both cases the database is the one the
    turns have left, the decrements of the turns before and after a failed
    one included. *)
Theorem reserveStock_releases_nothing (lines : list CartLine) (w : World) :
  reserveStock lines w
  = (match failuresOf w (map toStockItem lines) with
     | [] => Ok tt
     | _ :: _ =>
         Throw (BadRequestError
                  ("Failed to reserve stock: Stock reduction failed: "
                   ++ join "; " (failuresOf w (map toStockItem lines))))
     end,
     fold_left afterTurn (map toStockItem lines) w) /\
  (forall pre item post,
     map toStockItem lines = (pre ++ item :: post)%list ->
     match reservable (fold_left afterTurn pre w) item with
     | Some variant =>
         si_quantity item <= v_stock variant /\
         (forall productId sku,
            stockOf (fold_left afterTurn (pre ++ [item]) w) productId sku
            = if decide (si_productId item = productId /\ si_sku item = sku)
              then Some (v_stock variant - si_quantity item)
              else stockOf (fold_left afterTurn pre w) productId sku) /\
         (skuUnique w ->
          stockOf (fold_left afterTurn pre w) (si_productId item) (si_sku item)
          = Some (v_stock variant))
     | None =>
         fold_left afterTurn (pre ++ [item]) w = fold_left afterTurn pre w /\
         failureOf (fold_left afterTurn pre w) item
           ∈ failuresOf w (map toStockItem lines) /\
         exists before after,
           failureOf (fold_left afterTurn pre w) item
           = before ++ si_sku item ++ after
     end).
Proof.
  split.
  - unfold reserveStock, reduceStockForOrder. fold toStockItem.
    unfold tryCatch. rewrite bind_run, reduceStockLoop_turns.
    by destruct (failuresOf w (map toStockItem lines)).
  - intros pre item post Hitems. rewrite fold_left_app. cbn [fold_left].
    set (w0 := fold_left afterTurn pre w).
    destruct (reservable w0 item) as [variant|] eqn:Hres.
    + destruct (reservable_inv _ _ _ Hres) as (product & i & Hp & Hfind & Hle).
      assert (Hsome : is_Some (stockOf w0 (si_productId item) (si_sku item))).
      { unfold stockOf. rewrite Hp. simpl.
        destruct (list_find (fun v => v_sku v = si_sku item) (p_variants product))
          as [[j x]|] eqn:Hj; [by eexists|].
        apply list_find_Some in Hfind as (Hi & [Hs _] & _).
        rewrite list_find_None, Forall_forall in Hj.
        exfalso. apply (Hj variant); [|done]. by eapply list_elem_of_lookup_2. }
      split; [done|]. split.
      * intros productId sku. unfold afterTurn. rewrite Hres.
        by apply stockOf_updateVariantStock.
      * intros Hu. unfold stockOf. rewrite Hp. simpl.
        assert (Hu0 : skuUnique w0) by by apply fold_afterTurn_skuUnique.
        rewrite (list_find_sku_unique _ _ _ _ _ (Hu0 _ _ Hp) Hfind). done.
    + split; [by apply afterTurn_failed|]. split.
      * rewrite Hitems. by apply failuresOf_lists.
      * unfold failureOf.
        destruct ((getProductById (si_productId item) w0).1) as [product|error];
          [|by eexists _, _].
        destruct (list_find _ (p_variants product)) as [[i v]|]; by eexists _, _.
Qed.

(** C1 fails as stated: the reservation of 3 of B fails on a stock of 2, and
    the 2 of A reserved before it stay reserved, the stock of A reading 3
    where it read 5; what is thrown is a BadRequestError. *)
Lemma reserveStock_keeps_earlier_decrement :
  (reserveStock shortLines shop).1
  = Throw (BadRequestError
             "Failed to reserve stock: Stock reduction failed: Insufficient stock for SKU: B. Available: 2, Required: 3") /\
  stockOf shop "p1" "A" = Some 5 /\
  stockOf (reserveStock shortLines shop).2 "p1" "A" = Some 3 /\
  stockOf (reserveStock shortLines shop).2 "p1" "B" = Some 2.
Proof. vm_compute. repeat split; reflexivity. Qed.

(** Four lines, of which the second is short of stock and the third names no
    variant: both are reported, and the 2 of A of the first line and the 1 of
    A of the last are taken, the stock of A reading 2 where it read 5. *)
Lemma reserveStock_releases_nothing_example :
  (reserveStock brokenLines shop).1
  = Throw (BadRequestError
             "Failed to reserve stock: Stock reduction failed: Insufficient stock for SKU: B. Available: 2, Required: 3; Variant not found for SKU: Z, Karat: 22") /\
  (reserveStock brokenLines shop).2
  = fold_left afterTurn (map toStockItem brokenLines) shop /\
  stockOf shop "p1" "A" = Some 5 /\
  stockOf (fold_left afterTurn (map toStockItem brokenLines) shop) "p1" "A" = Some 2 /\
  stockOf (fold_left afterTurn (map toStockItem brokenLines) shop) "p1" "B" = Some 2.
Proof.
  destruct (reserveStock_releases_nothing brokenLines shop) as [Hrun _].
  rewrite Hrun. cbn [fst snd]. split; [vm_compute; reflexivity|].
  split; [reflexivity|]. vm_compute. repeat split; reflexivity.
Defined.
